(** * Task service: shallow embedding of [Task_Service/main.py]

    The Flask handlers of the task service are embedded as functions in a
    small state-and-exception monad over a request context.  The context
    holds the SQLAlchemy session of the request (committed rows, the rows
    seen by the open transaction, the identity map and the pending unit of
    work) together with a log of the HTTP calls made to the user service.
    The environment of a request (what the peer answers, which SQL
    statements fail, the clock, where a rounding tie goes, how the
    database driver adapts values of an unexpected JSON type) is a
    parameter of every handler. *)

From Stdlib Require Import PrimFloat.
From Stdlib Require Import List ZArith QArith Qround String Ascii Bool Lia.
From Stdlib Require Import Permutation Sorted DecimalString Lqa.
Import ListNotations.

Close Scope Q_scope.
Open Scope string_scope.
Open Scope list_scope.
Open Scope nat_scope.
Set Warnings "-register-all".

(** ** Python values *)

(** The value returned by [request.get_json()] or by [response.json()].
    [None] is [JNull]; a JSON object is the dict built by the parser, its
    keys pairwise distinct.  JSON numbers with a fractional part do not
    occur in the interface of the service and are left out. *)
Inductive json : Type :=
| JNull
| JBool (b : bool)
| JInt (z : Z)
| JStr (s : string)
| JList (l : list json)
| JObj (m : list (string * json)).

(** An exception: the name of its class and the text [str(e)]. *)
Record exn : Type := mkExn { exn_class : string; exn_text : string }.

Inductive result (A : Type) : Type :=
| Ok (a : A)
| Raise (e : exn).
Arguments Ok {A} a.
Arguments Raise {A} e.

Definition str_of_nat (n : nat) : string := NilZero.string_of_uint (Nat.to_uint n).
Definition str_of_Z (z : Z) : string := NilZero.string_of_int (Z.to_int z).

Definition TypeError (msg : string) : exn := mkExn "TypeError" msg.
Definition AttributeError (msg : string) : exn := mkExn "AttributeError" msg.

(** Truth value of a Python object, as tested by [not x] and [if x]. *)
Definition truthy (j : json) : bool :=
  match j with
  | JNull => false
  | JBool b => b
  | JInt z => negb (z =? 0)%Z
  | JStr s => negb (String.eqb s "")
  | JList l => match l with [] => false | _ :: _ => true end
  | JObj m => match m with [] => false | _ :: _ => true end
  end.

Fixpoint dict_lookup (k : string) (m : list (string * json)) : option json :=
  match m with
  | [] => None
  | (k', v) :: m' => if String.eqb k k' then Some v else dict_lookup k m'
  end.

Definition type_name (j : json) : string :=
  match j with
  | JNull => "NoneType"
  | JBool _ => "bool"
  | JInt _ => "int"
  | JStr _ => "str"
  | JList _ => "list"
  | JObj _ => "dict"
  end.

(** [d.get(k)] on a dict: [None] when the key is absent. *)
Definition dict_get (k : string) (m : list (string * json)) : json :=
  match dict_lookup k m with Some v => v | None => JNull end.

(** [data.get(k)]: a method of dicts only. *)
Definition py_get (data : json) (k : string) : result json :=
  match data with
  | JObj m => Ok (dict_get k m)
  | _ => Raise (AttributeError
                  (append "'" (append (type_name data) "' object has no attribute 'get'")))
  end.

Definition is_str (k : string) (j : json) : bool :=
  match j with JStr s => String.eqb s k | _ => false end.

(** [k in data] for a string [k]: key test on a dict, membership on a
    list, substring test on a string, [TypeError] elsewhere. *)
Definition py_contains (k : string) (data : json) : result bool :=
  match data with
  | JObj m => Ok (match dict_lookup k m with Some _ => true | None => false end)
  | JList l => Ok (existsb (is_str k) l)
  | JStr s => Ok (match String.index 0 k s with Some _ => true | None => false end)
  | _ => Raise (TypeError
                  (append "argument of type '" (append (type_name data) "' is not iterable")))
  end.

(** [data[k]] for a string [k]. *)
Definition py_getitem (data : json) (k : string) : result json :=
  match data with
  | JObj m => match dict_lookup k m with
              | Some v => Ok v
              | None => Raise (mkExn "KeyError" (append "'" (append k "'")))
              end
  | JList _ => Raise (TypeError "list indices must be integers or slices, not str")
  | JStr _ => Raise (TypeError "string indices must be integers")
  | _ => Raise (TypeError
                  (append "'" (append (type_name data) "' object is not subscriptable")))
  end.

(** [len(x)]. *)
Definition py_len (j : json) : result nat :=
  match j with
  | JList l => Ok (List.length l)
  | JObj m => Ok (List.length m)
  | JStr s => Ok (String.length s)
  | _ => Raise (TypeError
                  (append "object of type '" (append (type_name j) "' has no len()")))
  end.

(** ** Division and rounding

    [a / b] on integers and [round(x, 2)] are computed over the
    rationals.  The quotient is exact.  [round] goes to the nearest
    multiple of 1/100.  Python rounds the binary floating-point value of
    its argument, so that for an argument half-way between two multiples
    the result depends on the representation error ([round(0.125, 2)] is
    0.12, [round(0.005, 2)] is 0.01); that error is not modelled, and
    where a tie goes is asked of the environment. *)
Definition ratio (a b : nat) : Q :=
  (inject_Z (Z.of_nat a) / inject_Z (Z.of_nat b))%Q.

Definition py_truediv (a b : nat) : result Q :=
  if b =? 0 then Raise (mkExn "ZeroDivisionError" "division by zero")
  else Ok (ratio a b).

Definition round_nearest (tie_up : bool) (x : Q) : Z :=
  let f := Qfloor x in
  match Qcompare (x - inject_Z f)%Q (1 # 2)%Q with
  | Lt => f
  | Gt => (f + 1)%Z
  | Eq => if tie_up then (f + 1)%Z else f
  end.

(** [round(q, 2)] *)
Definition py_round2 (tie_up : Q -> bool) (q : Q) : Q :=
  (inject_Z (round_nearest (tie_up q) (q * inject_Z 100)) / inject_Z 100)%Q.

(** Ties go to the even multiple, as for an argument that binary
    floating point represents exactly. *)
Definition ties_to_even (q : Q) : bool := Z.odd (Qfloor (q * inject_Z 100)).

(** ** The model class and the peer *)

(** [class Task(db.Model)]: a row of table [task]. *)
Record Task : Type := mkTask { id : Z; title : string; user_id : Z }.

(** The two requests sent to the user service:
    [GET /users/<user_id>] and [GET /users]. *)
Inductive peer_request : Type :=
| GetUser (uid : json)
| GetUsers.

(** What [requests.get] does: it raises, or it returns a response with a
    status code and a body on which [.json()] answers or raises. *)
Inductive peer_reply : Type :=
| PeerRaises (e : exn)
| PeerReplies (status : Z) (body : result json).

(** The environment of one request. *)
Record Env : Type := mkEnv {
  peer : peer_request -> peer_reply;
  (** the n-th SQL statement of the request raises this error *)
  db_fault : nat -> option exn;
  (** [datetime.now().isoformat()] *)
  now_iso : string;
  (** whether [round(q, 2)] goes up when [q] is half-way between two multiples of 1/100 *)
  round_tie_up : Q -> bool;
  (** what the driver stores in a VARCHAR column for a value that is not a string *)
  adapt_text : json -> result string;
  (** what the driver stores in an INTEGER column for a value that is not an integer *)
  adapt_integer : json -> result Z;
  (** which primary key, if any, a lookup key that is not an integer matches *)
  adapt_key : json -> result (option Z)
}.

(** ** Request context and monad *)

Record Ctx : Type := mkCtx {
  db_rows : list Task;              (** committed content of table [task] *)
  tx_rows : list Task;              (** the table as the open transaction sees it *)
  identity_map : list Task;         (** persistent objects of the session *)
  pending_new : list (json * json); (** [session.add]: (title, user_id) not yet inserted *)
  pending_deleted : list Task;      (** [session.delete]: marked, not yet flushed *)
  sql_issued : nat;                 (** SQL statements sent so far *)
  peer_calls : list peer_request    (** HTTP calls made so far, latest last *)
}.

Definition M (A : Type) : Type := Ctx -> result A * Ctx.

Definition ret {A} (a : A) : M A := fun c => (Ok a, c).
Definition raise {A} (e : exn) : M A := fun c => (Raise e, c).
Definition bind {A B} (m : M A) (k : A -> M B) : M B :=
  fun c => match m c with
           | (Ok a, c') => k a c'
           | (Raise e, c') => (Raise e, c')
           end.
Definition lift {A} (r : result A) : M A := fun c => (r, c).

(** [try: body except Exception as e: handler(e)] *)
Definition try_except {A} (body : M A) (handler : exn -> M A) : M A :=
  fun c => match body c with
           | (Ok a, c') => (Ok a, c')
           | (Raise e, c') => handler e c'
           end.

Declare Scope py_scope.
Delimit Scope py_scope with py.
Notation "x <- m ;; k" := (bind m (fun x => k))
  (at level 61, m at next level, right associativity) : py_scope.
Notation "m ;;; k" := (bind m (fun _ => k))
  (at level 61, right associativity) : py_scope.
Open Scope py_scope.

(** ** Responses *)

(** The snapshot built by [get_task_stats]; the nested dicts [tasks],
    [users], [productivity_metrics] and [system] are flattened, the keys
    keep their names. *)
Record Stats : Type := mkStats {
  timestamp : string;
  total_tasks : nat;
  users_with_tasks : nat;
  recent_tasks : list Task;
  top_productive_users : list (Z * nat);   (** (user_id, task_count) *)
  total_users : nat;
  error : option string;
  avg_tasks_per_user : Q;
  avg_tasks_per_active_user : Q;
  system_status : string;
  task_service : string;
  user_service : string
}.

Inductive payload : Type :=
| PError (msg : string)        (** [{'error': msg}] *)
| PMessage (msg : string)      (** [{'message': msg}] *)
| PTask (t : Task)
| PTaskList (l : list Task)
| PStats (s : Stats)
| PUncaught (e : exn).         (** the framework's page for an uncaught exception *)

Record response : Type := mkResponse { status_code : Z; body : payload }.

(** Either the handler goes on with a value or it has returned. *)
Inductive flow (A : Type) : Type :=
| Continue (a : A)
| Return (r : response).
Arguments Continue {A} a.
Arguments Return {A} r.

(** ** Counter and ranking *)

(** [collections.Counter]: a dict from key to count, in insertion order. *)
Fixpoint counter_incr (k : Z) (c : list (Z * nat)) : list (Z * nat) :=
  match c with
  | [] => [(k, 1)]
  | (k', n) :: c' =>
      if (k =? k')%Z then (k', S n) :: c' else (k', n) :: counter_incr k c'
  end.

Definition Counter (keys : list Z) : list (Z * nat) :=
  fold_left (fun c k => counter_incr k c) keys [].

(** [sorted(items, key=itemgetter(1), reverse=True)]: a stable sort,
    equal counts keep the order they had. *)
Fixpoint insert_by_count (x : Z * nat) (l : list (Z * nat)) : list (Z * nat) :=
  match l with
  | [] => [x]
  | y :: l' => if snd x <? snd y then y :: insert_by_count x l' else x :: l
  end.

Definition sorted_by_count (items : list (Z * nat)) : list (Z * nat) :=
  fold_right insert_by_count [] items.

(** [Counter.most_common(n)] is [heapq.nlargest(n, items, key=count)],
    that is, the first [n] of the stable descending sort. *)
Definition most_common (n : nat) (c : list (Z * nat)) : list (Z * nat) :=
  firstn n (sorted_by_count c).

(** [ORDER BY id DESC]. *)
Fixpoint insert_by_id (x : Task) (l : list Task) : list Task :=
  match l with
  | [] => [x]
  | y :: l' => if (id x <? id y)%Z then y :: insert_by_id x l' else x :: l
  end.

Definition order_by_id_desc (rows : list Task) : list Task :=
  fold_right insert_by_id [] rows.

Definition has_id (k : Z) (t : Task) : bool := (id t =? k)%Z.

(** SQLite gives a new row the largest id of the table plus one. *)
Definition next_id (rows : list Task) : Z :=
  (1 + fold_right Z.max 0 (map id rows))%Z.

Section Handlers.

Variable env : Env.

(** ** The session

    Flask-SQLAlchemy opens one session per request and removes it when
    the request ends.  The session is a unit of work: [add] and [delete]
    only mark objects, the SQL is sent by the next flush, and a flush
    happens before every query that reaches the database and at commit.
    The identity map holds the objects loaded so far, by primary key;
    [Query.get] looks there first. *)

(** One SQL statement: it is counted, and it fails when the environment
    says so. *)
Definition statement {A} (run : Ctx -> result A * Ctx) : M A :=
  fun c =>
    let c' := mkCtx (db_rows c) (tx_rows c) (identity_map c) (pending_new c)
                    (pending_deleted c) (S (sql_issued c)) (peer_calls c) in
    match db_fault env (sql_issued c) with
    | Some e => (Raise e, c')
    | None => run c'
    end.

(** Binding a Python value to a column or to a key: a value of the
    column's type is bound as it is, any other as the driver decides. *)
Definition bind_text (j : json) : result string :=
  match j with JStr s => Ok s | _ => adapt_text env j end.

Definition bind_integer (j : json) : result Z :=
  match j with JInt z => Ok z | _ => adapt_integer env j end.

Definition bind_key (j : json) : result (option Z) :=
  match j with JInt z => Ok (Some z) | _ => adapt_key env j end.

(** INSERT of the added objects; they become persistent. *)
Fixpoint insert_all (new : list (json * json)) (rows objs : list Task)
  : result (list Task * list Task) :=
  match new with
  | [] => Ok (rows, objs)
  | (t, u) :: new' =>
      match bind_text t with
      | Raise e => Raise e
      | Ok s =>
          match bind_integer u with
          | Raise e => Raise e
          | Ok z => let r := mkTask (next_id rows) s z in
                    insert_all new' (rows ++ [r]) (objs ++ [r])
          end
      end
  end.

(** The row is one of those marked for deletion. *)
Definition marked (del : list Task) (t : Task) : bool := existsb (has_id (id t)) del.

(** [session.flush()]: nothing is sent when nothing is pending; otherwise
    the pending INSERTs and DELETEs reach the transaction, and the deleted
    objects leave the identity map. *)
Definition flush : M unit :=
  fun c =>
    match pending_new c, pending_deleted c with
    | [], [] => (Ok tt, c)
    | _, _ =>
        statement
          (fun c1 =>
             match insert_all (pending_new c1) (tx_rows c1) (identity_map c1) with
             | Raise e => (Raise e, c1)
             | Ok (rows, objs) =>
                 (Ok tt,
                  mkCtx (db_rows c1)
                        (filter (fun t => negb (marked (pending_deleted c1) t)) rows)
                        (filter (fun t => negb (marked (pending_deleted c1) t)) objs)
                        [] [] (sql_issued c1) (peer_calls c1))
             end) c
    end.

(** [db.session.add(task)] *)
Definition session_add (t u : json) : M unit :=
  fun c => (Ok tt, mkCtx (db_rows c) (tx_rows c) (identity_map c)
                         (pending_new c ++ [(t, u)]) (pending_deleted c)
                         (sql_issued c) (peer_calls c)).

(** [db.session.delete(task)]: the object is marked; it stays in the
    identity map until the next flush. *)
Definition session_delete (t : Task) : M unit :=
  fun c => (Ok tt, mkCtx (db_rows c) (tx_rows c) (identity_map c) (pending_new c)
                         (if marked (pending_deleted c) t then pending_deleted c
                          else pending_deleted c ++ [t])
                         (sql_issued c) (peer_calls c)).

(** [db.session.commit()]: flush, then COMMIT.  The objects of the session
    are expired: reading one afterwards reloads it (see [reload_added]). *)
Definition commit : M unit :=
  flush ;;;
  statement (fun c => (Ok tt, mkCtx (tx_rows c) (tx_rows c) (identity_map c) (pending_new c)
                                    (pending_deleted c) (sql_issued c) (peer_calls c))).

(** [db.session.rollback()]: the transaction is back at the committed
    rows and the session is emptied. *)
Definition rollback : M unit :=
  fun c => (Ok tt, mkCtx (db_rows c) (db_rows c) [] [] [] (sql_issued c) (peer_calls c)).

(** Objects loaded by a query enter the identity map, unless an object
    with that key is there already. *)
Fixpoint remember (loaded objs : list Task) : list Task :=
  match loaded with
  | [] => objs
  | t :: loaded' =>
      remember loaded' (if existsb (has_id (id t)) objs then objs else objs ++ [t])
  end.

(** A SELECT: the session flushes first, the rows returned are loaded. *)
Definition select (q : list Task -> list Task) : M (list Task) :=
  flush ;;;
  statement (fun c => let r := q (tx_rows c) in
                      (Ok r, mkCtx (db_rows c) (tx_rows c) (remember r (identity_map c))
                                   (pending_new c) (pending_deleted c)
                                   (sql_issued c) (peer_calls c))).

(** [Task.query.count()] *)
Definition query_count : M nat :=
  flush ;;; statement (fun c => (Ok (List.length (tx_rows c)), c)).

(** [Task.query.all()] *)
Definition query_all : M (list Task) := select (fun rows => rows).

(** [Task.query.order_by(Task.id.desc()).limit(n).all()] *)
Definition query_recent (n : nat) : M (list Task) :=
  select (fun rows => firstn n (order_by_id_desc rows)).

(** [Task.query.get(key)]: an object of the identity map is returned as
    it is, without SQL and without flush, also when it is marked for
    deletion; otherwise the session flushes and SELECTs the row. *)
Definition query_get (key : json) : M (option Task) :=
  k <- lift (bind_key key) ;;
  fun c =>
    match k with
    | None => (flush ;;; statement (fun c1 => (Ok None, c1))) c
    | Some z =>
        match find (has_id z) (identity_map c) with
        | Some t => (Ok (Some t), c)
        | None => (r <- select (fun rows => match find (has_id z) rows with
                                            | Some t => [t]
                                            | None => []
                                            end) ;;
                   ret (hd_error r)) c
        end
    end.

(** [Task.query.delete()]: DELETE of every row, the number of rows
    matched is returned. *)
Definition query_delete : M nat :=
  flush ;;;
  statement (fun c => (Ok (List.length (tx_rows c)),
                       mkCtx (db_rows c) [] [] (pending_new c) (pending_deleted c)
                             (sql_issued c) (peer_calls c))).

(** Reading [task.id] after the commit reloads the object that the
    commit made persistent. *)
Definition reload_added : M Task :=
  statement (fun c => match find (has_id (id (last (identity_map c) (mkTask 0 "" 0))))
                                 (tx_rows c) with
                      | Some t => (Ok t, c)
                      | None => (Raise (mkExn "ObjectDeletedError" "instance has been deleted"), c)
                      end).

(** [requests.get(url)] *)
Definition requests_get (rq : peer_request) : M (Z * result json) :=
  fun c =>
    let c' := mkCtx (db_rows c) (tx_rows c) (identity_map c) (pending_new c)
                    (pending_deleted c) (sql_issued c) (peer_calls c ++ [rq]) in
    match peer env rq with
    | PeerRaises e => (Raise e, c')
    | PeerReplies status b => (Ok (status, b), c')
    end.

(** ** The handlers *)

(** [POST /tasks] *)
Definition create_task_invalid (data : json) : M bool :=
  if negb (truthy data) then ret true
  else
    t <- lift (py_get data "title") ;;
    if negb (truthy t) then ret true
    else
      u <- lift (py_get data "user_id") ;;
      ret (negb (truthy u)).

Definition create_task (data : json) : M response :=
  invalid <- create_task_invalid data ;;
  if invalid then ret (mkResponse 400 (PError "Datos inválidos"))
  else
    step <- try_except
              (uid <- lift (py_getitem data "user_id") ;;
               user_check <- requests_get (GetUser uid) ;;
               ret (Continue user_check))
              (fun e => ret (Return
                 (mkResponse 500
                    (PError (append "Error de conexión al verificar usuario: " (exn_text e)))))) ;;
    match step with
    | Return r => ret r
    | Continue user_check =>
        if negb (fst user_check =? 200)%Z
        then ret (mkResponse 400 (PError "ID de usuario inválido"))
        else
          t <- lift (py_getitem data "title") ;;
          u <- lift (py_getitem data "user_id") ;;
          session_add t u ;;;
          commit ;;;
          task <- reload_added ;;
          ret (mkResponse 201 (PTask task))
    end.

(** [GET /tasks] *)
Definition get_tasks : M response :=
  tasks <- query_all ;;
  ret (mkResponse 200 (PTaskList tasks)).

(** [DELETE /tasks/<int:task_id>] *)
Definition delete_task (task_id : Z) : M response :=
  task <- query_get (JInt task_id) ;;
  match task with
  | Some t =>
      session_delete t ;;;
      commit ;;;
      ret (mkResponse 200
             (PMessage (append "Task " (append (str_of_Z task_id) " deleted successfully"))))
  | None => ret (mkResponse 404 (PError "Task not found"))
  end.

(** [DELETE /tasks/cleanup] *)
Definition cleanup_tasks : M response :=
  try_except
    (num_deleted <- query_delete ;;
     commit ;;;
     ret (mkResponse 200
            (PMessage (append "Deleted " (append (str_of_nat num_deleted) " tasks")))))
    (fun e =>
       rollback ;;;
       ret (mkResponse 500 (PError (exn_text e)))).

(** The loop of [cleanup_specific_tasks]. *)
Fixpoint delete_each (task_ids : list json) (deleted_count : nat) : M nat :=
  match task_ids with
  | [] => ret deleted_count
  | task_id :: rest =>
      task <- query_get task_id ;;
      match task with
      | Some t => session_delete t ;;; delete_each rest (S deleted_count)
      | None => delete_each rest deleted_count
      end
  end.

(** [DELETE /tasks/cleanup-specific] *)
Definition cleanup_specific_tasks (data : json) : M response :=
  try_except
    (missing <- (if negb (truthy data) then ret true
                 else present <- lift (py_contains "task_ids" data) ;;
                      ret (negb present)) ;;
     if missing then ret (mkResponse 400 (PError "task_ids list is required"))
     else
       task_ids <- lift (py_getitem data "task_ids") ;;
       match task_ids with
       | JList l =>
           deleted_count <- delete_each l 0 ;;
           commit ;;;
           ret (mkResponse 200
                  (PMessage (append "Deleted "
                               (append (str_of_nat deleted_count) " specific tasks"))))
       | _ => ret (mkResponse 400 (PError "task_ids must be a list"))
       end)
    (fun e =>
       rollback ;;;
       ret (mkResponse 500 (PError (exn_text e)))).

(** The inner [try] of [get_task_stats]: [(total_users, error)]. *)
Definition fetch_user_stats : M (nat * option string) :=
  try_except
    (users_response <- requests_get GetUsers ;;
     if (fst users_response =? 200)%Z
     then
       users_data <- lift (snd users_response) ;;
       n <- lift (py_len users_data) ;;
       ret (n, None)
     else ret (0, None))
    (fun e => ret (0, Some (append "User service unavailable: " (exn_text e)))).

(** [round(total / n, 2)] *)
Definition rounded_quotient (total n : nat) : result Q :=
  match py_truediv total n with
  | Ok q => Ok (py_round2 (round_tie_up env) q)
  | Raise e => Raise e
  end.

Definition metric_per_user (total_tasks total_users : nat) : result Q :=
  if (0 <? total_users) && (0 <? total_tasks)
  then rounded_quotient total_tasks total_users
  else Ok 0%Q.

Definition metric_per_active_user (total_tasks users_with_tasks : nat) : result Q :=
  if 0 <? users_with_tasks
  then rounded_quotient total_tasks users_with_tasks
  else Ok 0%Q.

(** [GET /tasks/stats] *)
Definition get_task_stats : M response :=
  try_except
    (total_tasks <- query_count ;;
     all_tasks <- query_all ;;
     let user_task_counts := Counter (map user_id all_tasks) in
     let users_with_tasks := List.length user_task_counts in
     recent_tasks <- query_recent 5 ;;
     user_service_stats <- fetch_user_stats ;;
     avg_tasks_per_user <- lift (metric_per_user total_tasks (fst user_service_stats)) ;;
     avg_tasks_per_active_user <- lift (metric_per_active_user total_tasks users_with_tasks) ;;
     let top_users := most_common 3 user_task_counts in
     let healthy := match snd user_service_stats with None => true | Some _ => false end in
     ret (mkResponse 200
            (PStats
               (mkStats (now_iso env)
                        total_tasks users_with_tasks recent_tasks top_users
                        (fst user_service_stats) (snd user_service_stats)
                        avg_tasks_per_user avg_tasks_per_active_user
                        (if healthy then "healthy" else "partial")
                        "online"
                        (if healthy then "online" else "offline")))))
    (fun e =>
       ret (mkResponse 500
              (PError (append "Failed to get task statistics: " (exn_text e))))).

(** ** Serving a request *)

Record Outcome : Type := mkOutcome {
  reply : response;
  store : list Task;            (** the rows committed when the handler ends *)
  calls : list peer_request;    (** the calls made to the user service *)
  statements : nat              (** the SQL statements sent *)
}.

(** A request runs its handler in a fresh session on the committed rows;
    an exception that leaves the handler becomes a 500.  [store] is what
    is committed when the handler ends.  What the handler leaves in its
    session without committing it is read with [session_after]; nothing
    is assumed of what becomes of it once the request is over. *)
Definition serve (handler : M response) (rows : list Task) : Outcome :=
  match handler (mkCtx rows rows [] [] [] 0 []) with
  | (Ok r, c) => mkOutcome r (db_rows c) (peer_calls c) (sql_issued c)
  | (Raise e, c) => mkOutcome (mkResponse 500 (PUncaught e)) (db_rows c)
                              (peer_calls c) (sql_issued c)
  end.

End Handlers.

(** The statistics of a response, when it carries a snapshot. *)
Definition stats_of (r : response) : option Stats :=
  match body r with PStats s => Some s | _ => None end.

(** The session as the handler leaves it, run as [serve] runs it. *)
Definition session_after (handler : M response) (rows : list Task) : Ctx :=
  snd (handler (mkCtx rows rows [] [] [] 0 [])).

(** Nothing uncommitted is left in the session: its transaction holds the
    committed rows, no INSERT and no DELETE is pending. *)
Definition settled (c : Ctx) : Prop :=
  tx_rows c = db_rows c /\ pending_new c = [] /\ pending_deleted c = [].

(** ** The integration test of the statistics endpoint

    [Test/Stats-Integration-Test.py], class [StatsIntegrationTest]: the
    results logged by [log_result] and the check of [/tasks/stats] made
    by [test_task_stats_endpoint].  What the test prints is left out,
    except that the values it formats are read, which can raise.  The
    text of [details] is kept as the f-string's arguments. *)
Module StatsIntegrationTest.

(** What [response.json()] decodes to.  A JSON number with a fraction or
    an exponent is a float; a dict is the list of its items. *)
Inductive value : Type :=
| VNone
| VBool (b : bool)
| VInt (z : Z)
| VFloat (f : float)
| VStr (s : string)
| VList (l : list value)
| VDict (m : list (string * value)).

Definition type_of (v : value) : string :=
  match v with
  | VNone => "NoneType"
  | VBool _ => "bool"
  | VInt _ => "int"
  | VFloat _ => "float"
  | VStr _ => "str"
  | VList _ => "list"
  | VDict _ => "dict"
  end.

Fixpoint lookup (k : string) (m : list (string * value)) : option value :=
  match m with
  | [] => None
  | (k', v) :: m' => if String.eqb k k' then Some v else lookup k m'
  end.

(** [k in x] for a string [k]: a key of a dict, an element of a list, a
    substring of a string. *)
Definition contains (k : string) (x : value) : result bool :=
  match x with
  | VDict m => Ok (match lookup k m with Some _ => true | None => false end)
  | VList l => Ok (existsb (fun v => match v with VStr s => String.eqb s k | _ => false end) l)
  | VStr s => Ok (match String.index 0 k s with Some _ => true | None => false end)
  | _ => Raise (TypeError
                  (append "argument of type '" (append (type_of x) "' is not iterable")))
  end.

(** [x[k]] for a string [k]. *)
Definition getitem (x : value) (k : string) : result value :=
  match x with
  | VDict m => match lookup k m with
               | Some v => Ok v
               | None => Raise (mkExn "KeyError" (append "'" (append k "'")))
               end
  | VList _ => Raise (TypeError "list indices must be integers or slices, not str")
  | VStr _ => Raise (TypeError "string indices must be integers")
  | _ => Raise (TypeError
                  (append "'" (append (type_of x) "' object is not subscriptable")))
  end.

(** [x < 6]: defined on numbers. *)
Definition less_than_6 (x : value) : result bool :=
  match x with
  | VInt z => Ok (z <? 6)%Z
  | VBool b => Ok ((if b then 1 else 0) <? 6)%Z
  | VFloat f => Ok (PrimFloat.ltb f 6%float)
  | _ => Raise (TypeError
                  (append "'<' not supported between instances of '"
                     (append (type_of x) "' and 'int'")))
  end.

(** [x != 3] *)
Definition differs_from_3 (x : value) : bool :=
  match x with
  | VInt z => negb (z =? 3)%Z
  | VBool b => negb ((if b then 1 else 0) =? 3)%Z
  | VFloat f => negb (PrimFloat.eqb f 3%float)
  | _ => true
  end.

(** The dict that [get_task_stats] passes to [jsonify] (main.py, lines
    142-159), as the test decodes it.  How the two averages, [0] or a
    rounded float, come out is left to [number]. *)
Definition task_value (t : Task) : value :=
  VDict [("id", VInt (id t)); ("title", VStr (title t)); ("user_id", VInt (user_id t))].

Definition top_user_value (p : Z * nat) : value :=
  VDict [("user_id", VInt (fst p)); ("task_count", VInt (Z.of_nat (snd p)))].

Definition decoded_stats (number : Q -> value) (s : Stats) : value :=
  VDict
    [("timestamp", VStr (timestamp s));
     ("tasks",
      VDict [("total_tasks", VInt (Z.of_nat (total_tasks s)));
             ("users_with_tasks", VInt (Z.of_nat (users_with_tasks s)));
             ("recent_tasks", VList (map task_value (recent_tasks s)));
             ("top_productive_users", VList (map top_user_value (top_productive_users s)))]);
     ("users",
      VDict [("total_users", VInt (Z.of_nat (total_users s)));
             ("error", match error s with Some e => VStr e | None => VNone end)]);
     ("productivity_metrics",
      VDict [("avg_tasks_per_user", number (avg_tasks_per_user s));
             ("avg_tasks_per_active_user", number (avg_tasks_per_active_user s))]);
     ("system",
      VDict [("status", VStr (system_status s));
             ("services",
              VDict [("task_service", VStr (task_service s));
                     ("user_service", VStr (user_service s))])])].

(** The [details] of a logged result. *)
Inductive detail : Type :=
| DHttp (code : Z) (text : string)        (** [f"HTTP {code}: {text}"] *)
| DMissing (fields : list string)         (** [f"Missing fields: {fields}"] and the like *)
| DTooFew (got : value)                   (** [f"Expected at least 6 tasks, got {got}"] *)
| DNoTopUsers                             (** ["No top productive users found"] *)
| DTopUser (got : value)                  (** [f"Expected top user to have 3 tasks, got {got}"] *)
| DTotals (total active : value)          (** [f"Total tasks: {total}, Active users: {active}"] *)
| DException (text : string).             (** [f"Exception: {str(e)}"] *)

(** An element of [self.test_results]. *)
Record logged : Type := mkLogged {
  test_name : string;
  status : string;
  details : detail;
  timestamp : string
}.

(** What [requests.get] gives the test: an exception, or a response with
    its status code, its text and what [.json()] does. *)
Inductive http_reply : Type :=
| HttpRaises (e : exn)
| HttpReplies (code : Z) (text : string) (decoded : result value).

(** [self.log_result(test_name, status, details)]; [clock] gives
    [datetime.now().isoformat()] for the n-th result logged. *)
Definition log_result (clock : nat -> string) (name st : string) (d : detail)
  (test_results : list logged) : list logged :=
  test_results ++ [mkLogged name st d (clock (List.length test_results))].

(** [[field for field in fields if field not in container]] *)
Fixpoint missing (fields : list string) (container : value) : result (list string) :=
  match fields with
  | [] => Ok []
  | f :: fs =>
      match contains f container with
      | Raise e => Raise e
      | Ok found =>
          match missing fs container with
          | Raise e => Raise e
          | Ok rest => Ok (if found then rest else f :: rest)
          end
      end
  end.

(** The lines printed once the result is logged: the values formatted
    are read in this order. *)
Definition print_summary (tasks_section prod_metrics first : value) : result unit :=
  match getitem tasks_section "total_tasks" with
  | Raise e => Raise e
  | Ok _ =>
  match getitem tasks_section "users_with_tasks" with
  | Raise e => Raise e
  | Ok _ =>
  match getitem prod_metrics "avg_tasks_per_user" with
  | Raise e => Raise e
  | Ok _ =>
  match getitem prod_metrics "avg_tasks_per_active_user" with
  | Raise e => Raise e
  | Ok _ =>
  match getitem first "user_id" with
  | Raise e => Raise e
  | Ok _ =>
  match getitem first "task_count" with
  | Raise e => Raise e
  | Ok _ => Ok tt
  end end end end end end.

(** The body of the [try] of [test_task_stats_endpoint]: the value
    returned, or the exception raised, and the results logged. *)
Definition task_stats_checks (clock : nat -> string) (response : http_reply)
  (test_results : list logged) : result bool * list logged :=
  let failed name d := (Ok false, log_result clock name "FAILED" d test_results) in
  match response with
  | HttpRaises e => (Raise e, test_results)
  | HttpReplies code text decoded =>
      if negb (code =? 200)%Z then failed "Task Stats Endpoint" (DHttp code text)
      else
        match decoded with
        | Raise e => (Raise e, test_results)
        | Ok stats =>
        match missing ["timestamp"; "tasks"; "users"; "productivity_metrics"; "system"]
                      stats with
        | Raise e => (Raise e, test_results)
        | Ok (f :: fs) => failed "Task Stats Structure" (DMissing (f :: fs))
        | Ok [] =>
        match getitem stats "tasks" with
        | Raise e => (Raise e, test_results)
        | Ok tasks_section =>
        match missing ["total_tasks"; "users_with_tasks"; "recent_tasks";
                       "top_productive_users"] tasks_section with
        | Raise e => (Raise e, test_results)
        | Ok (f :: fs) => failed "Task Stats Tasks Section" (DMissing (f :: fs))
        | Ok [] =>
        match getitem tasks_section "total_tasks" with
        | Raise e => (Raise e, test_results)
        | Ok total =>
        match less_than_6 total with
        | Raise e => (Raise e, test_results)
        | Ok true => failed "Task Stats Count" (DTooFew total)
        | Ok false =>
        match getitem stats "productivity_metrics" with
        | Raise e => (Raise e, test_results)
        | Ok prod_metrics =>
        match missing ["avg_tasks_per_user"; "avg_tasks_per_active_user"] prod_metrics with
        | Raise e => (Raise e, test_results)
        | Ok (f :: fs) => failed "Task Stats Productivity Metrics" (DMissing (f :: fs))
        | Ok [] =>
        match getitem tasks_section "top_productive_users" with
        | Raise e => (Raise e, test_results)
        | Ok top_users =>
        match top_users with
        | VList (first :: _) =>
            match getitem first "task_count" with
            | Raise e => (Raise e, test_results)
            | Ok count =>
                if differs_from_3 count
                then failed "Task Stats Top User Verification" (DTopUser count)
                else
                  match getitem tasks_section "users_with_tasks" with
                  | Raise e => (Raise e, test_results)
                  | Ok active =>
                      let results := log_result clock "Task Stats Endpoint" "PASSED"
                                                (DTotals total active) test_results in
                      match print_summary tasks_section prod_metrics first with
                      | Raise e => (Raise e, results)
                      | Ok _ => (Ok true, results)
                      end
                  end
            end
        | _ => failed "Task Stats Top Users" DNoTopUsers
        end end end end end end end end end end
  end.

(** [test_task_stats_endpoint]: the value returned and [self.test_results]
    afterwards. *)
Definition test_task_stats_endpoint (clock : nat -> string) (response : http_reply)
  (test_results : list logged) : bool * list logged :=
  match task_stats_checks clock response test_results with
  | (Ok verdict, results) => (verdict, results)
  | (Raise e, results) =>
      (false, log_result clock "Task Stats Endpoint" "FAILED"
                         (DException (exn_text e)) results)
  end.

(** How a request of the test goes: it is answered, or it raises before
    the service has seen it, or the service handles it and the answer is
    lost (a timeout). *)
Inductive transport : Type :=
| Delivered
| Refused (e : exn)
| AnswerLost (e : exn).

(** [test_tasks] of [setup_test_data], for the ids of the first three
    users created. *)
Definition test_tasks (alice bob carol : json) : list json :=
  [JObj [("title", JStr "Task 1 for Alice"); ("user_id", alice)];
   JObj [("title", JStr "Task 2 for Alice"); ("user_id", alice)];
   JObj [("title", JStr "Task 3 for Alice"); ("user_id", alice)];
   JObj [("title", JStr "Task 1 for Bob"); ("user_id", bob)];
   JObj [("title", JStr "Task 2 for Bob"); ("user_id", bob)];
   JObj [("title", JStr "Task 1 for Carol"); ("user_id", carol)]].

(** The loop of [setup_test_data] over [test_tasks]: the i-th POST is
    handled by [create_task] in the environment [env i]; the body of a
    201 is appended to [created_tasks].  The result is [created_tasks]
    and the table of the task service. *)
Fixpoint post_tasks (env : nat -> Env) (net : nat -> transport) (i : nat)
  (bodies : list json) (rows : list Task) (created_tasks : list payload)
  : list payload * list Task :=
  match bodies with
  | [] => (created_tasks, rows)
  | task_data :: rest =>
      let out := serve (create_task (env i) task_data) rows in
      match net i with
      | Refused _ => post_tasks env net (S i) rest rows created_tasks
      | AnswerLost _ => post_tasks env net (S i) rest (store out) created_tasks
      | Delivered =>
          post_tasks env net (S i) rest (store out)
            (if (status_code (reply out) =? 201)%Z
             then created_tasks ++ [body (reply out)]
             else created_tasks)
      end
  end.

(** A response in which every check passes, while the first entry of the
    ranking has no [user_id]. *)
Definition top_user_without_id : http_reply :=
  HttpReplies 200 ""
    (Ok (VDict
           [("timestamp", VStr "2024-01-01T00:00:00");
            ("tasks",
             VDict [("total_tasks", VInt 6); ("users_with_tasks", VInt 3);
                    ("recent_tasks", VList []);
                    ("top_productive_users", VList [VDict [("task_count", VFloat 3%float)]])]);
            ("users", VDict []);
            ("productivity_metrics",
             VDict [("avg_tasks_per_user", VFloat 1.5%float);
                    ("avg_tasks_per_active_user", VInt 2)]);
            ("system", VDict [])])).

End StatsIntegrationTest.


(** ** Sample environments and tables *)

(** An environment in which no SQL statement fails; the driver refuses
    every value it would have to adapt. *)
Definition quiet (p : peer_request -> peer_reply) : Env :=
  mkEnv p (fun _ => None) "2024-01-01T00:00:00" ties_to_even
        (fun _ => Raise (mkExn "InterfaceError" "unsupported type"))
        (fun _ => Raise (mkExn "InterfaceError" "unsupported type"))
        (fun _ => Raise (mkExn "InterfaceError" "unsupported type")).

(** The user service cannot be reached. *)
Definition peer_down : peer_request -> peer_reply :=
  fun _ => PeerRaises (mkExn "ConnectionError" "connection refused").

(** A user service holding users 1 to [n]. *)
Definition peer_with_users (n : nat) : peer_request -> peer_reply :=
  fun rq => match rq with
            | GetUsers => PeerReplies 200 (Ok (JList (repeat JNull n)))
            | GetUser (JInt z) =>
                if ((0 <? z) && (z <=? Z.of_nat n))%Z
                then PeerReplies 200 (Ok JNull) else PeerReplies 404 (Ok JNull)
            | GetUser _ => PeerReplies 404 (Ok JNull)
            end.

(** Three tasks of user 1, two of user 2, one of user 3, none of user 4. *)
Definition demo_rows : list Task :=
  [ mkTask 1 "Task 1 for Alice" 1; mkTask 2 "Task 2 for Alice" 1;
    mkTask 3 "Task 3 for Alice" 1; mkTask 4 "Task 1 for Bob" 2;
    mkTask 5 "Task 2 for Bob" 2; mkTask 6 "Task 1 for Carol" 3 ].


(** ** Notions used to state the properties *)

(** What the inner [try] of [get_task_stats] leaves in
    [user_service_stats], as a function of the peer's answer. *)
Definition fetch_raised (r : peer_reply) : bool :=
  match r with
  | PeerRaises _ => true
  | PeerReplies status b =>
      if (status =? 200)%Z
      then match b with
           | Raise _ => true
           | Ok j => match py_len j with Raise _ => true | Ok _ => false end
           end
      else false
  end.

(** The user count recorded for that answer. *)
Definition remote_user_count (r : peer_reply) : nat :=
  match r with
  | PeerRaises _ => 0
  | PeerReplies status b =>
      if (status =? 200)%Z
      then match b with
           | Raise _ => 0
           | Ok j => match py_len j with Raise _ => 0 | Ok n => n end
           end
      else 0
  end.

(** Number of tasks of an owner, and position of the first of them. *)
Definition tasks_of (u : Z) (rows : list Task) : nat :=
  count_occ Z.eq_dec (map user_id rows) u.

Fixpoint first_index (u : Z) (l : list Z) : nat :=
  match l with
  | [] => 0
  | x :: l' => if (x =? u)%Z then 0 else S (first_index u l')
  end.

Definition first_task (u : Z) (rows : list Task) : nat :=
  first_index u (map user_id rows).

(** [u] is ranked before [v]: more tasks, or as many and seen first. *)
Definition outranks (rows : list Task) (u v : Z) : Prop :=
  tasks_of v rows < tasks_of u rows \/
  (tasks_of u rows = tasks_of v rows /\ first_task u rows < first_task v rows).

(** The distinct keys of a list, in the order of their first occurrence. *)
Fixpoint first_seen (l : list Z) : list Z :=
  match l with
  | [] => []
  | x :: l' => x :: filter (fun y => negb (y =? x)%Z) (first_seen l')
  end.

(** The average asked for: the rounded quotient, 0 for a zero divisor. *)
Definition rounded_average (env : Env) (total n : nat) : Q :=
  if n =? 0 then 0%Q else py_round2 (round_tie_up env) (ratio total n).

(** [r] is [q] rounded to two decimals: a multiple of 1/100 at distance
    at most 1/200 from [q]. *)
Definition rounds_to_2_decimals (q r : Q) : Prop :=
  (exists k : Z, r == inject_Z k / inject_Z 100)%Q /\
  (- (1 # 200) <= r - q <= 1 # 200)%Q.

Definition value_of (r : result Q) : Q :=
  match r with Ok q => q | Raise _ => 0%Q end.

(** The snapshot in closed form: what [get_task_stats] answers when its
    three queries go through (lemma [get_task_stats_snapshot]). *)
Definition snapshot (env : Env) (rows : list Task) : Stats :=
  let r := peer env GetUsers in
  let counts := Counter (map user_id rows) in
  mkStats (now_iso env)
          (List.length rows) (List.length counts)
          (firstn 5 (order_by_id_desc rows))
          (most_common 3 counts)
          (remote_user_count r)
          (if fetch_raised r
           then Some (append "User service unavailable: "
                        (match r with
                         | PeerRaises e => exn_text e
                         | PeerReplies _ (Raise e) => exn_text e
                         | PeerReplies _ (Ok j) =>
                             match py_len j with Raise e => exn_text e | Ok _ => "" end
                         end))
           else None)
          (value_of (metric_per_user env (List.length rows) (remote_user_count r)))
          (value_of (metric_per_active_user env (List.length rows) (List.length counts)))
          (if fetch_raised r then "partial" else "healthy")
          "online"
          (if fetch_raised r then "offline" else "online").

(** ** Notions used in the proofs *)

Ltac run_handler :=
  cbv [serve try_except bind lift ret raise select flush statement
       query_count query_all query_recent query_delete commit rollback
       requests_get fetch_user_stats
       db_rows tx_rows identity_map pending_new pending_deleted sql_issued peer_calls
       reply store calls statements stats_of body status_code fst snd].

(** Order of [ORDER BY id DESC]. *)
Definition id_desc (a b : Task) : Prop := (id b <= id a)%Z.

(** Order of the stable sort: larger count first, among equal counts
    the smaller position first. *)
Definition ranked (pos : Z * nat -> nat) (x y : Z * nat) : Prop :=
  snd y < snd x \/ (snd x = snd y /\ pos x < pos y).

(** The reading of "the peer call succeeded" under which an answer with
    a status other than 200 is a failure. *)
Definition answered_200 (r : peer_reply) : bool :=
  match r with
  | PeerRaises _ => false
  | PeerReplies status _ => (status =? 200)%Z
  end.

(** The user service answers every request with a 503. *)
Definition peer_unavailable_503 : peer_request -> peer_reply :=
  fun _ => PeerReplies 503 (Ok (JObj [("error", JStr "maintenance")])).

Ltac run_create :=
  unfold create_task, create_task_invalid;
  cbv [serve try_except bind lift ret raise py_get py_getitem requests_get
       reply store calls statements
       db_rows tx_rows identity_map pending_new pending_deleted sql_issued peer_calls].

(** A user service in which every user exists, user 0 included. *)
Definition peer_knows_everyone : peer_request -> peer_reply :=
  fun _ => PeerReplies 200 (Ok (JList [])).

(** The string made of [n] times the character [c]. *)
Fixpoint string_of_chars (c : ascii) (n : nat) : string :=
  match n with
  | 0 => EmptyString
  | S n' => String c (string_of_chars c n')
  end.

(** A title of 101 characters. *)
Definition overlong_title : string := string_of_chars "x"%char 101.

(** No statement numbered from [lo] to [hi - 1] fails. *)
Definition clean (env : Env) (lo hi : nat) : Prop :=
  forall k, lo <= k < hi -> db_fault env k = None.

(** The operation returned, it did not raise. *)
Definition is_ok {A : Type} (r : result A) : Prop := exists a, r = Ok a.

(** An operation that leaves the committed rows and the call log alone,
    and whose statements all went through when it returned. *)
Definition framed {A : Type} (env : Env) (m : M A) : Prop :=
  forall c,
    db_rows (snd (m c)) = db_rows c /\
    peer_calls (snd (m c)) = peer_calls c /\
    sql_issued c <= sql_issued (snd (m c)) /\
    (is_ok (fst (m c)) -> clean env (sql_issued c) (sql_issued (snd (m c)))).

(** The id of the row is one of [P]. *)
Definition listed (P : list Z) (t : Task) : bool := existsb (Z.eqb (id t)) P.

(** The table without the rows whose id is in [P]. *)
Definition without (P : list Z) (rows : list Task) : list Task :=
  filter (fun t => negb (listed P t)) rows.

(** What the transaction will contain once the pending deletions are flushed. *)
Definition visible (c : Ctx) : list Task :=
  filter (fun t => negb (marked (pending_deleted c) t)) (tx_rows c).

(** The primary key a lookup key stands for, if any. *)
Definition key_id (env : Env) (key : json) : list Z :=
  match bind_key env key with Ok (Some z) => [z] | _ => [] end.

Definition key_ids (env : Env) (keys : list json) : list Z :=
  flat_map (key_id env) keys.

(** The table has a row with id [z]. *)
Definition present (rows : list Task) (z : Z) : bool := existsb (has_id z) rows.

(** The state of the session inside the loop, [P] being the ids looked
    up so far. *)
Record Inv (rows : list Task) (P : list Z) (c : Ctx) : Prop := mkInv {
  inv_db : db_rows c = rows;
  inv_new : pending_new c = [];
  inv_map : identity_map c = pending_deleted c;
  inv_pending : forall t, In t (pending_deleted c) -> In (id t) P;
  inv_visible : visible c = without P rows
}.

(** One turn of the loop of [cleanup_specific_tasks]. *)
Definition visit (env : Env) (key : json) (n : nat) : M nat :=
  task <- query_get env key ;;
  match task with
  | Some t => session_delete t ;;; ret (S n)
  | None => ret n
  end.

(** The body of the 200 answer of [cleanup_specific_tasks]. *)
Definition deleted_specific_message (n : nat) : payload :=
  PMessage (append "Deleted " (append (str_of_nat n) " specific tasks")).

Ltac done_case :=
  solve [repeat split; auto; try congruence; try (intros; discriminate)].

(** The COMMIT of [cleanup_tasks], and the flush inside the loop of
    [cleanup_specific_tasks], are the second statement of their request. *)
Definition second_statement_fails : Env :=
  mkEnv peer_down
        (fun n => if n =? 1 then Some (mkExn "OperationalError" "database is locked") else None)
        "2024-01-01T00:00:00" ties_to_even
        (fun _ => Raise (mkExn "InterfaceError" "unsupported type"))
        (fun _ => Raise (mkExn "InterfaceError" "unsupported type"))
        (fun _ => Raise (mkExn "InterfaceError" "unsupported type")).

(** Nine tasks of five owners: three of user 2, two each of users 3
    and 4, one each of users 1 and 5. *)
Definition crowded_rows : list Task :=
  [mkTask 1 "a" 1; mkTask 2 "b" 2; mkTask 3 "c" 2; mkTask 4 "d" 3; mkTask 5 "e" 3;
   mkTask 6 "f" 2; mkTask 7 "g" 4; mkTask 8 "h" 4; mkTask 9 "i" 5].


(** A table of two rows, with ids 1 and 2. *)
Definition two_rows : list Task := [mkTask 1 "first" 1; mkTask 2 "second" 1].


(** * Properties *)

(** ** The statistics handler, step by step *)

Lemma metric_per_user_returns (env : Env) (t u : nat) :
  metric_per_user env t u = Ok (value_of (metric_per_user env t u)).
Proof.
  unfold metric_per_user, rounded_quotient, py_truediv.
  destruct u as [|u]; [reflexivity|]. destruct t; reflexivity.
Qed.

Lemma metric_per_active_user_returns (env : Env) (t u : nat) :
  metric_per_active_user env t u = Ok (value_of (metric_per_active_user env t u)).
Proof.
  unfold metric_per_active_user, rounded_quotient, py_truediv.
  destruct u as [|u]; reflexivity.
Qed.

(** The two averages never raise: the guards keep the divisor from 0. *)
Ltac metrics_return :=
  repeat match goal with
         | |- context [metric_per_user ?env ?t ?u] =>
             let E := fresh "E" in
             pose proof (metric_per_user_returns env t u) as E;
             destruct (metric_per_user env t u); [clear E | discriminate E]
         | |- context [metric_per_active_user ?env ?t ?u] =>
             let E := fresh "E" in
             pose proof (metric_per_active_user_returns env t u) as E;
             destruct (metric_per_active_user env t u); [clear E | discriminate E]
         end.

Lemma get_task_stats_faulty (env : Env) (rows : list Task) :
  (exists n, n < 3 /\ db_fault env n <> None) ->
  exists e, serve (get_task_stats env) rows
            = mkOutcome (mkResponse 500
                           (PError (append "Failed to get task statistics: " (exn_text e))))
                        rows [] (statements (serve (get_task_stats env) rows)).
Proof.
  intros (n & Hn & Hf).
  unfold get_task_stats. run_handler.
  destruct (db_fault env 0) as [e0|] eqn:F0; [exists e0; reflexivity|].
  destruct (db_fault env 1) as [e1|] eqn:F1; [exists e1; reflexivity|].
  destruct (db_fault env 2) as [e2|] eqn:F2; [exists e2; reflexivity|].
  exfalso. destruct n as [|[|[|n]]]; try lia; congruence.
Qed.

Lemma get_task_stats_snapshot (env : Env) (rows : list Task) (s : Stats) :
  stats_of (reply (serve (get_task_stats env) rows)) = Some s ->
  serve (get_task_stats env) rows
    = mkOutcome (mkResponse 200 (PStats s)) rows [GetUsers] 3
  /\ s = snapshot env rows
  /\ (forall n, n < 3 -> db_fault env n = None).
Proof.
  unfold get_task_stats, snapshot, fetch_raised, remote_user_count. run_handler.
  destruct (db_fault env 0) as [e0|] eqn:F0; [discriminate|].
  destruct (db_fault env 1) as [e1|] eqn:F1; [discriminate|].
  destruct (db_fault env 2) as [e2|] eqn:F2; [discriminate|].
  assert (Hf : forall n, n < 3 -> db_fault env n = None).
  { intros [|[|[|n]]] Hn; try assumption; lia. }
  destruct (peer env GetUsers) as [e|status b];
    [|destruct (status =? 200)%Z; [destruct b as [j|e]; [destruct (py_len j)|]|]];
    cbn [app]; metrics_return; cbn [value_of];
    intros H; injection H as <-;
    (split; [reflexivity | split; [reflexivity | assumption]]).
Qed.

Lemma get_task_stats_runs (env : Env) (rows : list Task) :
  (forall n, n < 3 -> db_fault env n = None) ->
  serve (get_task_stats env) rows
    = mkOutcome (mkResponse 200 (PStats (snapshot env rows))) rows [GetUsers] 3.
Proof.
  intros Hf.
  assert (H : stats_of (reply (serve (get_task_stats env) rows)) = Some (snapshot env rows)).
  { unfold get_task_stats, snapshot, fetch_raised, remote_user_count. run_handler.
    rewrite !Hf by lia.
    destruct (peer env GetUsers) as [e|status b];
      [|destruct (status =? 200)%Z; [destruct b as [j|e]; [destruct (py_len j)|]|]];
      cbn [app]; metrics_return; reflexivity. }
  apply get_task_stats_snapshot in H. tauto.
Qed.

(** A 500 of the statistics handler always comes from one of its three
    queries, never from the user service. *)
Lemma get_task_stats_500_is_local (env : Env) (rows : list Task) :
  status_code (reply (serve (get_task_stats env) rows)) <> 200%Z ->
  exists n, n < 3 /\ db_fault env n <> None.
Proof.
  intros H.
  destruct (db_fault env 0) as [e0|] eqn:F0; [exists 0; split; [lia | congruence]|].
  destruct (db_fault env 1) as [e1|] eqn:F1; [exists 1; split; [lia | congruence]|].
  destruct (db_fault env 2) as [e2|] eqn:F2; [exists 2; split; [lia | congruence]|].
  exfalso. apply H. rewrite get_task_stats_runs; [reflexivity|].
  intros [|[|[|n]]] Hn; try assumption; lia.
Qed.

(** ** Ordering by id *)

Lemma insert_by_id_perm (x : Task) (l : list Task) :
  Permutation (insert_by_id x l) (x :: l).
Proof.
  induction l as [|y l IH]; simpl; [reflexivity|].
  destruct (id x <? id y)%Z; [|reflexivity].
  rewrite IH. apply perm_swap.
Qed.

Lemma order_by_id_desc_perm (rows : list Task) :
  Permutation (order_by_id_desc rows) rows.
Proof.
  induction rows as [|x rows IH]; simpl; [reflexivity|].
  rewrite insert_by_id_perm. now constructor.
Qed.

Lemma insert_by_id_sorted (x : Task) (l : list Task) :
  StronglySorted id_desc l -> StronglySorted id_desc (insert_by_id x l).
Proof.
  induction 1 as [|y l Hs IH Hy]; simpl.
  - repeat constructor.
  - destruct (id x <? id y)%Z eqn:E.
    + apply Z.ltb_lt in E. constructor; [exact IH|].
      rewrite Forall_forall in *. intros z Hz.
      apply (Permutation_in _ (insert_by_id_perm x l)) in Hz.
      destruct Hz as [<-|Hz]; [unfold id_desc; lia | now apply Hy].
    + apply Z.ltb_ge in E. constructor; [now constructor|].
      constructor; [exact E|].
      rewrite Forall_forall in *. intros z Hz. specialize (Hy z Hz).
      unfold id_desc in *. lia.
Qed.

Lemma order_by_id_desc_sorted (rows : list Task) :
  StronglySorted id_desc (order_by_id_desc rows).
Proof.
  induction rows as [|x rows IH]; simpl; [constructor|].
  now apply insert_by_id_sorted.
Qed.

Lemma StronglySorted_app_inv {A : Type} (R : A -> A -> Prop) (l1 l2 : list A) :
  StronglySorted R (l1 ++ l2) ->
  StronglySorted R l1 /\ StronglySorted R l2 /\
  (forall x y, In x l1 -> In y l2 -> R x y).
Proof.
  induction l1 as [|a l1 IH]; simpl; intros H.
  - repeat split; [constructor | exact H | intros x y []].
  - apply StronglySorted_inv in H. destruct H as [Hs Ha].
    destruct (IH Hs) as (H1 & H2 & H3).
    rewrite Forall_forall in Ha.
    repeat split.
    + constructor; [exact H1|]. rewrite Forall_forall. intros z Hz.
      apply Ha, in_or_app. now left.
    + exact H2.
    + intros x y [<-|Hx] Hy; [apply Ha, in_or_app; now right | now apply H3].
Qed.

Lemma StronglySorted_firstn {A : Type} (R : A -> A -> Prop) (n : nat) (l : list A) :
  StronglySorted R l -> StronglySorted R (firstn n l).
Proof.
  intros H. rewrite <- (firstn_skipn n l) in H.
  now apply StronglySorted_app_inv in H.
Qed.

Lemma StronglySorted_weaken {A : Type} (R R' : A -> A -> Prop) (l : list A) :
  (forall x y, In x l -> In y l -> R x y -> R' x y) ->
  StronglySorted R l -> StronglySorted R' l.
Proof.
  intros HR H. induction H as [|a l Hs IH Ha]; constructor.
  - apply IH. intros x y Hx Hy. apply HR; now right.
  - rewrite Forall_forall in *. intros z Hz. apply HR; [now left | now right | now apply Ha].
Qed.

(** C5: the snapshot lists as [recent_tasks] the five rows with the
    largest ids (all rows when there are fewer), largest id first. *)
Theorem recent_tasks_largest_ids (env : Env) (rows : list Task) (s : Stats) :
  stats_of (reply (serve (get_task_stats env) rows)) = Some s ->
  exists older : list Task,
    Permutation (recent_tasks s ++ older) rows /\
    List.length (recent_tasks s) = Nat.min 5 (List.length rows) /\
    StronglySorted (fun a b => (id b <= id a)%Z) (recent_tasks s) /\
    (forall r o, In r (recent_tasks s) -> In o older -> (id o <= id r)%Z) /\
    (NoDup (map id rows) ->
     StronglySorted (fun a b => (id b < id a)%Z) (recent_tasks s) /\
     forall r o, In r (recent_tasks s) -> In o older -> (id o < id r)%Z).
Proof.
  intros H. apply get_task_stats_snapshot in H. destruct H as (_ & -> & _).
  unfold snapshot. cbn [recent_tasks].
  set (sorted := order_by_id_desc rows).
  assert (Hperm : Permutation (firstn 5 sorted ++ skipn 5 sorted) rows).
  { rewrite firstn_skipn. apply order_by_id_desc_perm. }
  assert (Hs : StronglySorted id_desc (firstn 5 sorted ++ skipn 5 sorted)).
  { rewrite firstn_skipn. apply order_by_id_desc_sorted. }
  pose proof (StronglySorted_app_inv _ _ _ Hs) as (H1 & _ & H3).
  exists (skipn 5 sorted). repeat split.
  - exact Hperm.
  - rewrite length_firstn. unfold sorted.
    now rewrite (Permutation_length (order_by_id_desc_perm rows)).
  - exact H1.
  - exact H3.
  - assert (Hnd : NoDup (map id (firstn 5 sorted ++ skipn 5 sorted))).
    { eapply Permutation_NoDup; [|exact H]. symmetry. now apply Permutation_map. }
    rewrite map_app in Hnd. apply NoDup_app_remove_r in Hnd.
    clear - H1 Hnd. induction H1 as [|a l Hl IH Ha]; constructor.
    + apply IH. simpl in Hnd. now inversion Hnd.
    + simpl in Hnd. inversion Hnd as [|? ? Hin _]; subst.
      rewrite Forall_forall in *. intros z Hz. specialize (Ha z Hz). unfold id_desc in Ha.
      assert (id z <> id a) by (intros E; apply Hin; rewrite <- E; now apply in_map).
      lia.
  - intros r o Hr Ho.
    assert (Hnd : NoDup (map id (firstn 5 sorted ++ skipn 5 sorted))).
    { eapply Permutation_NoDup; [|exact H]. symmetry. now apply Permutation_map. }
    specialize (H3 r o Hr Ho). unfold id_desc in H3.
    assert (id o <> id r); [|lia].
    intros E. apply in_split in Hr. destruct Hr as (l1 & l2 & Hr). rewrite Hr in Hnd.
    rewrite !map_app in Hnd. cbn [map] in Hnd. rewrite <- app_assoc in Hnd.
    apply NoDup_remove_2 in Hnd. apply Hnd.
    rewrite <- E. rewrite !in_app_iff. right. right. now apply in_map.
Qed.

Lemma recent_tasks_largest_ids_witness :
  exists older : list Task,
    Permutation
      ([mkTask 6 "Task 1 for Carol" 3; mkTask 5 "Task 2 for Bob" 2;
        mkTask 4 "Task 1 for Bob" 2; mkTask 3 "Task 3 for Alice" 1;
        mkTask 2 "Task 2 for Alice" 1] ++ older) demo_rows.
Proof.
  destruct (recent_tasks_largest_ids (quiet (peer_with_users 4)) demo_rows
              (snapshot (quiet (peer_with_users 4)) demo_rows) eq_refl)
    as (older & H & _).
  exists older. exact H.
Defined.

(** ** Counting tasks per owner *)

Lemma first_seen_In (l : list Z) (u : Z) : In u (first_seen l) <-> In u l.
Proof.
  induction l as [|x l IH]; simpl; [tauto|].
  rewrite filter_In, IH, negb_true_iff, Z.eqb_neq.
  destruct (Z.eq_dec x u); [subst|]; intuition.
Qed.

Lemma first_seen_NoDup (l : list Z) : NoDup (first_seen l).
Proof.
  induction l as [|x l IH]; simpl; constructor.
  - rewrite filter_In, negb_true_iff, Z.eqb_neq. tauto.
  - now apply NoDup_filter.
Qed.

Lemma first_seen_snoc (l : list Z) (k : Z) :
  first_seen (l ++ [k]) = if in_dec Z.eq_dec k l then first_seen l else first_seen l ++ [k].
Proof.
  induction l as [|x l IH]; simpl; [reflexivity|].
  rewrite IH. destruct (in_dec Z.eq_dec k l) as [Hin|Hin].
  - destruct (Z.eq_dec x k); reflexivity.
  - rewrite filter_app. simpl.
    destruct (Z.eq_dec x k) as [->|Hne].
    + rewrite Z.eqb_refl. simpl. now rewrite app_nil_r.
    + apply not_eq_sym in Hne. apply Z.eqb_neq in Hne. rewrite Hne. reflexivity.
Qed.

Lemma counter_incr_seen (k : Z) (f : Z -> nat) (us : list Z) :
  NoDup us -> In k us ->
  counter_incr k (map (fun u => (u, f u)) us)
  = map (fun u => (u, if (u =? k)%Z then S (f u) else f u)) us.
Proof.
  induction 1 as [|x us Hx Hnd IH]; simpl; [tauto|].
  intros [->|Hin].
  - rewrite Z.eqb_refl. f_equal.
    apply map_ext_in. intros u Hu.
    destruct (u =? k)%Z eqn:E; [|reflexivity].
    apply Z.eqb_eq in E. subst. contradiction.
  - assert (x <> k) as Hne by (intros ->; contradiction).
    rewrite (proj2 (Z.eqb_neq k x)) by congruence.
    rewrite (proj2 (Z.eqb_neq x k)) by exact Hne.
    now rewrite IH.
Qed.

Lemma counter_incr_new (k : Z) (f : Z -> nat) (us : list Z) :
  ~ In k us ->
  counter_incr k (map (fun u => (u, f u)) us) = map (fun u => (u, f u)) us ++ [(k, 1)].
Proof.
  induction us as [|x us IH]; simpl; [reflexivity|].
  intros Hn.
  rewrite (proj2 (Z.eqb_neq k x)) by (intros ->; tauto).
  rewrite IH by tauto. reflexivity.
Qed.

(** The counter has one item per distinct key, in the order in which the
    keys were first met, with the number of occurrences of the key. *)
Lemma Counter_closed_form (l : list Z) :
  Counter l = map (fun u => (u, count_occ Z.eq_dec l u)) (first_seen l).
Proof.
  induction l as [|k l IH] using rev_ind; [reflexivity|].
  unfold Counter in *. rewrite fold_left_app. cbn [fold_left]. rewrite IH.
  rewrite first_seen_snoc. destruct (in_dec Z.eq_dec k l) as [Hin|Hin].
  - rewrite counter_incr_seen; [|apply first_seen_NoDup|now apply first_seen_In].
    apply map_ext. intros u. rewrite count_occ_app. cbn [count_occ].
    destruct (Z.eq_dec k u) as [->|Hne].
    + rewrite Z.eqb_refl. f_equal. lia.
    + rewrite (proj2 (Z.eqb_neq u k)) by congruence. f_equal. lia.
  - rewrite counter_incr_new by (now rewrite first_seen_In).
    rewrite map_app. cbn [map]. f_equal.
    + apply map_ext_in. intros u Hu. rewrite count_occ_app. cbn [count_occ].
      destruct (Z.eq_dec k u) as [E|Hne]; [|f_equal; lia].
      apply (proj1 (first_seen_In _ _)) in Hu. subst. tauto.
    + rewrite count_occ_app. cbn [count_occ].
      destruct (Z.eq_dec k k); [|congruence].
      rewrite (proj1 (count_occ_not_In Z.eq_dec l k) Hin). reflexivity.
Qed.

Lemma StronglySorted_filter {A : Type} (R : A -> A -> Prop) (p : A -> bool) (l : list A) :
  StronglySorted R l -> StronglySorted R (filter p l).
Proof.
  induction 1 as [|a l Hs IH Ha]; simpl; [constructor|].
  destruct (p a); [|exact IH].
  constructor; [exact IH|].
  rewrite Forall_forall in *. intros z Hz. apply filter_In in Hz. now apply Ha.
Qed.

Lemma StronglySorted_map {A B : Type} (R : B -> B -> Prop) (f : A -> B) (l : list A) :
  StronglySorted (fun x y => R (f x) (f y)) l <-> StronglySorted R (map f l).
Proof.
  induction l as [|a l IH]; simpl; split; intros H; try constructor;
    apply StronglySorted_inv in H; destruct H as [Hs Ha].
  - now apply IH.
  - rewrite Forall_forall in *. intros z Hz. apply in_map_iff in Hz.
    destruct Hz as (y & <- & Hy). now apply Ha.
  - now apply IH.
  - rewrite Forall_forall in *. intros z Hz. apply Ha. now apply in_map.
Qed.

Lemma first_seen_in_order (l : list Z) :
  StronglySorted (fun u v => first_index u l < first_index v l) (first_seen l).
Proof.
  induction l as [|x l IH]; simpl; constructor.
  - apply StronglySorted_filter with (p := fun y => negb (y =? x)%Z) in IH.
    revert IH. apply StronglySorted_weaken.
    intros u v Hu Hv Huv.
    apply filter_In in Hu, Hv.
    destruct Hu as [_ Hu], Hv as [_ Hv].
    rewrite negb_true_iff, Z.eqb_neq in Hu, Hv.
    rewrite !(proj2 (Z.eqb_neq x _)) by congruence. lia.
  - rewrite Forall_forall. intros v Hv. apply filter_In in Hv.
    destruct Hv as [_ Hv]. rewrite negb_true_iff, Z.eqb_neq in Hv.
    rewrite Z.eqb_refl. rewrite (proj2 (Z.eqb_neq x v)) by congruence. lia.
Qed.

(** ** The stable sort by count *)

Lemma insert_by_count_perm (x : Z * nat) (l : list (Z * nat)) :
  Permutation (insert_by_count x l) (x :: l).
Proof.
  induction l as [|y l IH]; simpl; [reflexivity|].
  destruct (snd x <? snd y); [|reflexivity].
  rewrite IH. apply perm_swap.
Qed.

Lemma sorted_by_count_perm (items : list (Z * nat)) :
  Permutation (sorted_by_count items) items.
Proof.
  induction items as [|x items IH]; simpl; [reflexivity|].
  rewrite insert_by_count_perm. now constructor.
Qed.

Lemma insert_by_count_ranked (pos : Z * nat -> nat) (x : Z * nat) (l : list (Z * nat)) :
  StronglySorted (ranked pos) l ->
  Forall (fun y => pos x < pos y) l ->
  StronglySorted (ranked pos) (insert_by_count x l).
Proof.
  induction 1 as [|y l Hs IH Hy]; simpl; intros Hx.
  - repeat constructor.
  - apply Forall_cons_iff in Hx. destruct Hx as [Hxy Hx].
    rewrite Forall_forall in Hy, Hx.
    destruct (snd x <? snd y) eqn:E.
    + apply Nat.ltb_lt in E. constructor.
      * apply IH. now rewrite Forall_forall.
      * rewrite Forall_forall. intros z Hz.
        apply (Permutation_in _ (insert_by_count_perm x l)) in Hz.
        destruct Hz as [<-|Hz]; [now left | now apply Hy].
    + apply Nat.ltb_ge in E.
      constructor; [constructor; [exact Hs | now rewrite Forall_forall]|].
      constructor.
      * unfold ranked. lia.
      * rewrite Forall_forall. intros z Hz.
        specialize (Hy z Hz). specialize (Hx z Hz). unfold ranked in *. lia.
Qed.

Lemma sorted_by_count_ranked (pos : Z * nat -> nat) (items : list (Z * nat)) :
  StronglySorted (fun x y => pos x < pos y) items ->
  StronglySorted (ranked pos) (sorted_by_count items).
Proof.
  induction 1 as [|x items Hs IH Hx]; simpl; [constructor|].
  apply insert_by_count_ranked; [exact IH|].
  rewrite Forall_forall in *. intros y Hy. apply Hx.
  now apply (Permutation_in _ (sorted_by_count_perm items)).
Qed.

(** ** The ranking of owners *)

Lemma In_firstn {A : Type} (n : nat) (l : list A) (x : A) : In x (firstn n l) -> In x l.
Proof.
  intros H. rewrite <- (firstn_skipn n l). apply in_or_app. now left.
Qed.

Lemma Counter_items (rows : list Task) (x : Z * nat) :
  In x (sorted_by_count (Counter (map user_id rows))) <->
  snd x = tasks_of (fst x) rows /\ 0 < tasks_of (fst x) rows.
Proof.
  rewrite Counter_closed_form. unfold tasks_of. split.
  - intros H. apply (Permutation_in _ (sorted_by_count_perm _)) in H.
    apply in_map_iff in H. destruct H as (u & <- & Hu). cbn [fst snd].
    split; [reflexivity|].
    apply (proj1 (first_seen_In _ _)) in Hu.
    now apply count_occ_In.
  - intros [H1 H2]. apply (Permutation_in _ (Permutation_sym (sorted_by_count_perm _))).
    apply in_map_iff. exists (fst x). split.
    + rewrite <- H1. now destruct x.
    + apply first_seen_In. now apply (count_occ_In Z.eq_dec).
Qed.

Lemma Counter_ranked (rows : list Task) :
  StronglySorted (fun x y => outranks rows (fst x) (fst y))
                 (sorted_by_count (Counter (map user_id rows))).
Proof.
  pose (pos := fun x : Z * nat => first_index (fst x) (map user_id rows)).
  assert (H : StronglySorted (ranked pos) (sorted_by_count (Counter (map user_id rows)))).
  { apply sorted_by_count_ranked. rewrite Counter_closed_form.
    apply (StronglySorted_map (fun x y => pos x < pos y)
             (fun u => (u, count_occ Z.eq_dec (map user_id rows) u))).
    unfold pos. cbn [fst]. apply first_seen_in_order. }
  revert H. apply StronglySorted_weaken.
  intros x y Hx Hy. apply Counter_items in Hx, Hy.
  destruct Hx as [Hx _], Hy as [Hy _].
  unfold ranked, outranks, first_task, pos. rewrite Hx, Hy. tauto.
Qed.

(** The owners that a Counter holds are the distinct owners of the rows. *)
Lemma first_seen_length (l : list Z) :
  List.length (first_seen l) = List.length (nodup Z.eq_dec l).
Proof.
  apply Permutation_length, NoDup_Permutation.
  - apply first_seen_NoDup.
  - apply NoDup_nodup.
  - intros u. rewrite nodup_In. apply first_seen_In.
Qed.

(** C4: [top_productive_users] has three entries, or as many as there
    are owners with tasks when these are fewer than three; each carries
    the exact number of tasks of its owner; the entries are in ranking
    order (more tasks first, among equals the owner met first); every
    owner left out is ranked after every owner listed.  In particular an
    owner without tasks is never listed, and an owner with N tasks is
    listed with [task_count] N whenever at most three owners have
    tasks. *)
Theorem top_productive_users_ranking (env : Env) (rows : list Task) (s : Stats) :
  stats_of (reply (serve (get_task_stats env) rows)) = Some s ->
  let top := top_productive_users s in
  let owners := List.length (nodup Z.eq_dec (map user_id rows)) in
  List.length top <= 3 /\
  List.length top = Nat.min 3 owners /\
  users_with_tasks s = owners /\
  (forall u n, In (u, n) top -> n = tasks_of u rows /\ 0 < n) /\
  StronglySorted (outranks rows) (map fst top) /\
  (forall u v, In u (map fst top) -> ~ In v (map fst top) ->
               0 < tasks_of v rows -> outranks rows u v) /\
  (forall a b, 0 < tasks_of a rows -> tasks_of b rows = 0 ->
               ~ In b (map fst top) /\
               (users_with_tasks s <= 3 -> In (a, tasks_of a rows) top)).
Proof.
  intros H. apply get_task_stats_snapshot in H. destruct H as (_ & -> & _).
  unfold snapshot. cbn [top_productive_users users_with_tasks]. unfold most_common.
  set (S := sorted_by_count (Counter (map user_id rows))).
  pose proof (Counter_ranked rows) as Hs. fold S in Hs.
  rewrite <- (firstn_skipn 3 S) in Hs.
  apply StronglySorted_app_inv in Hs. destruct Hs as (Htop & _ & Hcut).
  assert (Hlen : List.length (Counter (map user_id rows))
                 = List.length (nodup Z.eq_dec (map user_id rows))).
  { rewrite Counter_closed_form, length_map. apply first_seen_length. }
  assert (HS : List.length S = List.length (nodup Z.eq_dec (map user_id rows))).
  { unfold S. now rewrite (Permutation_length (sorted_by_count_perm _)). }
  cbv zeta. split; [rewrite length_firstn; lia|].
  split; [rewrite length_firstn, HS; reflexivity|].
  split; [exact Hlen|].
  repeat split.
  - apply In_firstn, Counter_items in H. cbn [fst snd] in H. tauto.
  - apply In_firstn, Counter_items in H. cbn [fst snd] in H. destruct H as [-> H]. exact H.
  - apply (StronglySorted_map (outranks rows) fst). exact Htop.
  - intros u v Hu Hv Hpos.
    apply in_map_iff in Hu. destruct Hu as (x & <- & Hx).
    assert (Hy : In (v, tasks_of v rows) S) by (apply Counter_items; cbn [fst snd]; tauto).
    rewrite <- (firstn_skipn 3 S) in Hy. apply in_app_or in Hy. destruct Hy as [Hy|Hy].
    + exfalso. apply Hv. apply in_map_iff. now exists (v, tasks_of v rows).
    + apply (Hcut x (v, tasks_of v rows) Hx Hy).
  - intros Hb. apply in_map_iff in Hb. destruct Hb as (x & <- & Hx).
    apply In_firstn, Counter_items in Hx. lia.
  - intros Hle. rewrite firstn_all2.
    + apply Counter_items. cbn [fst snd]. tauto.
    + unfold S. now rewrite (Permutation_length (sorted_by_count_perm _)).
Qed.

Lemma top_productive_users_ranking_witness :
  let s := snapshot (quiet (peer_with_users 5)) crowded_rows in
  List.length (top_productive_users s) = 3 /\
  users_with_tasks s = 5 /\
  In (2%Z, 3) (top_productive_users s) /\
  outranks crowded_rows 4 1 /\
  ~ In 6%Z (map fst (top_productive_users s)).
Proof.
  pose proof (top_productive_users_ranking (quiet (peer_with_users 5)) crowded_rows
                (snapshot (quiet (peer_with_users 5)) crowded_rows) eq_refl) as H.
  destruct H as (_ & Hlen & Howners & _ & _ & Hcut & Hzero).
  split; [exact Hlen|]. split; [exact Howners|].
  split; [cbv; tauto|].
  split.
  - apply Hcut.
    + cbv. tauto.
    + cbv. intuition discriminate.
    + cbv. lia.
  - apply (Hzero 2%Z 6%Z); [cbv; lia | reflexivity].
Defined.

(** ** The peer call of the statistics handler *)

(** C1: when the call that fetches the user count is made and raises,
    the answer is still a 200 with a complete snapshot, marked
    [partial], with the error recorded and a user count of 0; the table
    is untouched. *)
Theorem peer_failure_degrades_stats (env : Env) (rows : list Task) (e : exn) :
  peer env GetUsers = PeerRaises e ->
  calls (serve (get_task_stats env) rows) = [GetUsers] ->
  exists s : Stats,
    serve (get_task_stats env) rows
      = mkOutcome (mkResponse 200 (PStats s)) rows [GetUsers] 3 /\
    s = snapshot env rows /\
    system_status s = "partial" /\
    user_service s = "offline" /\
    error s = Some (append "User service unavailable: " (exn_text e)) /\
    total_users s = 0 /\
    total_tasks s = List.length rows.
Proof.
  intros Hpeer Hcalls.
  assert (Hf : forall n, n < 3 -> db_fault env n = None).
  { revert Hcalls. unfold get_task_stats. run_handler.
    destruct (db_fault env 0) eqn:F0; [discriminate|].
    destruct (db_fault env 1) eqn:F1; [discriminate|].
    destruct (db_fault env 2) eqn:F2; [discriminate|].
    intros _ [|[|[|n]]] Hn; try assumption; lia. }
  exists (snapshot env rows). split; [now apply get_task_stats_runs|].
  unfold snapshot. cbn [system_status user_service error total_users total_tasks].
  rewrite Hpeer. cbn [fetch_raised remote_user_count]. repeat split.
Qed.

Lemma peer_failure_degrades_stats_witness :
  exists s : Stats,
    serve (get_task_stats (quiet peer_down)) demo_rows
      = mkOutcome (mkResponse 200 (PStats s)) demo_rows [GetUsers] 3 /\
    s = snapshot (quiet peer_down) demo_rows /\
    system_status s = "partial" /\
    user_service s = "offline" /\
    error s = Some "User service unavailable: connection refused" /\
    total_users s = 0 /\
    total_tasks s = 6.
Proof.
  apply (peer_failure_degrades_stats (quiet peer_down) demo_rows
           (mkExn "ConnectionError" "connection refused")); reflexivity.
Defined.

(** C2, as stated, fails: the peer answers 503, which is no success, and
    the verdict is [healthy]. *)
Lemma status_healthy_on_503 :
  exists s : Stats,
    stats_of (reply (serve (get_task_stats (quiet peer_unavailable_503)) demo_rows)) = Some s /\
    answered_200 (peer (quiet peer_unavailable_503) GetUsers) = false /\
    system_status s = "healthy" /\
    system_status s <> "partial" /\
    total_users s = 0 /\
    error s = None.
Proof.
  eexists. split; [reflexivity|].
  cbn. repeat split. discriminate.
Qed.

(** C2, amended: the verdict is [healthy] exactly when nothing was raised
    while fetching the user count (by the request, by decoding the body
    of a 200 answer, by taking its length), and [partial] otherwise; an
    answer with another status raises nothing.  The verdict is a function
    of the peer's answer alone. *)
Theorem health_verdict_follows_exception (env : Env) (rows : list Task) (s : Stats) :
  stats_of (reply (serve (get_task_stats env) rows)) = Some s ->
  system_status s = (if fetch_raised (peer env GetUsers) then "partial" else "healthy") /\
  (system_status s = "healthy" <-> error s = None) /\
  (system_status s = "partial" <-> error s <> None) /\
  (forall status b, peer env GetUsers = PeerReplies status b -> status <> 200%Z ->
                    system_status s = "healthy" /\ total_users s = 0) /\
  (forall env' rows' s',
      stats_of (reply (serve (get_task_stats env') rows')) = Some s' ->
      peer env' GetUsers = peer env GetUsers ->
      system_status s' = system_status s).
Proof.
  intros H. apply get_task_stats_snapshot in H. destruct H as (_ & -> & _).
  unfold snapshot. cbn [system_status error total_users].
  split; [reflexivity|]. split; [|split; [|split]].
  - destruct (fetch_raised (peer env GetUsers)); split; intros; congruence.
  - destruct (fetch_raised (peer env GetUsers)); split; intros; congruence.
  - intros status b -> Hne. cbn [fetch_raised remote_user_count].
    rewrite (proj2 (Z.eqb_neq status 200) Hne). split; reflexivity.
  - intros env' rows' s' H' Hp.
    apply get_task_stats_snapshot in H'. destruct H' as (_ & -> & _).
    unfold snapshot. cbn [system_status]. now rewrite Hp.
Qed.

Lemma health_verdict_follows_exception_witness :
  system_status (snapshot (quiet peer_unavailable_503) demo_rows) = "healthy" /\
  system_status (snapshot (quiet peer_down) demo_rows) = "partial".
Proof.
  split.
  - exact (proj1 (health_verdict_follows_exception
                    (quiet peer_unavailable_503) demo_rows
                    (snapshot (quiet peer_unavailable_503) demo_rows) eq_refl)).
  - exact (proj1 (health_verdict_follows_exception
                    (quiet peer_down) demo_rows
                    (snapshot (quiet peer_down) demo_rows) eq_refl)).
Defined.

(** ** The productivity metrics *)

Lemma round_nearest_zero (tie_up : bool) (x : Q) :
  (x == 0)%Q -> round_nearest tie_up x = 0%Z.
Proof.
  intros E. unfold round_nearest.
  rewrite (Qfloor_comp _ _ E). change (Qfloor 0) with 0%Z.
  assert (E' : (x - inject_Z 0 == 0 - inject_Z 0)%Q) by now rewrite E.
  now rewrite (Qcompare_comp _ _ E' _ _ (Qeq_refl _)).
Qed.

Lemma py_round2_zero_tasks (tie_up : Q -> bool) (n : nat) :
  (py_round2 tie_up (ratio 0 n) == 0)%Q.
Proof.
  unfold py_round2. rewrite round_nearest_zero; [reflexivity|].
  unfold ratio, Qdiv. cbn [Z.of_nat inject_Z]. ring.
Qed.

Lemma metric_per_user_value (env : Env) (t u : nat) :
  (value_of (metric_per_user env t u) == rounded_average env t u)%Q.
Proof.
  unfold metric_per_user, rounded_quotient, py_truediv, rounded_average.
  destruct u as [|u]; [reflexivity|].
  destruct t as [|t]; [|reflexivity].
  cbn [Nat.ltb Nat.leb andb Nat.eqb value_of]. symmetry. apply py_round2_zero_tasks.
Qed.

Lemma metric_per_active_user_value (env : Env) (t u : nat) :
  (value_of (metric_per_active_user env t u) == rounded_average env t u)%Q.
Proof.
  unfold metric_per_active_user, rounded_quotient, py_truediv, rounded_average.
  destruct u as [|u]; reflexivity.
Qed.

(** Whatever way ties go, [round(q, 2)] is [q] rounded to two decimals. *)
Lemma py_round2_nearest (tie_up : Q -> bool) (q : Q) :
  rounds_to_2_decimals q (py_round2 tie_up q).
Proof.
  split; [eexists; reflexivity|].
  unfold py_round2, round_nearest.
  change (inject_Z 100) with 100%Q.
  pose proof (Qfloor_le (q * 100)) as Hlo.
  pose proof (Qlt_floor (q * 100)) as Hhi.
  rewrite inject_Z_plus in Hhi. change (inject_Z 1) with 1%Q in Hhi.
  unfold Qdiv. change (/ 100)%Q with (1 # 100)%Q.
  destruct (Qcompare (q * 100 - inject_Z (Qfloor (q * 100))) (1 # 2)) eqn:C;
    [apply Qeq_alt in C; destruct (tie_up q)
    | apply Qlt_alt in C | apply Qgt_alt in C];
    rewrite ?inject_Z_plus; change (inject_Z 1) with 1%Q;
    remember (inject_Z (Qfloor (q * 100))) as y; lra.
Qed.

Lemma rounded_average_rounds (env : Env) (t u : nat) :
  u <> 0 -> rounds_to_2_decimals (ratio t u) (rounded_average env t u).
Proof.
  intros Hu. unfold rounded_average.
  destruct u as [|u]; [congruence|]. apply py_round2_nearest.
Qed.

(** C3: both averages are 0 when the divisor is 0, and otherwise the
    quotient rounded to two decimals.  The dividend is the number of
    rows, the divisors are the user count of the peer and the number of
    distinct owners. *)
Theorem productivity_metrics_formula (env : Env) (rows : list Task) (s : Stats) :
  stats_of (reply (serve (get_task_stats env) rows)) = Some s ->
  total_tasks s = List.length rows /\
  total_users s = remote_user_count (peer env GetUsers) /\
  users_with_tasks s = List.length (first_seen (map user_id rows)) /\
  (avg_tasks_per_user s ==
     if total_users s =? 0 then 0
     else py_round2 (round_tie_up env) (ratio (total_tasks s) (total_users s)))%Q /\
  (avg_tasks_per_active_user s ==
     if users_with_tasks s =? 0 then 0
     else py_round2 (round_tie_up env) (ratio (total_tasks s) (users_with_tasks s)))%Q /\
  (total_users s <> 0 ->
   rounds_to_2_decimals (ratio (total_tasks s) (total_users s)) (avg_tasks_per_user s)) /\
  (users_with_tasks s <> 0 ->
   rounds_to_2_decimals (ratio (total_tasks s) (users_with_tasks s))
                        (avg_tasks_per_active_user s)).
Proof.
  intros H. apply get_task_stats_snapshot in H. destruct H as (_ & -> & _).
  unfold snapshot.
  cbn [total_tasks total_users users_with_tasks avg_tasks_per_user avg_tasks_per_active_user].
  split; [reflexivity|]. split; [reflexivity|]. split; [|split; [|split; [|split]]].
  - rewrite Counter_closed_form. apply length_map.
  - apply metric_per_user_value.
  - apply metric_per_active_user_value.
  - intros Hu. pose proof (rounded_average_rounds env (List.length rows) _ Hu) as [[k Hk] Hd].
    pose proof (metric_per_user_value env (List.length rows)
                  (remote_user_count (peer env GetUsers))) as E.
    split; [exists k; now rewrite E | now rewrite E].
  - intros Hu. pose proof (rounded_average_rounds env (List.length rows) _ Hu) as [[k Hk] Hd].
    pose proof (metric_per_active_user_value env (List.length rows)
                  (List.length (Counter (map user_id rows)))) as E.
    split; [exists k; now rewrite E | now rewrite E].
Qed.

Lemma productivity_metrics_formula_witness :
  let s := snapshot (quiet (peer_with_users 4)) demo_rows in
  total_tasks s = 6 /\ total_users s = 4 /\ users_with_tasks s = 3 /\
  (avg_tasks_per_user s == 3 # 2)%Q /\
  (avg_tasks_per_active_user s == 2)%Q /\
  rounds_to_2_decimals (ratio 6 4) (avg_tasks_per_user s) /\
  rounds_to_2_decimals (ratio 6 3) (avg_tasks_per_active_user s).
Proof.
  destruct (productivity_metrics_formula (quiet (peer_with_users 4)) demo_rows
              (snapshot (quiet (peer_with_users 4)) demo_rows) eq_refl)
    as (H1 & H2 & H3 & H4 & H5 & H6 & H7).
  cbv zeta. split; [exact H1|]. split; [exact H2|]. split; [exact H3|].
  split; [|split; [|split]].
  - eapply Qeq_trans; [exact H4 | vm_compute; reflexivity].
  - eapply Qeq_trans; [exact H5 | vm_compute; reflexivity].
  - apply H6. vm_compute. discriminate.
  - apply H7. vm_compute. discriminate.
Defined.


(** ** Creating a task *)

Lemma create_task_rejects (env : Env) (data : json) (rows : list Task) :
  truthy data = false \/
  (exists m, data = JObj m /\
             (truthy (dict_get "title" m) = false \/ truthy (dict_get "user_id" m) = false)) ->
  serve (create_task env data) rows
  = mkOutcome (mkResponse 400 (PError "Datos inválidos")) rows [] 0.
Proof.
  intros [H|(m & -> & H)]; run_create.
  - rewrite H. reflexivity.
  - destruct (truthy (JObj m)); [|reflexivity]. cbn [negb].
    destruct (truthy (dict_get "title" m)); cbn [negb]; [|reflexivity].
    destruct H as [H|H]; [discriminate|]. rewrite H. reflexivity.
Qed.

Lemma dict_get_truthy (k : string) (m : list (string * json)) :
  truthy (dict_get k m) = true ->
  dict_lookup k m = Some (dict_get k m) /\ truthy (JObj m) = true.
Proof.
  unfold dict_get. destruct m as [|p m]; [discriminate|].
  destruct (dict_lookup k (p :: m)); [now split | discriminate].
Qed.

Lemma create_task_checks_owner (env : Env) (m : list (string * json)) (rows : list Task) :
  truthy (dict_get "title" m) = true ->
  truthy (dict_get "user_id" m) = true ->
  let uid := dict_get "user_id" m in
  (forall e, peer env (GetUser uid) = PeerRaises e ->
     serve (create_task env (JObj m)) rows
     = mkOutcome (mkResponse 500
                    (PError (append "Error de conexión al verificar usuario: " (exn_text e))))
                 rows [GetUser uid] 0) /\
  (forall status b, peer env (GetUser uid) = PeerReplies status b -> status <> 200%Z ->
     serve (create_task env (JObj m)) rows
     = mkOutcome (mkResponse 400 (PError "ID de usuario inválido")) rows [GetUser uid] 0).
Proof.
  intros Ht Hu uid.
  destruct (dict_get_truthy _ _ Hu) as [Hl Hm].
  split.
  - intros e Hp. run_create. rewrite Hm, Ht, Hu, Hl. cbn [negb app].
    fold uid. rewrite Hp. reflexivity.
  - intros status b Hp Hs. run_create. rewrite Hm, Ht, Hu, Hl. cbn [negb app].
    fold uid. rewrite Hp. cbn [fst]. apply Z.eqb_neq in Hs. rewrite Hs. reflexivity.
Qed.



(** C10: a body whose user_id is 0, or whose title is the empty string,
    is answered 400 without any call to the user service, whatever the
    user service would have answered. *)
Theorem falsy_owner_or_title_rejected
  (env : Env) (m : list (string * json)) (rows : list Task) :
  dict_lookup "user_id" m = Some (JInt 0) \/ dict_lookup "title" m = Some (JStr "") ->
  serve (create_task env (JObj m)) rows
  = mkOutcome (mkResponse 400 (PError "Datos inválidos")) rows [] 0.
Proof.
  intros H. apply create_task_rejects. right. exists m. split; [reflexivity|].
  unfold dict_get. destruct H as [-> | ->]; [right | left]; reflexivity.
Qed.

Lemma falsy_owner_or_title_rejected_witness :
  peer (quiet peer_knows_everyone) (GetUser (JInt 0)) = PeerReplies 200 (Ok (JList [])) /\
  serve (create_task (quiet peer_knows_everyone)
           (JObj [("title", JStr "Write report"); ("user_id", JInt 0)])) demo_rows
  = mkOutcome (mkResponse 400 (PError "Datos inválidos")) demo_rows [] 0 /\
  serve (create_task (quiet peer_knows_everyone)
           (JObj [("title", JStr ""); ("user_id", JInt 1)])) demo_rows
  = mkOutcome (mkResponse 400 (PError "Datos inválidos")) demo_rows [] 0.
Proof.
  split; [reflexivity|]. split.
  - apply (falsy_owner_or_title_rejected (quiet peer_knows_everyone)
             [("title", JStr "Write report"); ("user_id", JInt 0)] demo_rows).
    left. reflexivity.
  - apply (falsy_owner_or_title_rejected (quiet peer_knows_everyone)
             [("title", JStr ""); ("user_id", JInt 1)] demo_rows).
    right. reflexivity.
Defined.


Lemma next_id_fresh (rows : list Task) (t : Task) : In t rows -> (id t < next_id rows)%Z.
Proof.
  unfold next_id. induction rows as [|x rows IH]; cbn [In map fold_right]; [tauto|].
  intros [->|H]; [lia|]. specialize (IH H). lia.
Qed.

Lemma find_new_row (rows : list Task) (r : Task) :
  id r = next_id rows -> find (has_id (id r)) (rows ++ [r]) = Some r.
Proof.
  intros Hr.
  assert (H : forall t, In t rows -> has_id (id r) t = false).
  { intros t Ht. apply next_id_fresh in Ht. unfold has_id. apply Z.eqb_neq. lia. }
  clear Hr. induction rows as [|x rows IH]; simpl.
  - unfold has_id. now rewrite Z.eqb_refl.
  - rewrite (H x) by now left. apply IH. intros t Ht. apply H. now right.
Qed.

Lemma filter_all {A : Type} (p : A -> bool) (l : list A) :
  (forall x, In x l -> p x = true) -> filter p l = l.
Proof.
  induction l as [|a l IH]; simpl; intros H; [reflexivity|].
  rewrite (H a) by now left. f_equal. apply IH. intros x Hx. apply H. now right.
Qed.

(** What [create_task] stores when the peer confirms the owner and the
    database goes through: the title as it was sent, whatever its
    length. *)
Lemma create_task_persists
  (env : Env) (m : list (string * json)) (s : string) (z : Z) (b : result json)
  (rows : list Task) :
  dict_lookup "title" m = Some (JStr s) -> s <> "" ->
  dict_lookup "user_id" m = Some (JInt z) -> z <> 0%Z ->
  peer env (GetUser (JInt z)) = PeerReplies 200 b ->
  (forall n, n < 3 -> db_fault env n = None) ->
  serve (create_task env (JObj m)) rows
  = mkOutcome (mkResponse 201 (PTask (mkTask (next_id rows) s z)))
              (rows ++ [mkTask (next_id rows) s z]) [GetUser (JInt z)] 3.
Proof.
  intros Ht Hs Hu Hz Hp Hf.
  assert (Hm : truthy (JObj m) = true) by (destruct m; [discriminate | reflexivity]).
  run_create. unfold dict_get. rewrite Hm, Ht, Hu. cbn [negb truthy app].
  apply String.eqb_neq in Hs. apply Z.eqb_neq in Hz. rewrite Hs, Hz. cbn [negb].
  rewrite Hp. cbn [fst Z.eqb Pos.eqb negb].
  cbv [session_add commit flush statement reload_added bind ret
       db_rows tx_rows identity_map pending_new pending_deleted sql_issued peer_calls].
  cbn [app insert_all bind_text bind_integer].
  rewrite !Hf by lia.
  cbn [marked existsb negb]. rewrite !filter_all by reflexivity.
  cbn [last app].
  rewrite (find_new_row rows (mkTask (next_id rows) s z) eq_refl).
  reflexivity.
Qed.

(** C8, on a title longer than the column: the title has 101
    characters, the peer confirms user 1, and the row is stored as sent
    and answered with 201. *)
Theorem create_task_stores_overlong_title :
  String.length overlong_title = 101 /\
  serve (create_task (quiet (peer_with_users 4))
           (JObj [("title", JStr overlong_title); ("user_id", JInt 1)])) demo_rows
  = mkOutcome (mkResponse 201 (PTask (mkTask 7 overlong_title 1)))
              (demo_rows ++ [mkTask 7 overlong_title 1]) [GetUser (JInt 1)] 3.
Proof.
  split; [reflexivity|].
  apply (create_task_persists (quiet (peer_with_users 4)) _ overlong_title 1 (Ok JNull));
    try reflexivity; discriminate.
Qed.

(** ** Bulk deletion: what every session operation preserves *)

Lemma clean_empty (env : Env) (n : nat) : clean env n n.
Proof. intros k Hk. lia. Qed.

Lemma clean_trans (env : Env) (a b c : nat) :
  clean env a b -> clean env b c -> clean env a c.
Proof.
  intros H1 H2 k Hk. destruct (Nat.lt_ge_cases k b); [apply H1 | apply H2]; lia.
Qed.

Lemma framed_ret {A : Type} (env : Env) (a : A) : framed env (ret a).
Proof. intros c. cbn. repeat split; auto using clean_empty. Qed.

Lemma framed_lift {A : Type} (env : Env) (r : result A) : framed env (lift r).
Proof. intros c. cbn. repeat split; auto using clean_empty. Qed.

Lemma framed_bind {A B : Type} (env : Env) (m : M A) (k : A -> M B) :
  framed env m -> (forall a, framed env (k a)) -> framed env (bind m k).
Proof.
  intros Hm Hk c. unfold bind. specialize (Hm c).
  destruct (m c) as [[a|e] c1]; cbn [fst snd] in *.
  - destruct Hm as (H1 & H2 & H3 & H4). specialize (Hk a c1).
    destruct Hk as (K1 & K2 & K3 & K4).
    repeat split; try congruence; try lia.
    intros Hok. apply clean_trans with (sql_issued c1); [apply H4; now exists a | now apply K4].
  - destruct Hm as (H1 & H2 & H3 & _). repeat split; auto.
    intros [b Hb]. discriminate.
Qed.

Lemma framed_statement {A : Type} (env : Env) (run : Ctx -> result A * Ctx) :
  (forall c, db_rows (snd (run c)) = db_rows c /\
             peer_calls (snd (run c)) = peer_calls c /\
             sql_issued (snd (run c)) = sql_issued c) ->
  framed env (statement env run).
Proof.
  intros Hrun c. unfold statement.
  destruct (db_fault env (sql_issued c)) as [e|] eqn:F; cbn [fst snd].
  - cbn. repeat split; auto. intros [a Ha]. discriminate.
  - match goal with |- context [run ?c1] => destruct (Hrun c1) as (H1 & H2 & H3) end.
    cbn in H1, H2, H3. rewrite H1, H2, H3. repeat split; auto.
    intros _ k Hk. assert (k = sql_issued c) as -> by lia. exact F.
Qed.

Lemma framed_flush (env : Env) : framed env (flush env).
Proof.
  intros c. unfold flush.
  destruct (pending_new c) eqn:Hn, (pending_deleted c) eqn:Hd;
    try (cbn; repeat split; auto using clean_empty; fail);
    apply framed_statement; intros c1;
    destruct (insert_all env (pending_new c1) (tx_rows c1) (identity_map c1)) as [[? ?]|?];
    cbn; auto.
Qed.

Lemma framed_select (env : Env) (q : list Task -> list Task) : framed env (select env q).
Proof.
  unfold select. apply framed_bind; [apply framed_flush|].
  intros _. apply framed_statement. intros c. cbn. auto.
Qed.

Lemma framed_query_get (env : Env) (key : json) : framed env (query_get env key).
Proof.
  unfold query_get. apply framed_bind; [apply framed_lift|].
  intros [z|] c.
  - destruct (find (has_id z) (identity_map c)).
    + cbn. repeat split; auto using clean_empty.
    + apply (framed_bind env (select env _) (fun r => ret (hd_error r)));
        [apply framed_select | intros; apply framed_ret].
  - apply (framed_bind env (flush env) (fun _ => statement env (fun c1 => (Ok None, c1))));
      [apply framed_flush|].
    intros _. apply framed_statement. intros c1. cbn. auto.
Qed.

Lemma framed_session_delete (env : Env) (t : Task) : framed env (session_delete t).
Proof. intros c. cbn. repeat split; auto using clean_empty. Qed.

Lemma framed_delete_each (env : Env) (keys : list json) :
  forall n, framed env (delete_each env keys n).
Proof.
  induction keys as [|key keys IH]; intros n; cbn [delete_each].
  - apply framed_ret.
  - apply framed_bind; [apply framed_query_get|].
    intros [t|]; [|apply IH].
    apply framed_bind; [apply framed_session_delete | intros _; apply IH].
Qed.

Lemma framed_query_delete (env : Env) : framed env (query_delete env).
Proof.
  unfold query_delete. apply framed_bind; [apply framed_flush|].
  intros _. apply framed_statement. intros c. cbn. auto.
Qed.

(** ** Bulk deletion by id: the loop invariant *)

Lemma marked_self (del : list Task) (t : Task) : In t del -> marked del t = true.
Proof.
  intros H. apply existsb_exists. exists t. split; [exact H|].
  unfold has_id. apply Z.eqb_refl.
Qed.

Lemma flush_ok (env : Env) (c : Ctx) :
  pending_new c = [] -> is_ok (fst (flush env c)) ->
  pending_new (snd (flush env c)) = [] /\
  pending_deleted (snd (flush env c)) = [] /\
  tx_rows (snd (flush env c)) = visible c /\
  identity_map (snd (flush env c))
  = filter (fun t => negb (marked (pending_deleted c) t)) (identity_map c).
Proof.
  intros Hn. unfold flush, visible. rewrite Hn.
  destruct (pending_deleted c) as [|d del] eqn:Hd.
  - intros _. cbn [snd]. rewrite Hn, Hd. rewrite !filter_all by reflexivity. auto.
  - unfold statement. destruct (db_fault env (sql_issued c)); cbn.
    + intros [a Ha]. discriminate.
    + intros _. rewrite Hn, Hd. cbn. auto.
Qed.

Lemma without_snoc_listed (P : list Z) (z : Z) (rows : list Task) :
  In z P -> without (P ++ [z]) rows = without P rows.
Proof.
  intros Hz. unfold without. apply filter_ext. intros t. f_equal.
  unfold listed. rewrite existsb_app. cbn [existsb]. rewrite orb_false_r.
  destruct (id t =? z)%Z eqn:E; [|now rewrite orb_false_r].
  symmetry.
  apply Z.eqb_eq in E. rewrite orb_true_r. apply existsb_exists.
  exists z. split; [exact Hz|]. now apply Z.eqb_eq.
Qed.

Lemma listed_snoc (P : list Z) (z : Z) (t : Task) :
  listed (P ++ [z]) t = listed P t || has_id z t.
Proof.
  unfold listed, has_id. rewrite existsb_app. cbn [existsb]. now rewrite orb_false_r.
Qed.

Lemma without_snoc (P : list Z) (z : Z) (rows : list Task) :
  without (P ++ [z]) rows = filter (fun t => negb (has_id z t)) (without P rows).
Proof.
  unfold without. induction rows as [|t rows IH]; [reflexivity|].
  cbn [filter]. rewrite listed_snoc.
  destruct (listed P t); cbn [orb negb]; [exact IH|].
  cbn [filter]. destruct (has_id z t); cbn [negb]; [exact IH|].
  f_equal. exact IH.
Qed.

Lemma find_has_id (z : Z) (l : list Task) (t : Task) :
  find (has_id z) l = Some t -> In t l /\ id t = z.
Proof.
  intros H. apply find_some in H. destruct H as [H1 H2]. split; [exact H1|].
  now apply Z.eqb_eq.
Qed.

Lemma find_has_id_none (z : Z) (l : list Task) :
  find (has_id z) l = None -> filter (fun t => negb (has_id z t)) l = l.
Proof.
  intros H. apply filter_all. intros t Ht.
  now rewrite (find_none _ _ H t Ht).
Qed.

Lemma present_without (P : list Z) (rows : list Task) (z : Z) :
  ~ In z P -> find (has_id z) (without P rows) = None -> present rows z = false.
Proof.
  intros Hz Hf. unfold present.
  destruct (existsb (has_id z) rows) eqn:E; [|reflexivity].
  apply existsb_exists in E. destruct E as (t & Ht & Hid).
  assert (Hin : In t (without P rows)).
  { apply filter_In. split; [exact Ht|]. apply negb_true_iff.
    destruct (listed P t) eqn:L; [|reflexivity].
    apply existsb_exists in L. destruct L as (y & Hy & Hy'). apply Z.eqb_eq in Hy'.
    apply Z.eqb_eq in Hid. exfalso. apply Hz. congruence. }
  rewrite (find_none _ _ Hf t Hin) in Hid. discriminate.
Qed.

Lemma present_found (P : list Z) (rows : list Task) (z : Z) (t : Task) :
  find (has_id z) (without P rows) = Some t -> present rows z = true.
Proof.
  intros H. apply find_some in H. destruct H as [H1 H2].
  apply filter_In in H1. apply existsb_exists. exists t. tauto.
Qed.

Lemma delete_each_cons (env : Env) (key : json) (keys : list json) (n : nat) (c : Ctx) :
  delete_each env (key :: keys) n c = bind (visit env key n) (delete_each env keys) c.
Proof.
  cbn [delete_each]. unfold visit, bind.
  destruct (query_get env key c) as [[[t|]|e] c1]; reflexivity.
Qed.

Lemma filter_marked_self (del : list Task) :
  filter (fun t => negb (marked del t)) del = [].
Proof.
  assert (H : forall l, incl l del -> filter (fun t => negb (marked del t)) l = []).
  { induction l as [|t l IH]; intros Hl; [reflexivity|]. cbn [filter].
    rewrite marked_self by (apply Hl; now left). cbn [negb].
    apply IH. intros x Hx. apply Hl. now right. }
  apply H, incl_refl.
Qed.

Lemma flush_db_rows (env : Env) (c : Ctx) : db_rows (snd (flush env c)) = db_rows c.
Proof. apply framed_flush. Qed.

Lemma visit_run (env : Env) (rows : list Task) (P : list Z) (key : json) (n : nat) (c : Ctx) :
  Inv rows P c ->
  forall r c', visit env key n c = (r, c') ->
  forall n1, r = Ok n1 ->
  Inv rows (P ++ key_id env key) c' /\
  (NoDup (P ++ key_id env key) ->
   n1 = n + List.length (filter (present rows) (key_id env key))).
Proof.
  intros [Hdb Hnew Hmap Hpend Hvis] r c'.
  unfold visit, query_get, key_id, lift, select, bind.
  destruct (bind_key env key) as [[z|]|e]; [| |intros [= <- <-] n1; discriminate].
  - (* the key stands for id z *)
    destruct (find (has_id z) (identity_map c)) as [t|] eqn:F.
    + (* found in the identity map: no SQL *)
      apply find_has_id in F. destruct F as [Hin Hid]. rewrite Hmap in Hin.
      assert (HzP : In z P) by (rewrite <- Hid; now apply Hpend).
      unfold session_delete, ret.
      rewrite (marked_self _ _ Hin).
      intros [= <- <-] n1 [= <-]. split.
      * constructor; cbn; try assumption.
        -- intros t' Ht'. apply in_or_app. left. now apply Hpend.
        -- change (visible c = without (P ++ [z]) rows).
           rewrite Hvis. symmetry. now apply without_snoc_listed.
      * intros Hnd. apply NoDup_remove_2 in Hnd. rewrite app_nil_r in Hnd. contradiction.
    + (* not there: flush, then SELECT *)
      pose proof (flush_ok env c Hnew) as Hfl.
      pose proof (flush_db_rows env c) as Hfd.
      destruct (flush env c) as [[[]|e] c1]; cbn [fst snd] in *;
        [|intros [= <- <-] n1; discriminate].
      destruct Hfl as (Hn1 & Hd1 & Ht1 & Hm1); [now exists tt|].
      rewrite Hmap, filter_marked_self in Hm1.
      unfold statement. cbn [sql_issued].
      destruct (db_fault env (sql_issued c1)); [intros [= <- <-] n1; discriminate|].
      cbn [tx_rows identity_map]. rewrite Ht1, Hvis, Hm1.
      destruct (find (has_id z) (without P rows)) as [t|] eqn:F2.
      * cbn [remember existsb app hd_error ret].
        unfold session_delete, ret. cbn [pending_deleted]. rewrite Hd1.
        cbn [marked existsb app].
        intros [= <- <-] n1 [= <-].
        pose proof (find_has_id _ _ _ F2) as [Hin Hid].
        split.
        -- constructor; cbn; try congruence.
           ++ intros t' [<-|[]]. apply in_or_app. right. left. now symmetry.
           ++ unfold visible. cbn [tx_rows pending_deleted].
              rewrite ?Ht1, ?Hvis, without_snoc.
              apply filter_ext. intros t'. unfold marked, has_id. cbn [existsb]. rewrite Hid.
              now rewrite orb_false_r, Z.eqb_sym.
        -- intros _. cbn [filter]. rewrite (present_found _ _ _ _ F2). cbn. lia.
      * cbn [remember hd_error ret].
        intros [= <- <-] n1 [= <-]. split.
        -- constructor; cbn; try congruence.
           ++ rewrite Hd1. intros t' [].
           ++ unfold visible. cbn [tx_rows pending_deleted].
              rewrite ?Hd1, ?Ht1, ?Hvis, without_snoc.
              rewrite (find_has_id_none _ _ F2). now apply filter_all.
        -- intros Hnd. apply NoDup_remove_2 in Hnd. rewrite app_nil_r in Hnd.
           cbn [filter]. rewrite (present_without _ _ _ Hnd F2). cbn. lia.
  - (* the key matches no row *)
    pose proof (flush_ok env c Hnew) as Hfl.
    pose proof (flush_db_rows env c) as Hfd.
    destruct (flush env c) as [[[]|e] c1]; cbn [fst snd] in *;
      [|intros [= <- <-] n1; discriminate].
    destruct Hfl as (Hn1 & Hd1 & Ht1 & Hm1); [now exists tt|].
    unfold statement. destruct (db_fault env (sql_issued c1));
      [intros [= <- <-] n1; discriminate|].
    cbn [ret]. intros [= <- <-] n1 [= <-]. rewrite app_nil_r. split.
    + constructor; cbn; try congruence.
      * rewrite Hm1, Hmap, filter_marked_self. now rewrite Hd1.
      * rewrite Hd1. intros t' [].
      * unfold visible. cbn [tx_rows pending_deleted].
        rewrite ?Hd1, ?Ht1, ?Hvis. now apply filter_all.
    + intros _. cbn. lia.
Qed.

Lemma delete_each_run (env : Env) (rows : list Task) (keys : list json) :
  forall (P : list Z) (n : nat) (c : Ctx),
    Inv rows P c ->
    forall r c', delete_each env keys n c = (r, c') ->
    forall n', r = Ok n' ->
    Inv rows (P ++ key_ids env keys) c' /\
    (NoDup (P ++ key_ids env keys) ->
     n' = n + List.length (filter (present rows) (key_ids env keys))).
Proof.
  induction keys as [|key keys IH]; intros P n c Hinv r c'.
  - cbn. intros [= <- <-] n' [= <-]. rewrite app_nil_r. split; [exact Hinv | intros; lia].
  - rewrite delete_each_cons. unfold bind.
    destruct (visit env key n c) as [[n1|e] c1] eqn:V; [|intros [= <- <-] n'; discriminate].
    destruct (visit_run env rows P key n c Hinv _ _ V n1 eq_refl) as [Hinv1 Hn1].
    intros D n' ->.
    destruct (IH _ _ _ Hinv1 _ _ D n' eq_refl) as [Hinv2 Hn2].
    cbn [key_ids flat_map]. fold (key_ids env keys).
    rewrite app_assoc. split; [exact Hinv2|].
    intros Hnd. rewrite filter_app, length_app.
    rewrite (Hn2 Hnd), Hn1; [lia|].
    rewrite <- (app_nil_r (P ++ key_id env key)).
    apply NoDup_app_remove_r with (l' := key_ids env keys).
    now rewrite app_nil_r.
Qed.

Lemma commit_run (env : Env) (c : Ctx) (r : result unit) (c' : Ctx) :
  pending_new c = [] ->
  commit env c = (r, c') ->
  peer_calls c' = peer_calls c /\
  sql_issued c <= sql_issued c' /\
  match r with
  | Ok _ => db_rows c' = visible c /\ clean env (sql_issued c) (sql_issued c')
  | Raise _ => db_rows c' = db_rows c
  end.
Proof.
  intros Hnew. unfold commit, bind.
  pose proof (flush_ok env c Hnew) as Hok.
  destruct (framed_flush env c) as (F1 & F2 & F3 & F4).
  destruct (flush env c) as [[[]|e] c1]; cbn [fst snd] in *.
  - destruct Hok as (_ & _ & Ht & _); [now exists tt|].
    specialize (F4 (ex_intro _ tt eq_refl)).
    unfold statement. destruct (db_fault env (sql_issued c1)) eqn:Fc.
    + intros [= <- <-]. cbn. repeat split; try congruence. lia.
    + intros [= <- <-]. cbn. repeat split; try congruence; try lia.
      apply clean_trans with (sql_issued c1); [exact F4|].
      intros k Hk. assert (k = sql_issued c1) as -> by lia. exact Fc.
  - intros [= <- <-]. repeat split; assumption.
Qed.

Lemma Inv_fresh (rows : list Task) : Inv rows [] (mkCtx rows rows [] [] [] 0 []).
Proof.
  constructor; cbn; try reflexivity.
  intros t [].
Qed.

Lemma cleanup_specific_run (env : Env) (data : json) (rows : list Task) :
  let out := serve (cleanup_specific_tasks env data) rows in
  calls out = [] /\
  (status_code (reply out) = 200%Z \/
   (status_code (reply out) = 400%Z /\ statements out = 0) \/
   status_code (reply out) = 500%Z) /\
  (status_code (reply out) <> 200%Z -> store out = rows) /\
  (status_code (reply out) = 200%Z ->
   exists keys n,
     truthy data = true /\
     py_getitem data "task_ids" = Ok (JList keys) /\
     reply out = mkResponse 200 (deleted_specific_message n) /\
     store out = without (key_ids env keys) rows /\
     clean env 0 (statements out) /\
     (NoDup (key_ids env keys) ->
      n = List.length (filter (present rows) (key_ids env keys)))).
Proof.
  cbv zeta. remember (serve (cleanup_specific_tasks env data) rows) as out eqn:Hout.
  revert Hout. unfold cleanup_specific_tasks, serve, try_except.
  destruct (truthy data) eqn:Hd; cbv beta iota delta [bind ret lift negb];
    [|intros ->; cbn; done_case].
  destruct (py_contains "task_ids" data) as [[|]|e];
    try (intros ->; cbn; done_case).
  destruct (py_getitem data "task_ids") as [task_ids|e] eqn:Hg;
    [|intros ->; cbn; done_case].
  destruct task_ids as [| | | |keys|]; try (intros ->; cbn; done_case).
  pose proof (framed_delete_each env keys 0 (mkCtx rows rows [] [] [] 0 [])) as Hfr.
  pose proof (delete_each_run env rows keys [] 0 _ (Inv_fresh rows)) as Hrun.
  destruct (delete_each env keys 0 (mkCtx rows rows [] [] [] 0 [])) as [[n|e] c1];
    cbn [fst snd db_rows peer_calls sql_issued] in Hfr;
    destruct Hfr as (F1 & F2 & F3 & F4);
    [|intros ->; cbn; done_case].
  destruct (Hrun _ _ eq_refl n eq_refl) as [Hinv Hcount]. cbn [app] in Hinv, Hcount.
  specialize (F4 (ex_intro _ n eq_refl)).
  pose proof (commit_run env c1) as Hc.
  destruct (commit env c1) as [[[]|e] c2].
  - destruct (Hc _ _ (inv_new _ _ _ Hinv) eq_refl) as (C1 & C2 & C3 & C4).
    intros ->. cbn -[append]. rewrite C1, F2. split; [reflexivity|]. split; [now left|].
    split; [congruence|]. intros _. exists keys, n.
    repeat split; auto.
    + rewrite C3. apply (inv_visible _ _ _ Hinv).
    + apply clean_trans with (sql_issued c1); assumption.
  - destruct (Hc _ _ (inv_new _ _ _ Hinv) eq_refl) as (C1 & C2 & C3).
    intros ->. cbn. rewrite C3, C1, F1, F2. done_case.
Qed.

Lemma cleanup_tasks_run (env : Env) (rows : list Task) :
  let out := serve (cleanup_tasks env) rows in
  calls out = [] /\
  (status_code (reply out) = 200%Z \/ status_code (reply out) = 500%Z) /\
  (status_code (reply out) <> 200%Z -> store out = rows) /\
  (status_code (reply out) = 200%Z ->
   reply out = mkResponse 200
                 (PMessage (append "Deleted "
                              (append (str_of_nat (List.length rows)) " tasks"))) /\
   store out = [] /\
   clean env 0 (statements out)).
Proof.
  cbv zeta. unfold cleanup_tasks. run_handler.
  destruct (db_fault env 0) as [e0|] eqn:F0; [cbn; done_case|].
  destruct (db_fault env 1) as [e1|] eqn:F1; [cbn; done_case|].
  cbn. repeat split; auto; try congruence.
  intros [|[|k]] Hk; try assumption; lia.
Qed.

(** ** Bulk deletion when the database goes through *)

Lemma flush_quiet (env : Env) (c : Ctx) :
  (forall k, db_fault env k = None) -> pending_new c = [] -> is_ok (fst (flush env c)).
Proof.
  intros Hq Hn. unfold flush, statement. rewrite Hn.
  destruct (pending_deleted c); [now exists tt|].
  rewrite Hq. cbn. rewrite ?Hn. now exists tt.
Qed.

Lemma visit_quiet (env : Env) (z : Z) (n : nat) (c : Ctx) :
  (forall k, db_fault env k = None) -> pending_new c = [] ->
  is_ok (fst (visit env (JInt z) n c)).
Proof.
  intros Hq Hn. unfold visit, query_get, select, bind_key, lift, bind.
  destruct (find (has_id z) (identity_map c)) as [t|].
  - cbn. now exists (S n).
  - destruct (flush_quiet env c Hq Hn) as [[] Hfl].
    destruct (flush env c) as [r c1]. cbn [fst] in Hfl. subst r.
    unfold statement. rewrite Hq. cbn [tx_rows].
    destruct (find (has_id z) (tx_rows c1)); cbn; eexists; reflexivity.
Qed.

Lemma key_ids_ints (env : Env) (ids : list Z) : key_ids env (map JInt ids) = ids.
Proof.
  induction ids as [|z ids IH]; [reflexivity|].
  cbn [map key_ids flat_map]. fold (key_ids env (map JInt ids)). now rewrite IH.
Qed.

Lemma delete_each_quiet (env : Env) (rows : list Task) (ids : list Z) :
  (forall k, db_fault env k = None) ->
  forall P n c, Inv rows P c -> is_ok (fst (delete_each env (map JInt ids) n c)).
Proof.
  intros Hq. induction ids as [|z ids IH]; intros P n c Hinv.
  - cbn. now exists n.
  - cbn [map]. rewrite delete_each_cons. unfold bind.
    destruct (visit_quiet env z n c Hq (inv_new _ _ _ Hinv)) as [n1 Hv].
    destruct (visit env (JInt z) n c) as [r c1] eqn:V. cbn [fst] in Hv. subst r.
    destruct (visit_run env rows P (JInt z) n c Hinv _ _ V n1 eq_refl) as [Hinv1 _].
    apply (IH _ _ _ Hinv1).
Qed.

Lemma commit_quiet (env : Env) (c : Ctx) :
  (forall k, db_fault env k = None) -> pending_new c = [] -> is_ok (fst (commit env c)).
Proof.
  intros Hq Hn. unfold commit, bind.
  destruct (flush_quiet env c Hq Hn) as [[] Hfl].
  destruct (flush env c) as [r c1]. cbn [fst] in Hfl. subst r.
  unfold statement. rewrite Hq. cbn. now exists tt.
Qed.

Lemma cleanup_specific_succeeds
  (env : Env) (m : list (string * json)) (ids : list Z) (rows : list Task) :
  (forall k, db_fault env k = None) ->
  dict_lookup "task_ids" m = Some (JList (map JInt ids)) ->
  status_code (reply (serve (cleanup_specific_tasks env (JObj m)) rows)) = 200%Z.
Proof.
  intros Hq Hm.
  assert (Hd : truthy (JObj m) = true) by (destruct m; [discriminate | reflexivity]).
  unfold cleanup_specific_tasks, serve, try_except.
  rewrite Hd. cbv beta iota delta [bind ret lift negb py_contains py_getitem].
  rewrite Hm.
  destruct (delete_each_quiet env rows ids Hq [] 0 _ (Inv_fresh rows)) as [n Hn].
  pose proof (delete_each_run env rows (map JInt ids) [] 0 _ (Inv_fresh rows)) as Hrun.
  destruct (delete_each env (map JInt ids) 0 (mkCtx rows rows [] [] [] 0 [])) as [r c1].
  cbn [fst] in Hn. subst r.
  destruct (Hrun _ _ eq_refl n eq_refl) as [Hinv _].
  destruct (commit_quiet env c1 Hq (inv_new _ _ _ Hinv)) as [[] Hc].
  destruct (commit env c1) as [r c2]. cbn [fst] in Hc. subst r.
  reflexivity.
Qed.

(** For a list of integer ids and a database that goes through: the
    answer is 200, the rows left are those whose id is not listed, and
    when no id is listed twice the count reported is the number of
    listed ids that had a row. *)
Lemma cleanup_specific_deletes_listed
  (env : Env) (m : list (string * json)) (ids : list Z) (rows : list Task) :
  (forall k, db_fault env k = None) ->
  dict_lookup "task_ids" m = Some (JList (map JInt ids)) ->
  exists n,
    reply (serve (cleanup_specific_tasks env (JObj m)) rows)
      = mkResponse 200 (deleted_specific_message n) /\
    store (serve (cleanup_specific_tasks env (JObj m)) rows) = without ids rows /\
    calls (serve (cleanup_specific_tasks env (JObj m)) rows) = [] /\
    (NoDup ids -> n = List.length (filter (present rows) ids)).
Proof.
  intros Hq Hm.
  pose proof (cleanup_specific_succeeds env m ids rows Hq Hm) as H200.
  destruct (cleanup_specific_run env (JObj m) rows) as (Hcalls & _ & _ & Hok).
  destruct (Hok H200) as (keys & n & _ & Hg & Hr & Hs & _ & Hn).
  cbn [py_getitem] in Hg. rewrite Hm in Hg. injection Hg as <-.
  rewrite key_ids_ints in Hs, Hn.
  exists n. repeat split; assumption.
Qed.

(** ** What a bulk deletion leaves in the session *)

Lemma store_session_after (handler : M response) (rows : list Task) :
  store (serve handler rows) = db_rows (session_after handler rows).
Proof.
  unfold serve, session_after.
  destruct (handler (mkCtx rows rows [] [] [] 0 [])) as [[r|e] c]; reflexivity.
Qed.

(** The [except] branch of the two handlers ends on a session that
    [rollback] has emptied. *)
Lemma rollback_settles (c : Ctx) (r : response) :
  settled (snd ((rollback ;;; ret r) c)).
Proof. repeat split. Qed.

Lemma cleanup_tasks_settled (env : Env) (rows : list Task) :
  status_code (reply (serve (cleanup_tasks env) rows)) <> 200%Z ->
  settled (session_after (cleanup_tasks env) rows).
Proof.
  unfold cleanup_tasks, serve, session_after, try_except.
  destruct ((num_deleted <- query_delete env ;;
             commit env ;;;
             ret (mkResponse 200
                    (PMessage (append "Deleted "
                                 (append (str_of_nat num_deleted) " tasks")))))
              (mkCtx rows rows [] [] [] 0 [])) as [[r|e] c] eqn:E.
  - intros H. exfalso. apply H. revert E. unfold bind, ret.
    destruct (query_delete env _) as [[n|e] c1]; [|discriminate].
    destruct (commit env c1) as [[[]|e] c2]; [|discriminate].
    now intros [= <- _].
  - intros _. apply rollback_settles.
Qed.

Lemma cleanup_specific_settled (env : Env) (data : json) (rows : list Task) :
  status_code (reply (serve (cleanup_specific_tasks env data) rows)) <> 200%Z ->
  settled (session_after (cleanup_specific_tasks env data) rows).
Proof.
  assert (fresh : settled (mkCtx rows rows [] [] [] 0 [])) by (repeat split).
  unfold cleanup_specific_tasks, serve, session_after, try_except.
  destruct (truthy data); cbv beta iota delta [bind ret lift negb];
    [|intros _; exact fresh].
  destruct (py_contains "task_ids" data) as [[|]|e];
    [|intros _; exact fresh|intros _; apply rollback_settles].
  destruct (py_getitem data "task_ids") as [task_ids|e];
    [|intros _; apply rollback_settles].
  destruct task_ids as [| | | |keys|]; try solve [intros _; exact fresh].
  destruct (delete_each env keys 0 (mkCtx rows rows [] [] [] 0 [])) as [[n|e] c1];
    [|intros _; apply rollback_settles].
  destruct (commit env c1) as [[[]|e] c2]; [|intros _; apply rollback_settles].
  cbn [fst status_code reply]. intros H. now contradiction H.
Qed.

(** C9: in both bulk deletions a failing SQL statement leads to a 500,
    leaves the table as it was and the session rolled back: its
    transaction is back at the rows of the table and nothing is pending.
    The same holds of every answer other than 200.  With a 200 all the
    deletions are in the table at once (every row for [cleanup_tasks],
    every row with a listed id for [cleanup_specific_tasks]), and a run
    without a failing statement is answered 200. *)
Theorem bulk_delete_all_or_nothing (env : Env) (data : json) (rows : list Task) :
  let everything := serve (cleanup_tasks env) rows in
  let chosen := serve (cleanup_specific_tasks env data) rows in
  let rolled_back c := db_rows c = rows /\ settled c in
  ((exists k, k < statements everything /\ db_fault env k <> None) ->
   status_code (reply everything) = 500%Z /\ store everything = rows /\
   rolled_back (session_after (cleanup_tasks env) rows)) /\
  (status_code (reply everything) <> 200%Z ->
   store everything = rows /\ rolled_back (session_after (cleanup_tasks env) rows)) /\
  (status_code (reply everything) = 200%Z -> store everything = []) /\
  ((forall k, k < 2 -> db_fault env k = None) -> status_code (reply everything) = 200%Z) /\
  ((exists k, k < statements chosen /\ db_fault env k <> None) ->
   status_code (reply chosen) = 500%Z /\ store chosen = rows /\
   rolled_back (session_after (cleanup_specific_tasks env data) rows)) /\
  (status_code (reply chosen) <> 200%Z ->
   store chosen = rows /\
   rolled_back (session_after (cleanup_specific_tasks env data) rows)) /\
  (status_code (reply chosen) = 200%Z ->
   exists keys, py_getitem data "task_ids" = Ok (JList keys) /\
                store chosen = without (key_ids env keys) rows) /\
  (forall m ids, data = JObj m -> dict_lookup "task_ids" m = Some (JList (map JInt ids)) ->
                 (forall k, db_fault env k = None) ->
                 status_code (reply chosen) = 200%Z).
Proof.
  cbv zeta.
  destruct (cleanup_tasks_run env rows) as (_ & A1 & A2 & A3).
  destruct (cleanup_specific_run env data rows) as (_ & B1 & B2 & B3).
  assert (A4 : status_code (reply (serve (cleanup_tasks env) rows)) <> 200%Z ->
               store (serve (cleanup_tasks env) rows) = rows /\
               db_rows (session_after (cleanup_tasks env) rows) = rows /\
               settled (session_after (cleanup_tasks env) rows)).
  { intros H. split; [now apply A2|]. split; [|now apply cleanup_tasks_settled].
    rewrite <- store_session_after. now apply A2. }
  assert (B4 : status_code (reply (serve (cleanup_specific_tasks env data) rows)) <> 200%Z ->
               store (serve (cleanup_specific_tasks env data) rows) = rows /\
               db_rows (session_after (cleanup_specific_tasks env data) rows) = rows /\
               settled (session_after (cleanup_specific_tasks env data) rows)).
  { intros H. split; [now apply B2|]. split; [|now apply cleanup_specific_settled].
    rewrite <- store_session_after. now apply B2. }
  assert (A5 : (exists k, k < statements (serve (cleanup_tasks env) rows) /\
                          db_fault env k <> None) ->
               status_code (reply (serve (cleanup_tasks env) rows)) = 500%Z).
  { intros (k & Hk & Hf). destruct A1 as [A1|A1]; [|exact A1].
    destruct (A3 A1) as (_ & _ & Hc). exfalso. apply Hf, Hc. lia. }
  assert (B5 : (exists k, k < statements (serve (cleanup_specific_tasks env data) rows) /\
                          db_fault env k <> None) ->
               status_code (reply (serve (cleanup_specific_tasks env data) rows)) = 500%Z).
  { intros (k & Hk & Hf). destruct B1 as [B1|[[_ B1]|B1]]; [| lia | exact B1].
    destruct (B3 B1) as (keys & n & _ & _ & _ & _ & Hc & _). exfalso. apply Hf, Hc. lia. }
  split; [intros H; split; [now apply A5|]; apply A4; rewrite (A5 H); discriminate|].
  split; [exact A4|].
  split; [intros H; now apply A3|].
  split.
  { intros Hq. unfold cleanup_tasks. run_handler. rewrite !Hq by lia. reflexivity. }
  split; [intros H; split; [now apply B5|]; apply B4; rewrite (B5 H); discriminate|].
  split; [exact B4|].
  split.
  { intros H. destruct (B3 H) as (keys & n & _ & Hg & _ & Hs & _). now exists keys. }
  intros m ids -> Hm Hq. now apply cleanup_specific_succeeds with ids.
Qed.

Lemma bulk_delete_all_or_nothing_witness :
  (status_code (reply (serve (cleanup_tasks second_statement_fails) demo_rows)) = 500%Z /\
   store (serve (cleanup_tasks second_statement_fails) demo_rows) = demo_rows /\
   tx_rows (session_after (cleanup_tasks second_statement_fails) demo_rows) = demo_rows) /\
  (status_code
     (reply (serve (cleanup_specific_tasks second_statement_fails
                      (JObj [("task_ids", JList [JInt 1; JInt 2])])) demo_rows)) = 500%Z /\
   store (serve (cleanup_specific_tasks second_statement_fails
                   (JObj [("task_ids", JList [JInt 1; JInt 2])])) demo_rows) = demo_rows /\
   tx_rows (session_after (cleanup_specific_tasks second_statement_fails
                             (JObj [("task_ids", JList [JInt 1; JInt 2])])) demo_rows)
   = demo_rows).
Proof.
  destruct (bulk_delete_all_or_nothing second_statement_fails
              (JObj [("task_ids", JList [JInt 1; JInt 2])]) demo_rows)
    as (H1 & _ & _ & _ & H2 & _).
  split.
  - destruct H1 as (Hr & Hs & Hd & Ht & _).
    + exists 1. split; [cbv; lia | discriminate].
    + split; [exact Hr|]. split; [exact Hs|]. now rewrite Ht.
  - destruct H2 as (Hr & Hs & Hd & Ht & _).
    + exists 1. split; [cbv; lia | discriminate].
    + split; [exact Hr|]. split; [exact Hs|]. now rewrite Ht.
Defined.

(** C7, on a list that names an id more than once: rows 1 and 2 are
    stored and the list is [1, 1, 2, 1].  Both rows are deleted and the
    count reported is 3, which is neither the number of listed ids that
    had a row (2) nor the number of entries of the list that had one
    (4).  The second lookup of id 1 finds the object of the first, still
    in the identity map; the last one, made after a flush, finds
    nothing.  With the single row 1 and the list [1, 1] the count
    reported is 2. *)
Theorem cleanup_specific_counts_repeats :
  serve (cleanup_specific_tasks (quiet peer_down)
           (JObj [("task_ids", JList [JInt 1; JInt 1; JInt 2; JInt 1])])) two_rows
  = mkOutcome (mkResponse 200 (PMessage "Deleted 3 specific tasks")) [] [] 6 /\
  List.length (filter (present two_rows) (nodup Z.eq_dec [1; 1; 2; 1]%Z)) = 2 /\
  List.length (filter (present two_rows) [1; 1; 2; 1]%Z) = 4 /\
  serve (cleanup_specific_tasks (quiet peer_down)
           (JObj [("task_ids", JList [JInt 1; JInt 1])])) [mkTask 1 "first" 1]
  = mkOutcome (mkResponse 200 (PMessage "Deleted 2 specific tasks")) [] [] 3.
Proof. repeat split. Qed.

(** One id with a row, one without: the row is deleted, the count is 1. *)
Lemma cleanup_specific_one_of_two :
  serve (cleanup_specific_tasks (quiet peer_down)
           (JObj [("task_ids", JList [JInt 2; JInt 99])])) two_rows
  = mkOutcome (mkResponse 200 (PMessage "Deleted 1 specific tasks"))
              [mkTask 1 "first" 1] [] 4.
Proof. reflexivity. Qed.

(** ** Rows are inserted and deleted, never changed *)

(** X8: a body that is neither empty nor a JSON object makes [data.get]
    raise; the exception leaves the handler and the answer is a 500. *)
Lemma create_task_non_object_body (env : Env) (data : json) (rows : list Task) :
  truthy data = true -> (forall m, data <> JObj m) ->
  exists e, serve (create_task env data) rows
            = mkOutcome (mkResponse 500 (PUncaught e)) rows [] 0 /\
            exn_class e = "AttributeError".
Proof.
  intros Hd Hm. run_create. rewrite Hd. cbn [negb].
  destruct data as [|b|z|s|l|m]; try (eexists; split; reflexivity).
  exfalso. now apply (Hm m).
Qed.

Lemma create_task_appends (env : Env) (data : json) (rows : list Task) :
  store (serve (create_task env data) rows) = rows \/
  exists s z, store (serve (create_task env data) rows)
              = rows ++ [mkTask (next_id rows) s z].
Proof.
  destruct (truthy data) eqn:Hd.
  2:{ left. now rewrite (create_task_rejects env data rows (or_introl Hd)). }
  destruct data as [|b|z|s|l|m];
    try (left; run_create; rewrite Hd; reflexivity).
  destruct (truthy (dict_get "title" m)) eqn:Ht.
  2:{ left. rewrite (create_task_rejects env (JObj m) rows); [reflexivity|].
      right. exists m. tauto. }
  destruct (truthy (dict_get "user_id" m)) eqn:Hu.
  2:{ left. rewrite (create_task_rejects env (JObj m) rows); [reflexivity|].
      right. exists m. tauto. }
  destruct (create_task_checks_owner env m rows Ht Hu) as [Hr Hs].
  destruct (peer env (GetUser (dict_get "user_id" m))) as [e|status b] eqn:Hp.
  { left. now rewrite (Hr e eq_refl). }
  destruct (Z.eq_dec status 200) as [->|Hne].
  2:{ left. now rewrite (Hs status b eq_refl Hne). }
  destruct (dict_get_truthy _ _ Hu) as [Hl _].
  destruct (dict_get_truthy _ _ Ht) as [Hl' _].
  clear Hr Hs. run_create. rewrite Hd, Ht, Hu, Hl, Hl'. cbn [negb app]. rewrite Hp.
  cbn [fst Z.eqb Pos.eqb negb].
  cbv [session_add commit flush statement reload_added bind ret
       db_rows tx_rows identity_map pending_new pending_deleted sql_issued peer_calls].
  cbn [app insert_all].
  destruct (db_fault env 0); [now left|].
  destruct (bind_text env (dict_get "title" m)) as [s|]; [|now left].
  destruct (bind_integer env (dict_get "user_id" m)) as [z|]; [|now left].
  destruct (db_fault env 1); [now left|].
  right. exists s, z.
  cbn [marked existsb negb]. rewrite !filter_all by reflexivity.
  destruct (db_fault env 2); [reflexivity|].
  match goal with
  | |- context [find ?f ?l] => destruct (find f l)
  end; reflexivity.
Qed.

Lemma get_tasks_reads (env : Env) (rows : list Task) :
  store (serve (get_tasks env) rows) = rows /\
  (db_fault env 0 = None ->
   reply (serve (get_tasks env) rows) = mkResponse 200 (PTaskList rows)).
Proof.
  unfold get_tasks. run_handler.
  destruct (db_fault env 0); [split; [reflexivity | discriminate]|].
  split; reflexivity.
Qed.

Lemma delete_task_removes (env : Env) (task_id : Z) (rows : list Task) :
  store (serve (delete_task env task_id) rows) = rows \/
  store (serve (delete_task env task_id) rows)
  = filter (fun t => negb (has_id task_id t)) rows.
Proof.
  unfold delete_task, query_get, bind_key, session_delete. run_handler. cbn [find].
  destruct (db_fault env 0); [left; reflexivity|].
  destruct (find (has_id task_id) rows) as [t|] eqn:F; [|left; reflexivity].
  cbn [hd_error remember existsb app marked].
  destruct (db_fault env 1); [left; reflexivity|].
  cbn [insert_all]. destruct (db_fault env 2); [left; reflexivity|].
  right. cbn [store]. apply filter_ext. intros t'.
  apply find_has_id in F. destruct F as [_ F].
  unfold marked, has_id. cbn [existsb]. rewrite F. now rewrite orb_false_r, Z.eqb_sym.
Qed.

Lemma get_task_stats_reads (env : Env) (rows : list Task) :
  store (serve (get_task_stats env) rows) = rows.
Proof.
  destruct (db_fault env 0) as [e0|] eqn:F0;
    [|destruct (db_fault env 1) as [e1|] eqn:F1;
      [|destruct (db_fault env 2) as [e2|] eqn:F2]].
  4:{ rewrite get_task_stats_runs; [reflexivity|].
      intros [|[|[|n]]] Hn; try assumption; lia. }
  all: unfold get_task_stats; run_handler; rewrite ?F0, ?F1, ?F2; reflexivity.
Qed.

(** X1: whatever the request, a row of the table after it is a row of the
    table before it, unchanged, or the one row that [create_task]
    appended. *)
Theorem rows_never_updated (env : Env) (rows : list Task) (t : Task) :
  (forall data, In t (store (serve (create_task env data) rows)) ->
                In t rows \/ id t = next_id rows) /\
  (In t (store (serve (get_tasks env) rows)) -> In t rows) /\
  (forall task_id, In t (store (serve (delete_task env task_id) rows)) -> In t rows) /\
  (In t (store (serve (cleanup_tasks env) rows)) -> In t rows) /\
  (forall data, In t (store (serve (cleanup_specific_tasks env data) rows)) -> In t rows) /\
  (In t (store (serve (get_task_stats env) rows)) -> In t rows).
Proof.
  repeat split.
  - intros data. destruct (create_task_appends env data rows) as [->|(s & z & ->)];
      [tauto|].
    intros H. apply in_app_or in H. destruct H as [H|[<-|[]]]; [now left | now right].
  - now rewrite (proj1 (get_tasks_reads env rows)).
  - intros task_id. destruct (delete_task_removes env task_id rows) as [->| ->];
      [tauto|]. intros H. now apply filter_In in H.
  - destruct (cleanup_tasks_run env rows) as (_ & A1 & A2 & A3).
    destruct A1 as [A1|A1].
    + destruct (A3 A1) as (_ & -> & _). intros [].
    + rewrite A2; [tauto|]. rewrite A1. discriminate.
  - intros data. destruct (cleanup_specific_run env data rows) as (_ & _ & B2 & B3).
    destruct (Z.eq_dec (status_code (reply (serve (cleanup_specific_tasks env data) rows)))
                       200) as [E|E].
    + destruct (B3 E) as (keys & n & _ & _ & _ & -> & _).
      intros H. now apply filter_In in H.
    + now rewrite (B2 E).
  - now rewrite get_task_stats_reads.
Qed.

Lemma rows_never_updated_witness :
  In (mkTask 1 "Task 1 for Alice" 1) demo_rows /\
  (In (mkTask 7 "Write report" 2) demo_rows \/ 7%Z = next_id demo_rows).
Proof.
  destruct (rows_never_updated (quiet (peer_with_users 4)) demo_rows
              (mkTask 1 "Task 1 for Alice" 1)) as (_ & _ & Hd & _).
  destruct (rows_never_updated (quiet (peer_with_users 4)) demo_rows
              (mkTask 7 "Write report" 2)) as (Hc & _).
  split.
  - apply (Hd 2%Z). vm_compute. tauto.
  - apply (Hc (JObj [("title", JStr "Write report"); ("user_id", JInt 2)])).
    vm_compute. tauto.
Defined.

(** ** Primary keys stay unique *)

(** Dropping rows keeps the ids of the rows that stay distinct. *)
Lemma ids_unique_filter (keep : Task -> bool) (rows : list Task) :
  NoDup (map id rows) -> NoDup (map id (filter keep rows)).
Proof.
  intros Hrows. induction rows as [|t rows IH]; [constructor|].
  cbn [map] in Hrows. apply NoDup_cons_iff in Hrows. destruct Hrows as [Hnew Hrest].
  cbn [filter]. destruct (keep t); [|exact (IH Hrest)].
  cbn [map]. apply NoDup_cons; [|exact (IH Hrest)].
  contradict Hnew. apply in_map_iff in Hnew. destruct Hnew as (t' & Hid & Hkept).
  apply in_map_iff. exists t'. split; [exact Hid|].
  apply filter_In in Hkept. tauto.
Qed.

Lemma NoDup_map_id_new (rows : list Task) (s : string) (z : Z) :
  NoDup (map id rows) -> NoDup (map id (rows ++ [mkTask (next_id rows) s z])).
Proof.
  intros H. rewrite map_app. cbn [map id].
  apply NoDup_app; [exact H | repeat constructor; intros [] |].
  intros k Hk [<-|[]].
  apply in_map_iff in Hk. destruct Hk as (t & Ht & Hin).
  apply next_id_fresh in Hin. lia.
Qed.

(** X2: every handler leaves the ids of the table pairwise distinct. *)
Theorem ids_stay_unique (env : Env) (rows : list Task) :
  NoDup (map id rows) ->
  (forall data, NoDup (map id (store (serve (create_task env data) rows)))) /\
  NoDup (map id (store (serve (get_tasks env) rows))) /\
  (forall task_id, NoDup (map id (store (serve (delete_task env task_id) rows)))) /\
  NoDup (map id (store (serve (cleanup_tasks env) rows))) /\
  (forall data, NoDup (map id (store (serve (cleanup_specific_tasks env data) rows)))) /\
  NoDup (map id (store (serve (get_task_stats env) rows))).
Proof.
  intros H. repeat split.
  - intros data. destruct (create_task_appends env data rows) as [->|(s & z & ->)];
      [exact H | now apply NoDup_map_id_new].
  - now rewrite (proj1 (get_tasks_reads env rows)).
  - intros task_id. destruct (delete_task_removes env task_id rows) as [->| ->];
      [exact H | now apply ids_unique_filter].
  - destruct (cleanup_tasks_run env rows) as (_ & A1 & A2 & A3).
    destruct A1 as [A1|A1].
    + destruct (A3 A1) as (_ & -> & _). constructor.
    + rewrite A2; [exact H|]. rewrite A1. discriminate.
  - intros data. destruct (cleanup_specific_run env data rows) as (_ & _ & B2 & B3).
    destruct (Z.eq_dec (status_code (reply (serve (cleanup_specific_tasks env data) rows)))
                       200) as [E|E].
    + destruct (B3 E) as (keys & n & _ & _ & _ & -> & _). now apply ids_unique_filter.
    + now rewrite (B2 E).
  - now rewrite get_task_stats_reads.
Qed.

Lemma ids_stay_unique_witness :
  NoDup (map id (store (serve (create_task (quiet (peer_with_users 4))
                                 (JObj [("title", JStr "Write report"); ("user_id", JInt 2)]))
                              demo_rows))).
Proof.
  refine (proj1 (ids_stay_unique (quiet (peer_with_users 4)) demo_rows _) _).
  repeat constructor; cbn; intuition discriminate.
Defined.

(** ** Deleting one task *)

Lemma present_find (rows : list Task) (z : Z) :
  present rows z = match find (has_id z) rows with Some _ => true | None => false end.
Proof.
  unfold present. induction rows as [|t rows IH]; [reflexivity|].
  cbn [existsb find]. destruct (has_id z t); [reflexivity | exact IH].
Qed.

Lemma present_filtered (rows : list Task) (z : Z) :
  present (filter (fun t => negb (has_id z t)) rows) z = false.
Proof.
  unfold present. induction rows as [|t rows IH]; [reflexivity|].
  cbn [filter]. destruct (has_id z t) eqn:E; cbn [negb]; [exact IH|].
  cbn [existsb]. now rewrite E.
Qed.

(** The runs of [delete_task], by what the fault schedule allows. *)
Lemma delete_task_cases (env : Env) (task_id : Z) (rows : list Task) :
  let out := serve (delete_task env task_id) rows in
  calls out = [] /\
  (db_fault env 0 = None -> present rows task_id = false ->
   out = mkOutcome (mkResponse 404 (PError "Task not found")) rows [] 1) /\
  ((forall k, k < 3 -> db_fault env k = None) -> present rows task_id = true ->
   out = mkOutcome
           (mkResponse 200
              (PMessage (append "Task " (append (str_of_Z task_id) " deleted successfully"))))
           (filter (fun t => negb (has_id task_id t)) rows) [] 3) /\
  ((exists k, k < statements out /\ db_fault env k <> None) ->
   status_code (reply out) = 500%Z /\ store out = rows).
Proof.
  cbv zeta. rewrite present_find.
  unfold delete_task, query_get, bind_key, session_delete. run_handler. cbn [find].
  destruct (db_fault env 0) as [e0|] eqn:F0.
  { cbn. split; [reflexivity|]. split; [discriminate|]. split.
    - intros H. rewrite (H 0) in F0 by lia. discriminate.
    - intros _. split; reflexivity. }
  destruct (find (has_id task_id) rows) as [t|] eqn:F.
  2:{ cbn. split; [reflexivity|]. split; [reflexivity|]. split; [discriminate|].
      intros (k & Hk & Hf). exfalso. apply Hf. assert (k = 0) as -> by lia. exact F0. }
  cbn [hd_error remember existsb app marked].
  assert (Hfilter : filter (fun t0 => negb (has_id (id t0) t || false)) rows
                    = filter (fun t0 => negb (has_id task_id t0)) rows).
  { apply filter_ext. intros t'. apply find_has_id in F. destruct F as [_ F].
    unfold has_id. rewrite F. now rewrite orb_false_r, Z.eqb_sym. }
  destruct (db_fault env 1) as [e1|] eqn:F1.
  { cbn. split; [reflexivity|]. split; [discriminate|]. split.
    - intros H. rewrite (H 1) in F1 by lia. discriminate.
    - intros _. split; reflexivity. }
  cbn [insert_all]. destruct (db_fault env 2) as [e2|] eqn:F2.
  { cbn. split; [reflexivity|]. split; [discriminate|]. split.
    - intros H. rewrite (H 2) in F2 by lia. discriminate.
    - intros _. split; reflexivity. }
  cbn -[append str_of_Z]. split; [reflexivity|]. split; [discriminate|]. split.
  - intros _ _. now rewrite Hfilter.
  - intros (k & Hk & Hf). exfalso. apply Hf.
    destruct k as [|[|[|k]]]; try assumption; lia.
Qed.





(** X4: once an id has been deleted, deleting it again is answered 404 and
    changes nothing. *)
Theorem delete_task_twice (env env' : Env) (task_id : Z) (rows : list Task) :
  (forall k, k < 3 -> db_fault env k = None) ->
  db_fault env' 0 = None ->
  let left_over := store (serve (delete_task env task_id) rows) in
  serve (delete_task env' task_id) left_over
  = mkOutcome (mkResponse 404 (PError "Task not found")) left_over [] 1.
Proof.
  intros Hq Hq' left_over.
  apply delete_task_cases; [exact Hq'|].
  unfold left_over.
  destruct (present rows task_id) eqn:P.
  - destruct (delete_task_cases env task_id rows) as (_ & _ & H & _).
    rewrite (H Hq P). cbn [store]. apply present_filtered.
  - destruct (delete_task_cases env task_id rows) as (_ & H & _).
    rewrite (H (Hq 0 ltac:(lia)) P). exact P.
Qed.

Lemma delete_task_twice_witness :
  serve (delete_task (quiet peer_down) 2)
        (store (serve (delete_task (quiet peer_down) 2) demo_rows))
  = mkOutcome (mkResponse 404 (PError "Task not found"))
              (store (serve (delete_task (quiet peer_down) 2) demo_rows)) [] 1.
Proof.
  apply (delete_task_twice (quiet peer_down) (quiet peer_down) 2 demo_rows); reflexivity.
Defined.

(** ** Creating, then reading or deleting *)

Lemma create_task_persists_witness :
  serve (create_task (quiet (peer_with_users 4))
           (JObj [("title", JStr "Write report"); ("user_id", JInt 2)])) demo_rows
  = mkOutcome (mkResponse 201 (PTask (mkTask 7 "Write report" 2)))
              (demo_rows ++ [mkTask 7 "Write report" 2]) [GetUser (JInt 2)] 3.
Proof.
  apply (create_task_persists (quiet (peer_with_users 4))
           [("title", JStr "Write report"); ("user_id", JInt 2)]
           "Write report" 2 (Ok JNull) demo_rows);
    try reflexivity; discriminate.
Defined.

Lemma filter_new_row (rows : list Task) (r : Task) :
  id r = next_id rows ->
  filter (fun t => negb (has_id (id r) t)) (rows ++ [r]) = rows.
Proof.
  intros Hr. rewrite filter_app. cbn [filter]. unfold has_id at 2. rewrite Z.eqb_refl.
  cbn [negb]. rewrite app_nil_r. apply filter_all.
  intros t Ht. apply next_id_fresh in Ht. unfold has_id.
  apply negb_true_iff, Z.eqb_neq. lia.
Qed.

(** X5: deleting the task that [create_task] has just answered restores the
    table. *)
Theorem create_then_delete
  (env env' : Env) (m : list (string * json)) (s : string) (z : Z) (b : result json)
  (rows : list Task) :
  dict_lookup "title" m = Some (JStr s) -> s <> "" ->
  dict_lookup "user_id" m = Some (JInt z) -> z <> 0%Z ->
  peer env (GetUser (JInt z)) = PeerReplies 200 b ->
  (forall n, n < 3 -> db_fault env n = None) ->
  (forall n, n < 3 -> db_fault env' n = None) ->
  exists t,
    reply (serve (create_task env (JObj m)) rows) = mkResponse 201 (PTask t) /\
    title t = s /\ user_id t = z /\ ~ In (id t) (map id rows) /\
    status_code (reply (serve (delete_task env' (id t))
                          (store (serve (create_task env (JObj m)) rows)))) = 200%Z /\
    store (serve (delete_task env' (id t))
                 (store (serve (create_task env (JObj m)) rows))) = rows.
Proof.
  intros Ht Hs Hu Hz Hp Hq Hq'.
  exists (mkTask (next_id rows) s z).
  rewrite (create_task_persists env m s z b rows Ht Hs Hu Hz Hp Hq).
  cbn [reply store title user_id id].
  split; [reflexivity|]. split; [reflexivity|]. split; [reflexivity|]. split.
  - intros Hin. apply in_map_iff in Hin. destruct Hin as (t & Hid & Hin).
    apply next_id_fresh in Hin. lia.
  - destruct (delete_task_cases env' (next_id rows)
                (rows ++ [mkTask (next_id rows) s z])) as (_ & _ & H & _).
    rewrite H; [|exact Hq'|].
    + cbn [reply status_code store]. split; [reflexivity|].
      apply (filter_new_row rows (mkTask (next_id rows) s z) eq_refl).
    + rewrite present_find.
      pose proof (find_new_row rows (mkTask (next_id rows) s z) eq_refl) as E.
      cbn [id] in E. now rewrite E.
Qed.

Lemma create_then_delete_witness :
  exists t,
    reply (serve (create_task (quiet (peer_with_users 4))
                    (JObj [("title", JStr "Write report"); ("user_id", JInt 2)])) demo_rows)
    = mkResponse 201 (PTask t) /\
    title t = "Write report" /\ user_id t = 2%Z /\ ~ In (id t) (map id demo_rows) /\
    status_code
      (reply (serve (delete_task (quiet peer_down) (id t))
                (store (serve (create_task (quiet (peer_with_users 4))
                                 (JObj [("title", JStr "Write report"); ("user_id", JInt 2)]))
                              demo_rows)))) = 200%Z /\
    store (serve (delete_task (quiet peer_down) (id t))
             (store (serve (create_task (quiet (peer_with_users 4))
                              (JObj [("title", JStr "Write report"); ("user_id", JInt 2)]))
                           demo_rows))) = demo_rows.
Proof.
  apply (create_then_delete (quiet (peer_with_users 4)) (quiet peer_down)
           [("title", JStr "Write report"); ("user_id", JInt 2)]
           "Write report" 2 (Ok JNull) demo_rows);
    try reflexivity; discriminate.
Defined.

(** A row with the largest id comes first in [ORDER BY id DESC]. *)
Lemma newest_row_first (t : Task) (rows acc : list Task) :
  (forall x, In x rows -> (id x < id t)%Z) ->
  fold_right insert_by_id (t :: acc) rows = t :: fold_right insert_by_id acc rows.
Proof.
  induction rows as [|x rows IH]; intros Hlt; [reflexivity|].
  cbn [fold_right]. rewrite IH by (intros y Hy; apply Hlt; now right).
  cbn [insert_by_id]. rewrite (proj2 (Z.ltb_lt (id x) (id t))); [reflexivity|].
  apply Hlt. now left.
Qed.

(** One more task makes one more owner exactly when its owner had none. *)
Lemma Counter_length_snoc (l : list Z) (k : Z) :
  List.length (Counter (l ++ [k]))
  = if count_occ Z.eq_dec l k =? 0 then S (List.length (Counter l))
    else List.length (Counter l).
Proof.
  rewrite !Counter_closed_form, !length_map, first_seen_snoc.
  destruct (in_dec Z.eq_dec k l) as [Hin|Hin].
  - apply (count_occ_In Z.eq_dec) in Hin.
    destruct (count_occ Z.eq_dec l k); [lia | reflexivity].
  - apply (count_occ_not_In Z.eq_dec) in Hin. rewrite Hin.
    rewrite length_app. cbn. lia.
Qed.

(** X6: a task that [create_task] has answered is the last one listed by
    [get_tasks]; in the snapshot that [get_task_stats] then gives,
    [total_tasks] is one more than before, the new task is the first of
    [recent_tasks], and [users_with_tasks] is one more exactly when the
    owner had no task before: nothing is cached between requests. *)
Theorem created_task_is_listed
  (env env1 env2 : Env) (m : list (string * json)) (s : string) (z : Z) (b : result json)
  (rows : list Task) :
  dict_lookup "title" m = Some (JStr s) -> s <> "" ->
  dict_lookup "user_id" m = Some (JInt z) -> z <> 0%Z ->
  peer env (GetUser (JInt z)) = PeerReplies 200 b ->
  (forall n, n < 3 -> db_fault env n = None) ->
  db_fault env1 0 = None ->
  let after := store (serve (create_task env (JObj m)) rows) in
  reply (serve (get_tasks env1) after)
  = mkResponse 200 (PTaskList (rows ++ [mkTask (next_id rows) s z])) /\
  (forall s1 s2,
     stats_of (reply (serve (get_task_stats env2) rows)) = Some s1 ->
     stats_of (reply (serve (get_task_stats env2) after)) = Some s2 ->
     total_tasks s2 = S (total_tasks s1) /\
     hd_error (recent_tasks s2) = Some (mkTask (next_id rows) s z) /\
     users_with_tasks s2
     = if tasks_of z rows =? 0 then S (users_with_tasks s1) else users_with_tasks s1).
Proof.
  intros Ht Hs Hu Hz Hp Hq Hq1 after. unfold after.
  rewrite (create_task_persists env m s z b rows Ht Hs Hu Hz Hp Hq). cbn [store].
  split.
  - now apply get_tasks_reads.
  - intros s1 s2 H1 H2.
    apply get_task_stats_snapshot in H1, H2.
    destruct H1 as (_ & -> & _), H2 as (_ & -> & _).
    unfold snapshot. cbn [total_tasks recent_tasks users_with_tasks].
    rewrite length_app. cbn [List.length].
    split; [lia|]. split.
    + unfold order_by_id_desc. rewrite fold_right_app. cbn [fold_right insert_by_id].
      rewrite newest_row_first; [reflexivity|].
      intros x Hx. cbn [id]. now apply next_id_fresh.
    + rewrite map_app. cbn [map user_id]. apply Counter_length_snoc.
Qed.

Lemma created_task_is_listed_witness :
  reply (serve (get_tasks (quiet peer_down))
           (store (serve (create_task (quiet (peer_with_users 4))
                            (JObj [("title", JStr "Write report"); ("user_id", JInt 4)]))
                         demo_rows)))
  = mkResponse 200 (PTaskList (demo_rows ++ [mkTask 7 "Write report" 4])) /\
  users_with_tasks (snapshot (quiet peer_down) (demo_rows ++ [mkTask 7 "Write report" 4]))
  = 4.
Proof.
  destruct (created_task_is_listed (quiet (peer_with_users 4)) (quiet peer_down)
              (quiet peer_down)
              [("title", JStr "Write report"); ("user_id", JInt 4)]
              "Write report" 4 (Ok JNull) demo_rows) as [Hl Hs];
    try reflexivity; try discriminate.
  split; [exact Hl|].
  destruct (Hs (snapshot (quiet peer_down) demo_rows)
               (snapshot (quiet peer_down) (demo_rows ++ [mkTask 7 "Write report" 4]))
               eq_refl eq_refl) as (_ & _ & Hu).
  exact Hu.
Defined.

(** ** Bulk deletion by id: validation and repetition *)

(** X9: [cleanup_specific_tasks] answers 400 to an empty body, to an object
    without the key [task_ids], to an object whose [task_ids] is not a
    list, and to an array that does not hold the string [task_ids];
    to an array that holds it, and to a number, it answers 500, the
    [TypeError] raised by the key test or the subscript being caught.
    None of these requests reaches the database. *)
Theorem cleanup_specific_validation (env : Env) (data : json) (rows : list Task) :
  let out := serve (cleanup_specific_tasks env data) rows in
  let required :=
    mkOutcome (mkResponse 400 (PError "task_ids list is required")) rows [] 0 in
  let not_a_list :=
    mkOutcome (mkResponse 400 (PError "task_ids must be a list")) rows [] 0 in
  (truthy data = false -> out = required) /\
  (forall m, data = JObj m -> m <> [] -> dict_lookup "task_ids" m = None ->
             out = required) /\
  (forall m v, data = JObj m -> dict_lookup "task_ids" m = Some v ->
               (forall l, v <> JList l) -> out = not_a_list) /\
  (forall l, data = JList l -> l <> [] -> existsb (is_str "task_ids") l = false ->
             out = required) /\
  (forall l, data = JList l -> existsb (is_str "task_ids") l = true ->
             status_code (reply out) = 500%Z /\ store out = rows /\
             calls out = [] /\ statements out = 0) /\
  (forall z, data = JInt z -> z <> 0%Z ->
             status_code (reply out) = 500%Z /\ store out = rows /\
             calls out = [] /\ statements out = 0).
Proof.
  cbv zeta. unfold cleanup_specific_tasks, serve, try_except.
  split; [|split; [|split; [|split; [|split]]]].
  - intros H. rewrite H. reflexivity.
  - intros m -> Hm Hl. destruct m as [|p m]; [congruence|].
    cbv beta iota delta [bind ret lift negb truthy py_contains]. rewrite Hl. reflexivity.
  - intros m v -> Hl Hv. assert (Hm : truthy (JObj m) = true).
    { destruct m; [discriminate | reflexivity]. }
    rewrite Hm. cbv beta iota delta [bind ret lift negb py_contains py_getitem].
    rewrite Hl. destruct v; try reflexivity. exfalso. now apply (Hv l).
  - intros l -> Hl He. destruct l as [|x l]; [congruence|].
    cbv beta iota delta [bind ret lift negb truthy py_contains]. rewrite He. reflexivity.
  - intros l -> He. destruct l as [|x l]; [discriminate|].
    cbv beta iota delta [bind ret lift negb truthy py_contains]. rewrite He.
    repeat split.
  - intros z -> Hz. apply Z.eqb_neq in Hz.
    cbv beta iota delta [bind ret lift negb truthy py_contains]. rewrite Hz.
    repeat split.
Qed.

Lemma cleanup_specific_validation_witness :
  serve (cleanup_specific_tasks (quiet peer_down) (JObj [("task_ids", JNull)])) demo_rows
  = mkOutcome (mkResponse 400 (PError "task_ids must be a list")) demo_rows [] 0 /\
  serve (cleanup_specific_tasks (quiet peer_down) (JObj [("ids", JList [JInt 1])])) demo_rows
  = mkOutcome (mkResponse 400 (PError "task_ids list is required")) demo_rows [] 0 /\
  status_code (reply (serve (cleanup_specific_tasks (quiet peer_down)
                               (JList [JStr "task_ids"])) demo_rows)) = 500%Z.
Proof.
  destruct (cleanup_specific_validation (quiet peer_down)
              (JObj [("task_ids", JNull)]) demo_rows) as (_ & _ & H1 & _).
  destruct (cleanup_specific_validation (quiet peer_down)
              (JObj [("ids", JList [JInt 1])]) demo_rows) as (_ & H2 & _).
  destruct (cleanup_specific_validation (quiet peer_down)
              (JList [JStr "task_ids"]) demo_rows) as (_ & _ & _ & _ & H3 & _).
  split; [|split].
  - apply (H1 [("task_ids", JNull)] JNull eq_refl eq_refl). discriminate.
  - apply (H2 [("ids", JList [JInt 1])] eq_refl); [discriminate | reflexivity].
  - apply (H3 [JStr "task_ids"] eq_refl eq_refl).
Defined.

(** X10: [cleanup_specific_tasks] on a list of integer ids, with a database
    that goes through: the answer is 200, the rows left are exactly those
    whose id is not listed (ids without a row are skipped), the user
    service is not called, and when no id is listed twice the count in
    the message is the number of listed ids that had a row. *)
Theorem cleanup_specific_contract
  (env : Env) (m : list (string * json)) (ids : list Z) (rows : list Task) :
  (forall k, db_fault env k = None) ->
  dict_lookup "task_ids" m = Some (JList (map JInt ids)) ->
  exists n,
    reply (serve (cleanup_specific_tasks env (JObj m)) rows)
      = mkResponse 200 (deleted_specific_message n) /\
    store (serve (cleanup_specific_tasks env (JObj m)) rows) = without ids rows /\
    calls (serve (cleanup_specific_tasks env (JObj m)) rows) = [] /\
    (NoDup ids -> n = List.length (filter (present rows) ids)).
Proof.
  exact (cleanup_specific_deletes_listed env m ids rows).
Qed.

Lemma cleanup_specific_contract_witness :
  exists n,
    reply (serve (cleanup_specific_tasks (quiet peer_down)
                    (JObj [("task_ids", JList (map JInt [2; 99; 5]%Z))])) demo_rows)
    = mkResponse 200 (deleted_specific_message n) /\
    store (serve (cleanup_specific_tasks (quiet peer_down)
                    (JObj [("task_ids", JList (map JInt [2; 99; 5]%Z))])) demo_rows)
    = without [2; 99; 5]%Z demo_rows /\
    n = 2.
Proof.
  destruct (cleanup_specific_contract (quiet peer_down)
              [("task_ids", JList (map JInt [2; 99; 5]%Z))] [2; 99; 5]%Z demo_rows)
    as (n & Hr & Hs & _ & Hn); [reflexivity | reflexivity |].
  exists n. split; [exact Hr|]. split; [exact Hs|].
  rewrite Hn; [reflexivity|].
  repeat constructor; cbn; intuition discriminate.
Defined.

Lemma delete_each_absent (env : Env) (rows : list Task) (ids : list Z) :
  Forall (fun z => present rows z = false) ids ->
  forall n c,
    tx_rows c = rows -> identity_map c = [] ->
    pending_new c = [] -> pending_deleted c = [] ->
    forall r c', delete_each env (map JInt ids) n c = (r, c') ->
    forall n', r = Ok n' ->
    n' = n /\ tx_rows c' = rows /\ pending_new c' = [] /\ pending_deleted c' = [].
Proof.
  induction 1 as [|z ids Hz Hids IH]; intros n c Ht Hm Hn Hd r c'.
  - cbn. intros [= <- <-] n' [= <-]. auto.
  - cbn [map delete_each]. unfold query_get, bind_key, lift, select, bind.
    rewrite Hm. cbn [find]. unfold flush. rewrite Hn, Hd.
    unfold statement. destruct (db_fault env (sql_issued c));
      [intros [= <- <-] n'; discriminate|].
    cbn [tx_rows identity_map]. rewrite Ht.
    rewrite present_find in Hz.
    destruct (find (has_id z) rows); [discriminate|].
    cbn [remember hd_error ret].
    intros D n' Hr.
    refine (IH n _ _ _ _ _ _ _ D n' Hr); cbn; congruence.
Qed.

Lemma cleanup_specific_absent
  (env : Env) (m : list (string * json)) (ids : list Z) (rows : list Task) :
  (forall k, db_fault env k = None) ->
  dict_lookup "task_ids" m = Some (JList (map JInt ids)) ->
  Forall (fun z => present rows z = false) ids ->
  reply (serve (cleanup_specific_tasks env (JObj m)) rows)
    = mkResponse 200 (deleted_specific_message 0) /\
  store (serve (cleanup_specific_tasks env (JObj m)) rows) = rows.
Proof.
  intros Hq Hm Habs.
  assert (Hd : truthy (JObj m) = true) by (destruct m; [discriminate | reflexivity]).
  unfold cleanup_specific_tasks, serve, try_except.
  rewrite Hd. cbv beta iota delta [bind ret lift negb py_contains py_getitem].
  rewrite Hm.
  destruct (delete_each_quiet env rows ids Hq [] 0 _ (Inv_fresh rows)) as [n Hn].
  pose proof (delete_each_absent env rows ids Habs 0 (mkCtx rows rows [] [] [] 0 [])
                eq_refl eq_refl eq_refl eq_refl) as Hrun.
  destruct (delete_each env (map JInt ids) 0 (mkCtx rows rows [] [] [] 0 [])) as [r c1].
  cbn [fst] in Hn. subst r.
  destruct (Hrun _ _ eq_refl n eq_refl) as (-> & Ht & Hp & Hp').
  unfold commit, bind, flush. rewrite Hp, Hp'. unfold statement. rewrite Hq.
  cbn. now rewrite Ht.
Qed.

Lemma present_without_listed (ids : list Z) (rows : list Task) (z : Z) :
  In z ids -> present (without ids rows) z = false.
Proof.
  intros Hz. unfold present, without.
  destruct (existsb (has_id z) (filter (fun t => negb (listed ids t)) rows)) eqn:E;
    [|reflexivity].
  apply existsb_exists in E. destruct E as (t & Ht & Hid).
  apply filter_In in Ht. destruct Ht as [_ Ht]. apply negb_true_iff in Ht.
  apply Z.eqb_eq in Hid. exfalso.
  assert (L : listed ids t = true).
  { apply existsb_exists. exists z. split; [exact Hz | now apply Z.eqb_eq]. }
  congruence.
Qed.

(** X11: sending the same list of ids again deletes nothing more: the answer
    is 200 with a count of 0, also when the list names an id twice. *)
Theorem cleanup_specific_twice
  (env env' : Env) (m : list (string * json)) (ids : list Z) (rows : list Task) :
  (forall k, db_fault env k = None) ->
  (forall k, db_fault env' k = None) ->
  dict_lookup "task_ids" m = Some (JList (map JInt ids)) ->
  let left_over := store (serve (cleanup_specific_tasks env (JObj m)) rows) in
  left_over = without ids rows /\
  reply (serve (cleanup_specific_tasks env' (JObj m)) left_over)
    = mkResponse 200 (deleted_specific_message 0) /\
  store (serve (cleanup_specific_tasks env' (JObj m)) left_over) = left_over.
Proof.
  intros Hq Hq' Hm left_over.
  destruct (cleanup_specific_deletes_listed env m ids rows Hq Hm) as (n & _ & Hs & _).
  unfold left_over. rewrite Hs. split; [reflexivity|].
  apply (cleanup_specific_absent env' m ids); [exact Hq' | exact Hm |].
  apply Forall_forall. intros z Hz. now apply present_without_listed.
Qed.

Lemma cleanup_specific_twice_witness :
  reply (serve (cleanup_specific_tasks (quiet peer_down)
                  (JObj [("task_ids", JList (map JInt [1; 1; 2]%Z))]))
           (store (serve (cleanup_specific_tasks (quiet peer_down)
                            (JObj [("task_ids", JList (map JInt [1; 1; 2]%Z))]))
                         demo_rows)))
  = mkResponse 200 (deleted_specific_message 0).
Proof.
  apply (cleanup_specific_twice (quiet peer_down) (quiet peer_down)
           [("task_ids", JList (map JInt [1; 1; 2]%Z))] [1; 1; 2]%Z demo_rows);
    reflexivity.
Defined.

(** ** The statistics handler: what always holds *)

(** The runs of [get_task_stats], by what the fault schedule allows. *)
Lemma get_task_stats_cases (env : Env) (rows : list Task) :
  let out := serve (get_task_stats env) rows in
  store out = rows /\
  (calls out = [] \/ calls out = [GetUsers]) /\
  (status_code (reply out) = 200%Z <-> forall n, n < 3 -> db_fault env n = None) /\
  (status_code (reply out) = 200%Z -> reply out = mkResponse 200 (PStats (snapshot env rows))) /\
  (status_code (reply out) <> 200%Z ->
   status_code (reply out) = 500%Z /\ calls out = [] /\ stats_of (reply out) = None).
Proof.
  cbv zeta. split; [apply get_task_stats_reads|].
  assert (D : (forall n, n < 3 -> db_fault env n = None) \/
              (exists n, n < 3 /\ db_fault env n <> None)).
  { destruct (db_fault env 0) eqn:F0; [right; exists 0; split; [lia | congruence]|].
    destruct (db_fault env 1) eqn:F1; [right; exists 1; split; [lia | congruence]|].
    destruct (db_fault env 2) eqn:F2; [right; exists 2; split; [lia | congruence]|].
    left. intros [|[|[|n]]] Hn; try assumption; lia. }
  destruct D as [Hq|Hf].
  - rewrite (get_task_stats_runs env rows Hq). cbn.
    split; [now right|]. split; [tauto|]. split; [reflexivity | congruence].
  - destruct (get_task_stats_faulty env rows Hf) as [e He]. rewrite He. cbn.
    split; [now left|]. split; [|split; [discriminate | auto]].
    split; [discriminate|]. intros Hq. destruct Hf as (n & Hn & Hf). now apply Hq in Hn.
Qed.

(** X13: [get_task_stats] never changes the table, calls the user service at
    most once, and answers 200 exactly when its three queries go
    through, whatever the user service does; otherwise it answers 500. *)
Theorem stats_answer_depends_on_store_only (env : Env) (rows : list Task) :
  let out := serve (get_task_stats env) rows in
  store out = rows /\
  (calls out = [] \/ calls out = [GetUsers]) /\
  (status_code (reply out) = 200%Z <-> forall n, n < 3 -> db_fault env n = None) /\
  (status_code (reply out) = 200%Z -> reply out = mkResponse 200 (PStats (snapshot env rows))) /\
  (status_code (reply out) <> 200%Z ->
   status_code (reply out) = 500%Z /\ calls out = [] /\ stats_of (reply out) = None).
Proof.
  exact (get_task_stats_cases env rows).
Qed.

Lemma counter_incr_sum (k : Z) (c : list (Z * nat)) :
  list_sum (map snd (counter_incr k c)) = S (list_sum (map snd c)).
Proof.
  induction c as [|[k' n] c IH]; [reflexivity|].
  cbn [counter_incr]. destruct (k =? k')%Z; cbn [map snd list_sum fold_right] in *.
  - lia.
  - unfold list_sum in *. cbn [fold_right]. lia.
Qed.

Lemma counter_incr_positive (k : Z) (c : list (Z * nat)) :
  Forall (fun p => 0 < snd p) c -> Forall (fun p => 0 < snd p) (counter_incr k c).
Proof.
  induction 1 as [|[k' n] c Hp Hc IH]; cbn [counter_incr].
  - repeat constructor.
  - destruct (k =? k')%Z; constructor; cbn [snd] in *; auto; lia.
Qed.

Lemma Counter_sum (keys : list Z) :
  list_sum (map snd (Counter keys)) = List.length keys /\
  Forall (fun p => 0 < snd p) (Counter keys).
Proof.
  induction keys as [|k keys IH] using rev_ind; [split; [reflexivity | constructor]|].
  unfold Counter in *. rewrite fold_left_app. cbn [fold_left].
  rewrite counter_incr_sum, length_app. cbn [List.length].
  destruct IH as [-> IH]. split; [lia | now apply counter_incr_positive].
Qed.

Lemma length_le_sum (c : list (Z * nat)) :
  Forall (fun p => 0 < snd p) c -> List.length c <= list_sum (map snd c).
Proof.
  induction 1 as [|p c Hp Hc IH]; [reflexivity|].
  cbn [List.length map]. change (list_sum (snd p :: map snd c))
    with (snd p + list_sum (map snd c)). lia.
Qed.

Lemma list_sum_perm (l l' : list nat) : Permutation l l' -> list_sum l = list_sum l'.
Proof.
  induction 1; unfold list_sum in *; cbn [fold_right]; lia.
Qed.

(** Owners, tasks and ranked counts of a snapshot. *)
Lemma snapshot_counts (env : Env) (rows : list Task) (s : Stats) :
  stats_of (reply (serve (get_task_stats env) rows)) = Some s ->
  users_with_tasks s <= total_tasks s /\
  (users_with_tasks s = 0 <-> total_tasks s = 0) /\
  list_sum (map snd (top_productive_users s)) <= total_tasks s /\
  (users_with_tasks s <= 3 ->
   list_sum (map snd (top_productive_users s)) = total_tasks s) /\
  NoDup (map fst (top_productive_users s)).
Proof.
  intros H. apply get_task_stats_snapshot in H. destruct H as (_ & -> & _).
  unfold snapshot. cbn [users_with_tasks total_tasks top_productive_users].
  unfold most_common.
  set (items := Counter (map user_id rows)).
  destruct (Counter_sum (map user_id rows)) as [Hsum Hpos]. fold items in Hsum, Hpos.
  rewrite length_map in Hsum.
  pose proof (length_le_sum items Hpos) as Hlen.
  assert (Hperm : list_sum (map snd (sorted_by_count items)) = List.length rows).
  { rewrite <- Hsum. apply list_sum_perm, Permutation_map, sorted_by_count_perm. }
  assert (Hcut : list_sum (map snd (firstn 3 (sorted_by_count items)))
                 <= List.length rows).
  { rewrite <- Hperm. rewrite <- (firstn_skipn 3 (sorted_by_count items)) at 2.
    rewrite map_app, list_sum_app. lia. }
  split; [lia|]. split; [|split; [exact Hcut|split]].
  - split; intros E; [|lia].
    apply length_zero_iff_nil in E. rewrite E in Hsum. cbn in Hsum. lia.
  - intros Hle. rewrite firstn_all2; [exact Hperm|].
    now rewrite (Permutation_length (sorted_by_count_perm items)).
  - assert (Hnd : NoDup (map fst (sorted_by_count items))).
    { eapply Permutation_NoDup;
        [apply Permutation_map, Permutation_sym, sorted_by_count_perm|].
      unfold items. rewrite Counter_closed_form, map_map. cbn [fst].
      rewrite map_id. apply first_seen_NoDup. }
    rewrite <- (firstn_skipn 3 (sorted_by_count items)), map_app in Hnd.
    now apply NoDup_app_remove_r in Hnd.
Qed.

(** X14: in every snapshot: there are at most as many owners as tasks, and
    none exactly when there is no task; the counts listed in
    [top_productive_users] add up to at most [total_tasks], and to
    exactly [total_tasks] when at most three owners have tasks; no owner
    is listed twice. *)
Theorem stats_counts_consistent (env : Env) (rows : list Task) (s : Stats) :
  stats_of (reply (serve (get_task_stats env) rows)) = Some s ->
  users_with_tasks s <= total_tasks s /\
  (users_with_tasks s = 0 <-> total_tasks s = 0) /\
  list_sum (map snd (top_productive_users s)) <= total_tasks s /\
  (users_with_tasks s <= 3 ->
   list_sum (map snd (top_productive_users s)) = total_tasks s) /\
  NoDup (map fst (top_productive_users s)).
Proof.
  exact (snapshot_counts env rows s).
Qed.

Lemma stats_counts_consistent_witness :
  list_sum (map snd (top_productive_users (snapshot (quiet (peer_with_users 4)) demo_rows)))
  = total_tasks (snapshot (quiet (peer_with_users 4)) demo_rows).
Proof.
  destruct (stats_counts_consistent (quiet (peer_with_users 4)) demo_rows
              (snapshot (quiet (peer_with_users 4)) demo_rows) eq_refl)
    as (_ & _ & _ & H & _).
  apply H. vm_compute. lia.
Defined.

(** ** Bounds on the averages *)

Lemma round_nearest_between (tie_up : bool) (lo hi : Z) (x : Q) :
  (inject_Z lo <= x)%Q -> (x <= inject_Z hi)%Q ->
  (lo <= round_nearest tie_up x <= hi)%Z.
Proof.
  intros Hlo Hhi.
  assert (Flo : (lo <= Qfloor x)%Z).
  { rewrite <- (Qfloor_Z lo). now apply Qfloor_resp_le. }
  assert (Fhi : (Qfloor x <= hi)%Z).
  { rewrite <- (Qfloor_Z hi). now apply Qfloor_resp_le. }
  assert (Hup : (1 # 2 <= x - inject_Z (Qfloor x))%Q -> (Qfloor x + 1 <= hi)%Z).
  { intros Hhalf. destruct (Z.eq_dec (Qfloor x) hi) as [E|E]; [|lia].
    exfalso. rewrite E in Hhalf. lra. }
  unfold round_nearest.
  destruct (Qcompare (x - inject_Z (Qfloor x)) (1 # 2)) eqn:C.
  - apply Qeq_alt in C. destruct tie_up; [|lia].
    assert ((Qfloor x + 1 <= hi)%Z) by (apply Hup; rewrite C; apply Qle_refl). lia.
  - lia.
  - apply Qgt_alt in C.
    assert ((Qfloor x + 1 <= hi)%Z) by (apply Hup; now apply Qlt_le_weak). lia.
Qed.

Lemma py_round2_between (tie_up : Q -> bool) (lo hi : Z) (q : Q) :
  (inject_Z lo <= q)%Q -> (q <= inject_Z hi)%Q ->
  (inject_Z lo <= py_round2 tie_up q <= inject_Z hi)%Q.
Proof.
  intros Hlo Hhi. unfold py_round2.
  destruct (round_nearest_between (tie_up q) (lo * 100) (hi * 100) (q * inject_Z 100))
    as [H1 H2].
  - rewrite inject_Z_mult. change (inject_Z 100) with 100%Q. lra.
  - rewrite inject_Z_mult. change (inject_Z 100) with 100%Q. lra.
  - rewrite Zle_Qle in H1, H2. rewrite inject_Z_mult in H1, H2.
    change (inject_Z 100) with 100%Q in *.
    unfold Qdiv. change (/ 100)%Q with (1 # 100)%Q.
    remember (inject_Z (round_nearest (tie_up q) (q * 100))) as r. lra.
Qed.

Lemma ratio_between (t u : nat) :
  0 < u -> (0 <= ratio t u <= inject_Z (Z.of_nat t))%Q /\
           (u <= t -> (1 <= ratio t u)%Q).
Proof.
  intros Hu. unfold ratio.
  assert (Hpos : (0 < inject_Z (Z.of_nat u))%Q).
  { change 0%Q with (inject_Z 0). rewrite <- Zlt_Qlt. lia. }
  assert (Ht : (0 <= inject_Z (Z.of_nat t))%Q).
  { change 0%Q with (inject_Z 0). rewrite <- Zle_Qle. lia. }
  assert (H1 : (1 <= inject_Z (Z.of_nat u))%Q).
  { change 1%Q with (inject_Z 1). rewrite <- Zle_Qle. lia. }
  split; [split|].
  - apply Qle_shift_div_l; [exact Hpos|]. lra.
  - apply Qle_shift_div_r; [exact Hpos|].
    remember (inject_Z (Z.of_nat t)) as a. remember (inject_Z (Z.of_nat u)) as b. nra.
  - intros Hle. apply Qle_shift_div_l; [exact Hpos|].
    rewrite Qmult_1_l. rewrite <- Zle_Qle. lia.
Qed.

(** X15: both averages lie between 0 and [total_tasks]; as soon as there is a
    task, the average per active user is at least 1. *)
Theorem averages_bounded (env : Env) (rows : list Task) (s : Stats) :
  stats_of (reply (serve (get_task_stats env) rows)) = Some s ->
  (0 <= avg_tasks_per_user s <= inject_Z (Z.of_nat (total_tasks s)))%Q /\
  (0 <= avg_tasks_per_active_user s <= inject_Z (Z.of_nat (total_tasks s)))%Q /\
  (0 < total_tasks s -> (1 <= avg_tasks_per_active_user s)%Q).
Proof.
  intros H.
  destruct (snapshot_counts env rows s H) as (Hle & Hz & _).
  apply get_task_stats_snapshot in H. destruct H as (_ & -> & _).
  revert Hle Hz. unfold snapshot.
  cbn [users_with_tasks total_tasks avg_tasks_per_user avg_tasks_per_active_user].
  intros Hle Hz.
  rewrite metric_per_user_value, metric_per_active_user_value.
  unfold rounded_average.
  assert (Ht : (0 <= inject_Z (Z.of_nat (List.length rows)))%Q).
  { change 0%Q with (inject_Z 0). rewrite <- Zle_Qle. lia. }
  split; [|split].
  - destruct (remote_user_count (peer env GetUsers)) as [|u]; [cbn; lra|].
    cbn [Nat.eqb].
    destruct (ratio_between (List.length rows) (S u)) as [[R1 R2] _]; [lia|].
    apply (py_round2_between _ 0); assumption.
  - destruct (List.length (Counter (map user_id rows))) as [|u]; [cbn; lra|].
    cbn [Nat.eqb].
    destruct (ratio_between (List.length rows) (S u)) as [[R1 R2] _]; [lia|].
    apply (py_round2_between _ 0); assumption.
  - intros Hpos.
    destruct (List.length (Counter (map user_id rows))) as [|u]; [lia|].
    cbn [Nat.eqb].
    destruct (ratio_between (List.length rows) (S u)) as [[R1 R2] R3]; [lia|].
    apply (py_round2_between _ 1 (Z.of_nat (List.length rows))); [|exact R2].
    apply R3. exact Hle.
Qed.

Lemma averages_bounded_witness :
  (1 <= avg_tasks_per_active_user (snapshot (quiet peer_down) demo_rows))%Q.
Proof.
  destruct (averages_bounded (quiet peer_down) demo_rows
              (snapshot (quiet peer_down) demo_rows) eq_refl) as (_ & _ & H).
  apply H. vm_compute. lia.
Defined.

(** ** The user count *)

(** X16: when the user service answers 200, [total_users] is [len] of the
    decoded body whatever its shape: the length of an array, the number
    of keys of an object; a string has a length too and the snapshot is
    [healthy].  A body without a length ([null], a number, a boolean)
    raises inside the [try]: the snapshot is [partial] with a count
    of 0. *)
Theorem total_users_is_len (env : Env) (rows : list Task) (s : Stats) (j : json) :
  stats_of (reply (serve (get_task_stats env) rows)) = Some s ->
  peer env GetUsers = PeerReplies 200 (Ok j) ->
  match j with
  | JList l => total_users s = List.length l /\ system_status s = "healthy"
  | JObj m => total_users s = List.length m /\ system_status s = "healthy"
  | JStr _ => system_status s = "healthy" /\ error s = None
  | _ => total_users s = 0 /\ system_status s = "partial" /\ error s <> None
  end.
Proof.
  intros H Hp. apply get_task_stats_snapshot in H. destruct H as (_ & -> & _).
  unfold snapshot. cbn [total_users system_status error]. rewrite Hp.
  destruct j; cbn; repeat split; discriminate.
Qed.

Lemma total_users_is_len_witness :
  total_users (snapshot (quiet (fun _ => PeerReplies 200 (Ok (JObj [("error", JStr "down")]))))
                        demo_rows) = 1 /\
  system_status (snapshot (quiet (fun _ => PeerReplies 200 (Ok (JObj [("error", JStr "down")]))))
                          demo_rows) = "healthy".
Proof.
  exact (total_users_is_len
           (quiet (fun _ => PeerReplies 200 (Ok (JObj [("error", JStr "down")]))))
           demo_rows _ (JObj [("error", JStr "down")]) eq_refl eq_refl).
Defined.

(** X17: on an empty table the snapshot has no task, no owner, empty lists and
    both averages at 0, whatever the user service answers; this is what
    [get_task_stats] reports once [cleanup_tasks] has answered 200. *)
Theorem stats_after_cleanup (env env' : Env) (rows : list Task) (s : Stats) :
  status_code (reply (serve (cleanup_tasks env) rows)) = 200%Z ->
  stats_of (reply (serve (get_task_stats env')
                     (store (serve (cleanup_tasks env) rows)))) = Some s ->
  total_tasks s = 0 /\ users_with_tasks s = 0 /\
  recent_tasks s = [] /\ top_productive_users s = [] /\
  avg_tasks_per_user s = 0%Q /\ avg_tasks_per_active_user s = 0%Q /\
  total_users s = remote_user_count (peer env' GetUsers).
Proof.
  intros H200 H.
  destruct (cleanup_tasks_run env rows) as (_ & _ & _ & A3).
  destruct (A3 H200) as (_ & Hs & _). rewrite Hs in H.
  apply get_task_stats_snapshot in H. destruct H as (_ & -> & _).
  unfold snapshot, metric_per_user, metric_per_active_user. cbn.
  rewrite andb_false_r. cbn. repeat split.
Qed.

Lemma stats_after_cleanup_witness :
  total_tasks (snapshot (quiet (peer_with_users 4)) []) = 0 /\
  avg_tasks_per_user (snapshot (quiet (peer_with_users 4)) []) = 0%Q.
Proof.
  destruct (stats_after_cleanup (quiet peer_down) (quiet (peer_with_users 4)) demo_rows
              (snapshot (quiet (peer_with_users 4)) []) eq_refl eq_refl)
    as (H1 & _ & _ & _ & H2 & _).
  split; assumption.
Defined.

(** ** Calls to the user service *)

Lemma create_task_calls (env : Env) (data : json) (rows : list Task) :
  calls (serve (create_task env data) rows) = [] \/
  exists title uid,
    truthy data = true /\
    py_get data "title" = Ok title /\ truthy title = true /\
    py_get data "user_id" = Ok uid /\ truthy uid = true /\
    calls (serve (create_task env data) rows) = [GetUser uid].
Proof.
  destruct (truthy data) eqn:Hd.
  2:{ left. now rewrite (create_task_rejects env data rows (or_introl Hd)). }
  destruct data as [|b|z|s|l|m];
    try (left; run_create; rewrite Hd; reflexivity).
  destruct (truthy (dict_get "title" m)) eqn:Ht.
  2:{ left. rewrite (create_task_rejects env (JObj m) rows); [reflexivity|].
      right. exists m. tauto. }
  destruct (truthy (dict_get "user_id" m)) eqn:Hu.
  2:{ left. rewrite (create_task_rejects env (JObj m) rows); [reflexivity|].
      right. exists m. tauto. }
  right. exists (dict_get "title" m), (dict_get "user_id" m).
  split; [reflexivity|]. split; [reflexivity|]. split; [exact Ht|].
  split; [reflexivity|]. split; [exact Hu|].
  destruct (create_task_checks_owner env m rows Ht Hu) as [Hr Hs].
  destruct (peer env (GetUser (dict_get "user_id" m))) as [e|status b] eqn:Hp.
  { now rewrite (Hr e eq_refl). }
  destruct (Z.eq_dec status 200) as [->|Hne].
  2:{ now rewrite (Hs status b eq_refl Hne). }
  destruct (dict_get_truthy _ _ Hu) as [Hl _].
  destruct (dict_get_truthy _ _ Ht) as [Hl' _].
  clear Hr Hs. run_create. rewrite Hd, Ht, Hu, Hl, Hl'. cbn [negb app]. rewrite Hp.
  cbn [fst Z.eqb Pos.eqb negb].
  cbv [session_add commit flush statement reload_added bind ret
       db_rows tx_rows identity_map pending_new pending_deleted sql_issued peer_calls].
  cbn [app insert_all].
  destruct (db_fault env 0); [reflexivity|].
  destruct (bind_text env (dict_get "title" m)); [|reflexivity].
  destruct (bind_integer env (dict_get "user_id" m)); [|reflexivity].
  destruct (db_fault env 1); [reflexivity|].
  destruct (db_fault env 2); [reflexivity|].
  match goal with
  | |- context [find ?f ?l] => destruct (find f l)
  end; reflexivity.
Qed.

(** X18: only [create_task] and [get_task_stats] call the user service, each
    at most once per request: [create_task] asks for the user named in
    the body, and only when the body, its title and its user_id passed
    the check, all three being truthy; [get_task_stats] asks for the
    list of users. *)
Theorem peer_calls_bounded (env : Env) (rows : list Task) :
  (forall data,
     calls (serve (create_task env data) rows) = [] \/
     exists title uid,
       truthy data = true /\
       py_get data "title" = Ok title /\ truthy title = true /\
       py_get data "user_id" = Ok uid /\ truthy uid = true /\
       calls (serve (create_task env data) rows) = [GetUser uid]) /\
  calls (serve (get_tasks env) rows) = [] /\
  (forall task_id, calls (serve (delete_task env task_id) rows) = []) /\
  calls (serve (cleanup_tasks env) rows) = [] /\
  (forall data, calls (serve (cleanup_specific_tasks env data) rows) = []) /\
  (calls (serve (get_task_stats env) rows) = [] \/
   calls (serve (get_task_stats env) rows) = [GetUsers]).
Proof.
  split; [intros data; apply create_task_calls|].
  split; [unfold get_tasks; run_handler; destruct (db_fault env 0); reflexivity|].
  split; [intros task_id; apply delete_task_cases|].
  split; [apply cleanup_tasks_run|].
  split; [intros data; apply cleanup_specific_run|].
  apply get_task_stats_cases.
Qed.

(** ** Creation when the database fails *)




(** ** The integration test against the handler *)

Import StatsIntegrationTest.

(** The first entry of the ranking has the largest number of tasks. *)
Lemma busiest_owner (rows : list Task) (u : Z) (c : nat) (rest : list (Z * nat)) :
  sorted_by_count (Counter (map user_id rows)) = (u, c) :: rest ->
  c = tasks_of u rows /\ forall v, tasks_of v rows <= c.
Proof.
  intros E.
  assert (Hc : c = tasks_of u rows).
  { destruct (proj1 (Counter_items rows (u, c))) as [H _]; [rewrite E; now left | exact H]. }
  split; [exact Hc|]. intros v.
  destruct (Nat.eq_dec (tasks_of v rows) 0) as [Hz|Hnz]; [lia|].
  assert (Hin : In (v, tasks_of v rows) (sorted_by_count (Counter (map user_id rows)))).
  { apply Counter_items. cbn [fst snd]. split; [reflexivity | lia]. }
  rewrite E in Hin. destruct Hin as [Hin|Hin].
  - injection Hin as -> ->. lia.
  - pose proof (Counter_ranked rows) as Hs. rewrite E in Hs.
    apply StronglySorted_inv in Hs. destruct Hs as [_ Hall].
    rewrite Forall_forall in Hall. specialize (Hall _ Hin).
    cbn [fst] in Hall. unfold outranks in Hall. lia.
Qed.

Lemma ranking_of_tasks (rows : list Task) :
  rows <> [] -> sorted_by_count (Counter (map user_id rows)) <> [].
Proof.
  destruct rows as [|t rows]; [congruence|]. intros _ E.
  assert (Hin : In (user_id t, tasks_of (user_id t) (t :: rows))
                   (sorted_by_count (Counter (map user_id (t :: rows))))).
  { apply Counter_items. cbn [fst snd]. split; [reflexivity|].
    unfold tasks_of. cbn [map count_occ].
    destruct (Z.eq_dec (user_id t) (user_id t)); [lia | congruence]. }
  rewrite E in Hin. destruct Hin.
Qed.

(** The test on the snapshot of a table, step by step. *)
Lemma test_on_snapshot
  (clock : nat -> string) (number : Q -> value) (text : string)
  (env : Env) (rows : list Task) (test_results : list logged) :
  let entry name st d := mkLogged name st d (clock (List.length test_results)) in
  let total := VInt (Z.of_nat (List.length rows)) in
  test_task_stats_endpoint clock
    (HttpReplies 200 text (Ok (decoded_stats number (snapshot env rows)))) test_results
  = if (Z.of_nat (List.length rows) <? 6)%Z
    then (false, test_results ++ [entry "Task Stats Count" "FAILED" (DTooFew total)])
    else
      match sorted_by_count (Counter (map user_id rows)) with
      | [] => (false, test_results ++ [entry "Task Stats Top Users" "FAILED" DNoTopUsers])
      | (u, c) :: _ =>
          if (Z.of_nat c =? 3)%Z
          then (true, test_results ++
                        [entry "Task Stats Endpoint" "PASSED"
                           (DTotals total
                              (VInt (Z.of_nat (List.length (Counter (map user_id rows))))))])
          else (false, test_results ++
                         [entry "Task Stats Top User Verification" "FAILED"
                            (DTopUser (VInt (Z.of_nat c)))])
      end.
Proof.
  cbv zeta.
  unfold test_task_stats_endpoint, task_stats_checks, decoded_stats, snapshot, log_result,
    print_summary, most_common.
  cbn [total_tasks users_with_tasks recent_tasks top_productive_users total_users error
       avg_tasks_per_user avg_tasks_per_active_user system_status task_service user_service].
  cbn -[Z.of_nat Z.ltb Z.eqb sorted_by_count Counter firstn].
  destruct (Z.of_nat (List.length rows) <? 6)%Z; [reflexivity|].
  destruct (sorted_by_count (Counter (map user_id rows))) as [|[u c] rest]; [reflexivity|].
  cbn -[Z.of_nat Z.ltb Z.eqb].
  destruct (Z.of_nat c =? 3)%Z; reflexivity.
Qed.

(** The test on the decoded snapshot of a table. *)
Lemma test_against_snapshot
  (clock : nat -> string) (number : Q -> value) (text : string)
  (env : Env) (rows : list Task) (s : Stats) (test_results : list logged) :
  stats_of (reply (serve (get_task_stats env) rows)) = Some s ->
  let run := test_task_stats_endpoint clock
               (HttpReplies 200 text (Ok (decoded_stats number s))) test_results in
  let entry name st d := mkLogged name st d (clock (List.length test_results)) in
  let total := VInt (Z.of_nat (List.length rows)) in
  (fst run = true <->
   6 <= List.length rows /\
   (exists u, tasks_of u rows = 3) /\ (forall u, tasks_of u rows <= 3)) /\
  (fst run = true ->
   snd run = test_results ++
             [entry "Task Stats Endpoint" "PASSED"
                (DTotals total (VInt (Z.of_nat (users_with_tasks s))))]) /\
  (List.length rows < 6 ->
   snd run = test_results ++ [entry "Task Stats Count" "FAILED" (DTooFew total)]) /\
  (6 <= List.length rows -> fst run = false ->
   exists u,
     tasks_of u rows <> 3 /\ (forall v, tasks_of v rows <= tasks_of u rows) /\
     snd run = test_results ++
               [entry "Task Stats Top User Verification" "FAILED"
                  (DTopUser (VInt (Z.of_nat (tasks_of u rows))))]).
Proof.
  intros H. apply get_task_stats_snapshot in H. destruct H as (_ & -> & _).
  cbv zeta. rewrite test_on_snapshot. cbv zeta.
  change (users_with_tasks (snapshot env rows))
    with (List.length (Counter (map user_id rows))).
  destruct (Z.ltb_spec (Z.of_nat (List.length rows)) 6) as [Hlt|Hge].
  { cbn [fst snd]. split; [split; [discriminate | lia]|].
    split; [discriminate|]. split; [reflexivity | lia]. }
  assert (Hne : rows <> []) by (intros ->; cbn in Hge; lia).
  pose proof (ranking_of_tasks rows Hne) as Hr.
  destruct (sorted_by_count (Counter (map user_id rows))) as [|[u c] rest] eqn:E;
    [congruence|].
  destruct (busiest_owner rows u c rest E) as [Hc Hmax].
  destruct (Z.eqb_spec (Z.of_nat c) 3) as [H3|H3]; cbn [fst snd].
  - assert (Hu : tasks_of u rows = 3) by lia.
    split; [split; [intros _|reflexivity]|].
    + split; [lia|]. split; [exists u; exact Hu|].
      intros v. specialize (Hmax v). lia.
    + split; [reflexivity|]. split; [lia | discriminate].
  - split; [split; [discriminate|]|].
    + intros (_ & (v & Hv) & Hall). specialize (Hmax v). specialize (Hall u). lia.
    + split; [discriminate|]. split; [lia|]. intros _ _.
      exists u. rewrite <- Hc. split; [lia|]. split; [exact Hmax | reflexivity].
Qed.

(** X21: [test_task_stats_endpoint] run on what [get_task_stats] answers with
    a 200, whatever was logged before and however the two averages are
    written: it returns True exactly when the table has at least 6 rows
    and the owner with the most tasks has exactly 3.  With fewer than 6
    rows it logs the failure [Task Stats Count]; with 6 rows or more and
    a largest number of tasks other than 3, the failure [Task Stats Top
    User Verification]; it logs one result in every case. *)
Theorem task_stats_test_against_handler
  (clock : nat -> string) (number : Q -> value) (text : string)
  (env : Env) (rows : list Task) (s : Stats) (test_results : list logged) :
  stats_of (reply (serve (get_task_stats env) rows)) = Some s ->
  let run := test_task_stats_endpoint clock
               (HttpReplies 200 text (Ok (decoded_stats number s))) test_results in
  let entry name st d := mkLogged name st d (clock (List.length test_results)) in
  let total := VInt (Z.of_nat (List.length rows)) in
  (fst run = true <->
   6 <= List.length rows /\
   (exists u, tasks_of u rows = 3) /\ (forall u, tasks_of u rows <= 3)) /\
  (fst run = true ->
   snd run = test_results ++
             [entry "Task Stats Endpoint" "PASSED"
                (DTotals total (VInt (Z.of_nat (users_with_tasks s))))]) /\
  (List.length rows < 6 ->
   snd run = test_results ++ [entry "Task Stats Count" "FAILED" (DTooFew total)]) /\
  (6 <= List.length rows -> fst run = false ->
   exists u,
     tasks_of u rows <> 3 /\ (forall v, tasks_of v rows <= tasks_of u rows) /\
     snd run = test_results ++
               [entry "Task Stats Top User Verification" "FAILED"
                  (DTopUser (VInt (Z.of_nat (tasks_of u rows))))]).
Proof.
  exact (test_against_snapshot clock number text env rows s test_results).
Qed.

Lemma task_stats_test_against_handler_witness :
  fst (test_task_stats_endpoint (fun _ => "2024-01-01T00:00:01")
         (HttpReplies 200 ""
            (Ok (decoded_stats (fun _ => VFloat 1.5%float)
                   (snapshot (quiet (peer_with_users 4)) demo_rows)))) []) = true.
Proof.
  apply (task_stats_test_against_handler (fun _ => "2024-01-01T00:00:01")
           (fun _ => VFloat 1.5%float) "" (quiet (peer_with_users 4)) demo_rows
           (snapshot (quiet (peer_with_users 4)) demo_rows) []); [reflexivity|].
  split; [cbn; lia|]. split; [exists 1%Z; reflexivity|].
  intros u. unfold tasks_of. cbn [demo_rows map user_id count_occ].
  repeat match goal with |- context [Z.eq_dec ?a ?b] => destruct (Z.eq_dec a b) end; lia.
Defined.

(** ** The integration test on any response *)

(** What the body of the [try] has logged when it returns or raises. *)
Lemma checks_log (clock : nat -> string) (response : http_reply) (test_results : list logged) :
  match task_stats_checks clock response test_results with
  | (Ok true, results) =>
      exists d, results = test_results ++
                  [mkLogged "Task Stats Endpoint" "PASSED" d (clock (List.length test_results))]
  | (Ok false, results) =>
      exists name d, results = test_results ++
                  [mkLogged name "FAILED" d (clock (List.length test_results))]
  | (Raise e, results) =>
      results = test_results \/
      exists d, results = test_results ++
                  [mkLogged "Task Stats Endpoint" "PASSED" d (clock (List.length test_results))]
  end.
Proof.
  unfold task_stats_checks, log_result.
  destruct response as [e|code text decoded]; [now left|].
  destruct (negb (code =? 200)%Z); [do 2 eexists; reflexivity|].
  destruct decoded as [stats|e]; [|now left].
  destruct (missing _ stats) as [[|f fs]|e]; [| do 2 eexists; reflexivity | now left].
  destruct (getitem stats "tasks") as [tasks_section|e]; [|now left].
  destruct (missing _ tasks_section) as [[|f fs]|e]; [| do 2 eexists; reflexivity | now left].
  destruct (getitem tasks_section "total_tasks") as [total|e]; [|now left].
  destruct (less_than_6 total) as [[|]|e]; [do 2 eexists; reflexivity | | now left].
  destruct (getitem stats "productivity_metrics") as [prod_metrics|e]; [|now left].
  destruct (missing _ prod_metrics) as [[|f fs]|e]; [| do 2 eexists; reflexivity | now left].
  destruct (getitem tasks_section "top_productive_users") as [top_users|e]; [|now left].
  destruct top_users as [| | | | |[|first rest]|]; try (do 2 eexists; reflexivity).
  destruct (getitem first "task_count") as [count|e]; [|now left].
  destruct (differs_from_3 count); [do 2 eexists; reflexivity|].
  destruct (getitem tasks_section "users_with_tasks") as [active|e]; [|now left].
  destruct (print_summary tasks_section prod_metrics first) as [[]|e].
  - eexists; reflexivity.
  - right. eexists; reflexivity.
Qed.

(** X19: [test_task_stats_endpoint] on any response: it logs one result,
    FAILED when it returns False and PASSED when it returns True; or it
    logs two, the result PASSED followed by the result FAILED of an
    exception, and returns False.  The second case is that of a value
    printed after the checks that cannot be read. *)
Theorem task_stats_test_log
  (clock : nat -> string) (response : http_reply) (test_results : list logged) :
  let run := test_task_stats_endpoint clock response test_results in
  (exists e, snd run = test_results ++ [e] /\
             StatsIntegrationTest.status e = (if fst run then "PASSED" else "FAILED")) \/
  (fst run = false /\
   exists e1 e2 text,
     snd run = test_results ++ [e1; e2] /\
     test_name e1 = "Task Stats Endpoint" /\ StatsIntegrationTest.status e1 = "PASSED" /\
     e2 = mkLogged "Task Stats Endpoint" "FAILED" (DException text)
                   (clock (S (List.length test_results)))).
Proof.
  cbv zeta. unfold test_task_stats_endpoint.
  pose proof (checks_log clock response test_results) as H.
  destruct (task_stats_checks clock response test_results) as [[[|]|e] results];
    cbn [fst snd].
  - destruct H as (d & ->). left. eexists. split; reflexivity.
  - destruct H as (name & d & ->). left. eexists. split; reflexivity.
  - destruct H as [->|(d & ->)].
    + left. eexists. split; reflexivity.
    + right. split; [reflexivity|]. do 3 eexists.
      unfold log_result. rewrite <- app_assoc. cbn [app].
      split; [reflexivity|]. split; [reflexivity|]. split; [reflexivity|].
      rewrite length_app. cbn [List.length]. do 2 f_equal. lia.
Qed.

Lemma task_stats_test_log_witness :
  let run := test_task_stats_endpoint (fun _ => "2024-01-01T00:00:01")
               top_user_without_id [] in
  fst run = false /\
  exists e1 e2 text,
    snd run = [e1; e2] /\
    StatsIntegrationTest.status e1 = "PASSED" /\
    e2 = mkLogged "Task Stats Endpoint" "FAILED" (DException text) "2024-01-01T00:00:01".
Proof.
  destruct (task_stats_test_log (fun _ => "2024-01-01T00:00:01") top_user_without_id [])
    as [(e & H & _)|(Hf & e1 & e2 & text & Hs & _ & Hp & He)].
  - apply (f_equal (@List.length logged)) in H. vm_compute in H. discriminate.
  - split; [exact Hf|]. exists e1, e2, text. repeat split; assumption.
Defined.

Lemma missing_none (fields : list string) (container : value) :
  missing fields container = Ok [] ->
  forall key, In key fields -> contains key container = Ok true.
Proof.
  induction fields as [|f fs IH]; cbn [missing In]; [tauto|].
  destruct (contains f container) as [found|e] eqn:Hf; [|discriminate].
  destruct (missing fs container) as [r|e]; [|discriminate].
  destruct found; [|discriminate].
  intros Hr key [<-|Hk]; [exact Hf | now apply IH].
Qed.

(** X20: when [test_task_stats_endpoint] returns True, the response had
    status 200 and a body that decodes to a value holding the five
    top-level keys, a [total_tasks] that is not less than 6, and a
    non-empty list [top_productive_users] whose first entry has a
    [task_count] equal to 3 and a [user_id]. *)
Theorem task_stats_test_requirements
  (clock : nat -> string) (response : http_reply) (test_results : list logged) :
  fst (test_task_stats_endpoint clock response test_results) = true ->
  exists text stats tasks_section total first rest count,
    response = HttpReplies 200 text (Ok stats) /\
    getitem stats "tasks" = Ok tasks_section /\
    getitem tasks_section "total_tasks" = Ok total /\
    less_than_6 total = Ok false /\
    getitem tasks_section "top_productive_users" = Ok (VList (first :: rest)) /\
    getitem first "task_count" = Ok count /\
    differs_from_3 count = false /\
    (exists user, getitem first "user_id" = Ok user) /\
    (forall key, In key ["timestamp"; "tasks"; "users"; "productivity_metrics"; "system"] ->
                 contains key stats = Ok true).
Proof.
  unfold test_task_stats_endpoint, task_stats_checks, log_result.
  destruct response as [e|code text decoded]; [discriminate|].
  destruct (Z.eqb_spec code 200) as [->|Hne]; cbn [negb]; [|discriminate].
  destruct decoded as [stats|e]; [|discriminate].
  destruct (missing _ stats) as [[|f fs]|e] eqn:Hm; [| discriminate | discriminate].
  destruct (getitem stats "tasks") as [tasks_section|e] eqn:H1; [|discriminate].
  destruct (missing _ tasks_section) as [[|f fs]|e]; [| discriminate | discriminate].
  destruct (getitem tasks_section "total_tasks") as [total|e] eqn:H2; [|discriminate].
  destruct (less_than_6 total) as [[|]|e] eqn:H3; [discriminate | | discriminate].
  destruct (getitem stats "productivity_metrics") as [prod_metrics|e]; [|discriminate].
  destruct (missing _ prod_metrics) as [[|f fs]|e]; [| discriminate | discriminate].
  destruct (getitem tasks_section "top_productive_users") as [top_users|e] eqn:H4;
    [|discriminate].
  destruct top_users as [| | | | |[|first rest]|]; try discriminate.
  destruct (getitem first "task_count") as [count|e] eqn:H5; [|discriminate].
  destruct (differs_from_3 count) eqn:H6; [discriminate|].
  destruct (getitem tasks_section "users_with_tasks") as [active|e]; [|discriminate].
  destruct (print_summary tasks_section prod_metrics first) as [[]|e] eqn:Hp; [|discriminate].
  intros _. exists text, stats, tasks_section, total, first, rest, count.
  do 7 (split; [reflexivity || assumption|]). split.
  - unfold print_summary in Hp.
    repeat match type of Hp with
    | match ?x with Ok _ => _ | Raise _ => _ end = _ =>
        destruct x eqn:?; [|discriminate]
    end.
    eexists; reflexivity.
  - exact (missing_none _ _ Hm).
Qed.

Lemma task_stats_test_requirements_witness :
  exists text stats,
    HttpReplies 200 "OK"
      (Ok (decoded_stats (fun _ => VFloat 1.5%float)
             (snapshot (quiet (peer_with_users 4)) demo_rows)))
    = HttpReplies 200 text (Ok stats) /\
    contains "tasks" stats = Ok true.
Proof.
  destruct (task_stats_test_requirements (fun _ => "2024-01-01T00:00:01")
              (HttpReplies 200 "OK"
                 (Ok (decoded_stats (fun _ => VFloat 1.5%float)
                        (snapshot (quiet (peer_with_users 4)) demo_rows)))) [])
    as (text & stats & tasks_section & total & first & rest & count
        & H0 & _ & _ & _ & _ & _ & _ & _ & Hkeys).
  - vm_compute. reflexivity.
  - exists text, stats. split; [exact H0|]. apply Hkeys. cbn [In]. tauto.
Defined.

(** ** Deleting every task *)

(** X12: [cleanup_tasks]: when the DELETE and the COMMIT go through, the
    answer is 200 with the number of rows the table had and the table is
    empty, so that a second call reports 0; when one of the two fails, the
    answer is 500 with the text of the exception and the table is as it
    was.  The user service is not called. *)
Theorem cleanup_tasks_contract (env : Env) (rows : list Task) :
  let out := serve (cleanup_tasks env) rows in
  let deleted n :=
    mkResponse 200 (PMessage (append "Deleted " (append (str_of_nat n) " tasks"))) in
  calls out = [] /\
  ((forall k, k < 2 -> db_fault env k = None) ->
   reply out = deleted (List.length rows) /\ store out = [] /\
   forall env', (forall k, k < 2 -> db_fault env' k = None) ->
     reply (serve (cleanup_tasks env') (store out)) = deleted 0) /\
  (forall e, db_fault env 0 = Some e \/ (db_fault env 0 = None /\ db_fault env 1 = Some e) ->
   reply out = mkResponse 500 (PError (exn_text e)) /\ store out = rows).
Proof.
  cbv zeta. split; [apply cleanup_tasks_run|]. split.
  - intros Hq.
    assert (H : forall env0 rows0, (forall k, k < 2 -> db_fault env0 k = None) ->
              reply (serve (cleanup_tasks env0) rows0)
              = mkResponse 200
                  (PMessage (append "Deleted "
                               (append (str_of_nat (List.length rows0)) " tasks"))) /\
              store (serve (cleanup_tasks env0) rows0) = []).
    { intros env0 rows0 H0. unfold cleanup_tasks. run_handler.
      rewrite !H0 by lia. cbn. split; reflexivity. }
    destruct (H env rows Hq) as [Hr Hs]. split; [exact Hr|]. split; [exact Hs|].
    intros env' Hq'. rewrite Hs. apply (H env' [] Hq').
  - intros e He. unfold cleanup_tasks. run_handler.
    destruct He as [H0|[H0 H1]]; rewrite H0; [cbn; split; reflexivity|].
    rewrite H1. cbn. split; reflexivity.
Qed.

Lemma cleanup_tasks_contract_witness :
  reply (serve (cleanup_tasks (quiet peer_down)) demo_rows)
  = mkResponse 200 (PMessage "Deleted 6 tasks") /\
  reply (serve (cleanup_tasks second_statement_fails) demo_rows)
  = mkResponse 500 (PError "database is locked").
Proof.
  split.
  - apply (cleanup_tasks_contract (quiet peer_down) demo_rows). reflexivity.
  - destruct (cleanup_tasks_contract second_statement_fails demo_rows) as (_ & _ & H).
    apply (H (mkExn "OperationalError" "database is locked")).
    right. split; reflexivity.
Defined.

Lemma create_task_non_object_body_witness :
  exists e, serve (create_task (quiet peer_down) (JList [JInt 1])) demo_rows
            = mkOutcome (mkResponse 500 (PUncaught e)) demo_rows [] 0 /\
            exn_class e = "AttributeError".
Proof.
  apply (create_task_non_object_body (quiet peer_down) (JList [JInt 1]) demo_rows).
  - reflexivity.
  - discriminate.
Defined.

(** ** From the set-up of the test to its verdict *)

(** When every POST of the set-up is answered, the database goes through
    and the user service confirms the three owners, the six tasks are
    stored after the rows the table had. *)
Lemma post_tasks_all_created
  (env : nat -> Env) (net : nat -> transport) (a b c : Z) (rows : list Task) :
  a <> 0%Z -> b <> 0%Z -> c <> 0%Z ->
  (forall i, i < 6 -> net i = Delivered) ->
  (forall i n, i < 6 -> n < 3 -> db_fault (env i) n = None) ->
  (forall i u, i < 6 -> In u [a; b; c] ->
               exists answer, peer (env i) (GetUser (JInt u)) = PeerReplies 200 answer) ->
  exists t1 t2 t3 t4 t5 t6,
    post_tasks env net 0 (test_tasks (JInt a) (JInt b) (JInt c)) rows []
    = ([PTask t1; PTask t2; PTask t3; PTask t4; PTask t5; PTask t6],
       rows ++ [t1; t2; t3; t4; t5; t6]) /\
    map user_id [t1; t2; t3; t4; t5; t6] = [a; a; a; b; b; c] /\
    map title [t1; t2; t3; t4; t5; t6]
    = ["Task 1 for Alice"; "Task 2 for Alice"; "Task 3 for Alice";
       "Task 1 for Bob"; "Task 2 for Bob"; "Task 1 for Carol"].
Proof.
  intros Ha Hb Hc Hnet Hdb Hpeer.
  assert (step : forall i s u rows0, i < 6 -> In u [a; b; c] -> s <> "" ->
            serve (create_task (env i) (JObj [("title", JStr s); ("user_id", JInt u)])) rows0
            = mkOutcome (mkResponse 201 (PTask (mkTask (next_id rows0) s u)))
                        (rows0 ++ [mkTask (next_id rows0) s u]) [GetUser (JInt u)] 3).
  { intros i s u rows0 Hi Hu Hs.
    destruct (Hpeer i u Hi Hu) as [answer Hp].
    apply (create_task_persists (env i) _ s u answer rows0);
      [reflexivity | exact Hs | reflexivity | | exact Hp | intros n Hn; now apply Hdb].
    cbn [In] in Hu. intuition congruence. }
  unfold test_tasks. cbn [post_tasks].
  repeat (rewrite Hnet by lia; rewrite step by (try lia; try discriminate; cbn [In]; tauto);
          cbn [store reply status_code body Z.eqb Pos.eqb app]).
  do 6 eexists. rewrite <- !app_assoc. cbn [app].
  split; [reflexivity|]. split; reflexivity.
Qed.

(** X22: the six tasks of [setup_test_data] posted to [create_task], then
    [test_task_stats_endpoint] run on the answer of [get_task_stats]:
    when the six requests go through, six tasks are created, and the test
    returns True exactly when, before the set-up, the first owner had no
    task, the second at most one, the third at most two and every owner
    at most three. *)
Theorem setup_then_task_stats_test
  (env : nat -> Env) (net : nat -> transport) (a b c : Z) (rows : list Task)
  (env' : Env) (s : Stats)
  (clock : nat -> string) (number : Q -> value) (text : string) (test_results : list logged) :
  a <> 0%Z -> b <> 0%Z -> c <> 0%Z -> a <> b -> a <> c -> b <> c ->
  (forall i, i < 6 -> net i = Delivered) ->
  (forall i n, i < 6 -> n < 3 -> db_fault (env i) n = None) ->
  (forall i u, i < 6 -> In u [a; b; c] ->
               exists answer, peer (env i) (GetUser (JInt u)) = PeerReplies 200 answer) ->
  let setup := post_tasks env net 0 (test_tasks (JInt a) (JInt b) (JInt c)) rows [] in
  stats_of (reply (serve (get_task_stats env') (snd setup))) = Some s ->
  List.length (fst setup) = 6 /\
  List.length (snd setup) = List.length rows + 6 /\
  (fst (test_task_stats_endpoint clock
          (HttpReplies 200 text (Ok (decoded_stats number s))) test_results) = true
   <-> tasks_of a rows = 0 /\ tasks_of b rows <= 1 /\ tasks_of c rows <= 2 /\
       forall u, tasks_of u rows <= 3).
Proof.
  intros Ha Hb Hc Hab Hac Hbc Hnet Hdb Hpeer.
  destruct (post_tasks_all_created env net a b c rows Ha Hb Hc Hnet Hdb Hpeer)
    as (t1 & t2 & t3 & t4 & t5 & t6 & -> & Hu & _).
  cbv zeta. cbn [fst snd]. intros Hs.
  split; [reflexivity|]. split; [rewrite length_app; reflexivity|].
  destruct (test_against_snapshot clock number text env' _ s test_results Hs) as [-> _].
  assert (Hn : forall u, tasks_of u (rows ++ [t1; t2; t3; t4; t5; t6])
                         = tasks_of u rows + count_occ Z.eq_dec [a; a; a; b; b; c] u).
  { intros u. unfold tasks_of. now rewrite map_app, count_occ_app, Hu. }
  assert (Ha3 : count_occ Z.eq_dec [a; a; a; b; b; c] a = 3).
  { cbn [count_occ]. repeat destruct (Z.eq_dec _ _); congruence. }
  assert (Hb2 : count_occ Z.eq_dec [a; a; a; b; b; c] b = 2).
  { cbn [count_occ]. repeat destruct (Z.eq_dec _ _); congruence. }
  assert (Hc1 : count_occ Z.eq_dec [a; a; a; b; b; c] c = 1).
  { cbn [count_occ]. repeat destruct (Z.eq_dec _ _); congruence. }
  assert (Hle : forall u, count_occ Z.eq_dec [a; a; a; b; b; c] u <= 3).
  { intros u. cbn [count_occ]. repeat destruct (Z.eq_dec _ _); try lia; congruence. }
  assert (Hother : forall u, u <> a -> u <> b -> u <> c ->
                             count_occ Z.eq_dec [a; a; a; b; b; c] u = 0).
  { intros u H1 H2 H3. cbn [count_occ]. repeat destruct (Z.eq_dec _ _); congruence. }
  split.
  - intros (_ & _ & Hall).
    pose proof (Hall a) as Wa. pose proof (Hall b) as Wb. pose proof (Hall c) as Wc.
    rewrite Hn in Wa, Wb, Wc. rewrite Ha3 in Wa. rewrite Hb2 in Wb. rewrite Hc1 in Wc.
    repeat split; try lia.
    intros u. specialize (Hall u). rewrite Hn in Hall. lia.
  - intros (Wa & Wb & Wc & Hall). split; [rewrite length_app; cbn [List.length]; lia|].
    split.
    + exists a. rewrite Hn, Ha3. lia.
    + intros u. rewrite Hn.
      destruct (Z.eq_dec u a) as [->|Na]; [lia|].
      destruct (Z.eq_dec u b) as [->|Nb]; [lia|].
      destruct (Z.eq_dec u c) as [->|Nc]; [lia|].
      rewrite Hother by assumption. specialize (Hall u). lia.
Qed.

Lemma setup_then_task_stats_test_witness :
  let service := quiet (peer_with_users 4) in
  let setup := post_tasks (fun _ => service) (fun _ => Delivered) 0
                 (test_tasks (JInt 1) (JInt 2) (JInt 3)) [] [] in
  fst (test_task_stats_endpoint (fun _ => "2024-01-01T00:00:01")
         (HttpReplies 200 "OK"
            (Ok (decoded_stats (fun _ => VFloat 1.5%float) (snapshot service (snd setup)))))
         []) = true.
Proof.
  cbv zeta.
  refine (proj2 (proj2 (proj2
    (setup_then_task_stats_test
       (fun _ => quiet (peer_with_users 4)) (fun _ => Delivered) 1 2 3 []
       (quiet (peer_with_users 4))
       (snapshot (quiet (peer_with_users 4))
          (snd (post_tasks (fun _ => quiet (peer_with_users 4)) (fun _ => Delivered) 0
                  (test_tasks (JInt 1) (JInt 2) (JInt 3)) [] [])))
       (fun _ => "2024-01-01T00:00:01") (fun _ => VFloat 1.5%float) "OK" []
       _ _ _ _ _ _ _ _ _ _))) _).
  1-6: discriminate.
  - reflexivity.
  - reflexivity.
  - intros i u _ Hu. cbn [In] in Hu.
    destruct Hu as [<-|[<-|[<-|[]]]]; eexists; reflexivity.
  - reflexivity.
  - cbn. repeat split; lia.
Defined.
